(** * Hedera wallet snap: the facades

    A shallow embedding of the five facade classes of the snap
    (CreateTopicFacade, AssociateTokensFacade, StakeHbarFacade,
    UpdateTokenFeeScheduleFacade and AtomicSwapFacade) together with the
    properties their description states about them.

    - JavaScript numbers are IEEE-754 binary64 values, represented by
      [spec_float] with the operations of [SpecFloat] at precision 53.
    - A JavaScript string is represented by its UTF-8 encoding, one byte
      per character of the Rocq string.
    - [Record<string, number>] objects and the nested [accountState] object
      are finite maps with string keys.
    - An [async] method is a program of the monad [prog]: a tree of calls to
      the collaborators (SDK client factory, commands, dialogs, mirror node,
      persisted state), each of which may return or throw, with [try_catch]
      for the [try { } catch { }] blocks.  Running a program against an
      environment yields the outcome and the trace of the calls made. *)

From Stdlib Require Import ZArith Bool List Lia Ascii.
From Stdlib Require Import Floats.SpecFloat.
From stdpp Require Import base option list gmap strings pretty.

Set Implicit Arguments.
Unset Strict Implicit.
Set Default Proof Using "Type".

Local Open Scope Z_scope.

(** ** JavaScript numbers *)

Module JsNumber.

Definition number : Type := spec_float.

Definition prec : Z := 53.
Definition emax : Z := 1024.

Definition NaN : number := S754_nan.
Definition zero : number := S754_zero false.

(** Integer literals of the source ([0], [2.0], [100.0], [10]). *)
Definition of_Z (z : Z) : number := binary_normalize prec emax z 0 false.

Definition add : number -> number -> number := SFadd prec emax.
Definition sub : number -> number -> number := SFsub prec emax.
Definition mul : number -> number -> number := SFmul prec emax.
Definition div : number -> number -> number := SFdiv prec emax.
Definition ltb : number -> number -> bool := SFltb.

(** [Number.isFinite]. *)
Definition isFinite (x : number) : bool :=
  match x with
  | S754_zero _ | S754_finite _ _ _ => true
  | S754_infinity _ | S754_nan => false
  end.

(** ToBoolean on a number: [0], [-0] and [NaN] are falsy. *)
Definition truthy (x : number) : bool :=
  match x with
  | S754_zero _ | S754_nan => false
  | S754_infinity _ | S754_finite _ _ _ => true
  end.

Definition is_zero (x : number) : bool :=
  match x with S754_zero _ => true | _ => false end.

(** [m * 2^e >= 10^21], the threshold above which [toFixed] falls back to
    [ToString]. *)
Definition ge_1e21 (m : positive) (e : Z) : bool :=
  if 0 <=? e then 10 ^ 21 <=? Zpos m * 2 ^ e
  else 10 ^ 21 * 2 ^ (- e) <=? Zpos m.

(** The integer [n] for which [n / 100 - m * 2^e] is closest to zero, the
    larger one when there are two. *)
Definition hundredths (m : positive) (e : Z) : Z :=
  if 0 <=? e then 100 * Zpos m * 2 ^ e
  else (200 * Zpos m + 2 ^ (- e)) / 2 ^ (1 - e).

(** [Number(x.toFixed(2))]: [toFixed(2)] prints the decimal with two
    fraction digits nearest to [x] (sign first, magnitude rounded half
    up), and [Number] reads the string back as the nearest double.  A
    non-finite [x], or one of magnitude at least [10^21], is printed by
    [ToString] and read back unchanged. *)
Definition toFixed2 (x : number) : number :=
  match x with
  | S754_zero _ => S754_zero false
  | S754_finite s m e =>
      if ge_1e21 m e then x
      else match hundredths m e with
           | Zpos n => div (S754_finite s n 0) (S754_finite false 100 0)
           | _ => S754_zero s
           end
  | _ => x
  end.

End JsNumber.

Import JsNumber.

Local Open Scope string_scope.
Local Open Scope list_scope.

(** ** Data of the request, of the wallet state and of the mirror node *)

(** The nodes of a snap panel ([heading], [text], [divider], [copyable] of
    the snaps SDK). *)
Inductive Node : Type :=
| heading (value : string)
| text (value : string)
| divider
| copyable (value : string).

(** [SimpleTransfer]; an absent optional field is [None]. *)
Record SimpleTransfer : Type := {
  assetType : string;
  to : string;
  amount : number;
  assetId : option string;
  from : option string;
  decimals : option number
}.

Record AtomicSwap : Type := {
  requester : SimpleTransfer;
  responder : SimpleTransfer
}.

Record ServiceFee : Type := {
  percentageCut : number;
  toAddress : option string
}.

Record InitiateSwapRequestParams : Type := {
  atomicSwaps : option (list AtomicSwap);
  swapMemo : option string;            (* [memo] *)
  maxFee : option number;
  serviceFee : option ServiceFee
}.

Record SignScheduledTxParams : Type := { scheduleId : string }.

Record CreateTopicRequestParams : Type := {
  memo : option string;
  adminKey : option string;
  submitKey : option string;
  autoRenewPeriod : option number;
  autoRenewAccount : option string
}.

Record AssociateTokensRequestParams : Type := {
  tokenIds : option (list string)
}.

Record StakeHbarRequestParams : Type := {
  nodeId : option number;
  accountId : option string
}.

Record TokenCustomFee : Type := {
  feeCollectorAccountId : string;
  hbarAmount : option number;
  tokenAmount : option number;
  denominatingTokenId : option string;
  allCollectorsAreExempt : option bool
}.

Record UpdateTokenFeeScheduleRequestParams : Type := {
  tokenId : string;
  customFees : option (list TokenCustomFee)
}.

(** The persisted wallet state, as far as the facades read and write it. *)
Record KeyStore : Type := { privateKey : string; curve : string }.

Record StakingInfo : Type := {
  stakedAccountId : option string;
  stakedNodeId : option string;
  declineStakingReward : bool
}.

Record Account : Type := { stakingInfo : StakingInfo }.

Record AccountState : Type := {
  keyStore : KeyStore;
  accountInfo : Account
}.

Record CurrentAccount : Type := {
  hederaAccountId : string;
  hederaEvmAddress : string;
  network : string;
  mirrorNodeUrl : string
}.

Record WalletState : Type := {
  currentAccount : CurrentAccount;
  accountState : gmap string (gmap string AccountState)
}.

Record WalletSnapParams : Type := {
  origin : string;
  state : WalletState
}.

(** Answers of the mirror node. *)
Record TokenBalance : Type := {
  tokenBalance : number;               (* [balance] *)
  tokenDecimals : number               (* [decimals] *)
}.

Record WalletBalance : Type := {
  hbars : number;
  tokens : gmap string TokenBalance
}.

Record AccountInfo : Type := { balance : WalletBalance }.

Record MirrorTokenInfo : Type := {
  name : string;
  type : string;
  symbol : string;
  total_supply : string;
  max_supply : string;
  infoDecimals : string                (* [decimals] *)
}.

Record StakingPeriod : Type := { periodFrom : string; periodTo : string }.

Record MirrorStakingInfo : Type := {
  description : string;
  node_id : number;
  node_account_id : string;
  stake : number;
  staking_period : StakingPeriod
}.

(** What a method may throw: the four [rpcErrors] constructors the facades
    use, the [TypeError] of a property read on [undefined], and whatever a
    collaborator rejects with. *)
Inductive exn : Type :=
| transactionRejected (msg : string)
| invalidParams (msg : string)
| resourceUnavailable (msg : string)
| methodNotSupported (msg : string)
| TypeError (msg : string)
| Failure (msg : string).

(** ** The collaborators

    The SDK objects, the panel the snap host renders and the receipts are
    opaque to the facades; so are the conversions of the JavaScript runtime
    used inside template literals and the small helpers of [SnapUtils] and
    [Utils] that only format.  They are the fields of one class. *)
Class Collaborators : Type := {
  TxRecord : Type;
  Client : Type;
  PrivateKey : Type;
  Panel : Type;
  (** [String(n)], [n.toString()] and a number inside a template literal *)
  numberToString : number -> string;
  (** [Number(s)] on a string *)
  stringToNumber : string -> number;
  (** [Math.pow] *)
  mathPow : number -> number -> number;
  (** [String(error)] *)
  errorToString : exn -> string;
  (** [SnapUtils.formatFeeDisplay] *)
  formatFeeDisplay : number -> SimpleTransfer -> Node;
  (** [Hbar.from(stake, HbarUnit.Tinybar).toString()] *)
  hbarFromTinybar : number -> string;
  (** [Utils.timestampToString] *)
  timestampToString : string -> string;
  (** [SnapUtils.initializePanelToShow()] *)
  initializePanelToShow : list Node
}.

(** [TxReceipt] and [TxRecord] are both receipts handed through unchanged;
    one carrier serves for the two. *)
Definition TxReceipt `{Collaborators} : Type := TxRecord.

(** ** Calls, programs and runs *)

(** The answer to a call: the value the promise resolves to, or the error
    it rejects with. *)
Inductive result (X : Type) : Type :=
| Ok (x : X)
| Err (e : exn).
Arguments Ok {X} x.
Arguments Err {X} e.

(** How a method ends. *)
Inductive outcome (R : Type) : Type :=
| Returned (r : R)
| Thrown (e : exn).
Arguments Returned {R} r.
Arguments Thrown {R} e.

Section Programs.

Context `{C : Collaborators}.

(** [HederaClientImpl], with its two accessors. *)
Record HederaClient : Type := {
  getClient : Client;
  getPrivateKey : option PrivateKey
}.

Record DialogParams : Type := {
  dialogType : string;               (* [type] *)
  content : Panel
}.

(** The command objects, by constructor arguments. *)
Inductive Command : Type :=
| CreateTopicCommand (memo adminKey submitKey : option string)
    (autoRenewPeriod : option number) (autoRenewAccount : option string)
| AssociateTokensCommand (tokenIds : list string)
| StakeHbarCommand (nodeId : option number) (accountId : option string)
| UpdateTokenFeeScheduleCommand (tokenId : string) (key : PrivateKey)
    (decimals : number) (customFees : list TokenCustomFee)
| AtomicSwapCommand (atomicSwaps : list AtomicSwap) (memo : option string)
    (maxFee : option number) (serviceFeesToPay : gmap string number)
    (toAddress : option string).

(** The method of the command a facade calls. *)
Inductive Method : Type :=
| execute
| initiateSwapOn
| completeSwapOn (scheduleId : string).

(** One constructor per awaited collaborator; the index is the type of
    the value the promise resolves to. *)
Inductive call : Type -> Type :=
| createClient (accountId network curve privateKey : string)
    : call (option HederaClient)
| getMirrorAccountInfo (accountId mirrorNodeUrl : string) : call AccountInfo
| getTokenById (tokenId mirrorNodeUrl : string)
    : call (option MirrorTokenInfo)   (* [None] is the empty object *)
| getNodeStakingInfo (mirrorNodeUrl : string) (nodeId : number)
    : call (list MirrorStakingInfo)
| generateCommonPanel (origin network mirrorNodeUrl : string)
    (panelToShow : list Node) : call Panel
| snapDialog (params : DialogParams)
    : call bool                        (* the answer, as [!confirmed] reads it *)
| snapCreateDialogAfterTransaction (network : string) (r : TxRecord)
    : call unit
| snapNotification (msg : string) : call unit
| commandCall (c : Command) (m : Method) (client : Client) : call TxRecord
| updateState (st : WalletState) : call unit.

(** What a run leaves behind: each call with its arguments and the answer
    it got, and each [console.error] line. *)
Inductive event : Type :=
| EvCreateClient (accountId network curve privateKey : string)
    (r : result (option HederaClient))
| EvGetMirrorAccountInfo (accountId url : string) (r : result AccountInfo)
| EvGetTokenById (tokenId url : string) (r : result (option MirrorTokenInfo))
| EvGetNodeStakingInfo (url : string) (nodeId : number)
    (r : result (list MirrorStakingInfo))
| EvGenerateCommonPanel (origin network url : string) (panel : list Node)
    (r : result Panel)
| EvSnapDialog (params : DialogParams) (r : result bool)
| EvAfterTransaction (network : string) (receipt : TxRecord) (r : result unit)
| EvNotification (msg : string) (r : result unit)
| EvCommand (c : Command) (m : Method) (client : Client) (r : result TxRecord)
| EvUpdateState (st : WalletState) (r : result unit)
| EvConsoleError (msg : string).

Definition event_of {X : Type} (c : call X) : result X -> event :=
  match c in call X return result X -> event with
  | createClient a n cv k => EvCreateClient a n cv k
  | getMirrorAccountInfo a u => EvGetMirrorAccountInfo a u
  | getTokenById t u => EvGetTokenById t u
  | getNodeStakingInfo u n => EvGetNodeStakingInfo u n
  | generateCommonPanel o n u p => EvGenerateCommonPanel o n u p
  | snapDialog p => EvSnapDialog p
  | snapCreateDialogAfterTransaction n r => EvAfterTransaction n r
  | snapNotification m => EvNotification m
  | commandCall c m cl => EvCommand c m cl
  | updateState st => EvUpdateState st
  end.

(** Programs: return, throw, log a line, or await a call and go on with
    its answer. *)
Inductive prog (R : Type) : Type :=
| Ret (r : R)
| Throw (e : exn)
| Log (msg : string) (k : prog R)
| Vis (X : Type) (c : call X) (k : result X -> prog R).
Arguments Throw {R} e.
Arguments Vis {R X} c k.

Fixpoint bind {A B : Type} (p : prog A) (f : A -> prog B) : prog B :=
  match p with
  | Ret a => f a
  | Throw e => Throw e
  | Log m k => Log m (bind k f)
  | Vis c k => Vis c (fun r => bind (k r) f)
  end.

(** [try { p } catch (error) { h error }] *)
Fixpoint try_catch {A : Type} (p : prog A) (h : exn -> prog A) : prog A :=
  match p with
  | Ret a => Ret a
  | Throw e => h e
  | Log m k => Log m (try_catch k h)
  | Vis c k => Vis c (fun r => try_catch (k r) h)
  end.

(** [await c]: the value the promise resolves to, or its rejection
    thrown. *)
Definition await {X : Type} (c : call X) : prog X :=
  Vis c (fun r => match r with Ok x => Ret x | Err e => Throw e end).

Definition console_error (msg : string) : prog unit := Log msg (Ret tt).

(** The environment answers a call knowing everything that happened
    before it. *)
Definition environment : Type := list event -> forall X, call X -> result X.

(** [run env p past] is the outcome of [p] started after the events
    [past], with the events [p] itself adds. *)
Fixpoint run {R : Type} (env : environment) (p : prog R) (past : list event)
  : outcome R * list event :=
  match p with
  | Ret r => (Returned r, [])
  | Throw e => (Thrown e, [])
  | Log m k =>
      let rest := run env k (past ++ [EvConsoleError m]) in
      (rest.1, EvConsoleError m :: rest.2)
  | Vis c k =>
      let r := env past _ c in
      let rest := run env (k r) (past ++ [event_of c r]) in
      (rest.1, event_of c r :: rest.2)
  end.

End Programs.

Arguments Throw {C R} e.
Arguments Vis {C R X} c k.
Arguments Ret {C R} r.

Declare Scope prog_scope.
Delimit Scope prog_scope with prog.
Notation "x <- p ;; q" := (bind p (fun x => q))
  (at level 100, p at next level, right associativity) : prog_scope.
Notation "p ;;; q" := (bind p (fun _ => q))
  (at level 100, right associativity) : prog_scope.

Local Open Scope prog_scope.

(** ** Small pieces of the JavaScript runtime and of lodash *)

(** The character [U+0022]. *)
Definition dquote : string := String (Ascii.ascii_of_nat 34) EmptyString.

Definition is_line_break (c : Ascii.ascii) : bool :=
  (Ascii.eqb c (Ascii.ascii_of_nat 10) || Ascii.eqb c (Ascii.ascii_of_nat 13))%bool.

Fixpoint string_filter (keep : Ascii.ascii -> bool) (s : string) : string :=
  match s with
  | EmptyString => EmptyString
  | String c r =>
      if keep c then String c (string_filter keep r) else string_filter keep r
  end.

(** A string, by the bytes of its encoding. *)
Definition utf8 (bytes : list nat) : string :=
  fold_right (fun n s => String (Ascii.ascii_of_nat n) s) EmptyString bytes.

(** What [trim] removes: the white space and the line terminators of
    ECMAScript, that is U+0009 to U+000D, U+0020, U+00A0, U+1680, U+2000 to
    U+200A, U+2028, U+2029, U+202F, U+205F, U+3000 and U+FEFF, each by its
    encoding. *)
Definition whiteSpaces : list string :=
  utf8 <$>
    [ [9]; [10]; [11]; [12]; [13]; [32];
      [194; 160];
      [225; 154; 128];
      [226; 128; 128]; [226; 128; 129]; [226; 128; 130]; [226; 128; 131];
      [226; 128; 132]; [226; 128; 133]; [226; 128; 134]; [226; 128; 135];
      [226; 128; 136]; [226; 128; 137]; [226; 128; 138];
      [226; 128; 168]; [226; 128; 169]; [226; 128; 175];
      [226; 129; 159];
      [227; 128; 128];
      [239; 187; 191] ]%nat.

(** [s] without the prefix [p], when it starts with [p]. *)
Fixpoint drop_prefix (p s : string) : option string :=
  match p, s with
  | EmptyString, _ => Some s
  | String a p, String b s => if Ascii.eqb a b then drop_prefix p s else None
  | String _ _, EmptyString => None
  end.

(** [s] without the white-space character it starts with. *)
Definition drop_white (s : string) : option string :=
  head (omap (fun p => drop_prefix p s) whiteSpaces).

(** [String.prototype.trimStart], dropping at most [fuel] characters; the
    length of [s] is fuel enough, since every character dropped is a byte at
    least. *)
Fixpoint trimStartWithin (fuel : nat) (s : string) : string :=
  match fuel with
  | O => s
  | S fuel =>
      match drop_white s with
      | Some r => trimStartWithin fuel r
      | None => s
      end
  end.

Definition trimStart (s : string) : string :=
  trimStartWithin (String.length s) s.

(** [String.prototype.trimEnd]: the rest of the string is trimmed first;
    what is kept of it, with the byte before it, is white space at the end
    only if it is one white-space character as a whole, and then nothing is
    kept. *)
Fixpoint trimEnd (s : string) : string :=
  match s with
  | EmptyString => EmptyString
  | String c r =>
      let kept := String c (trimEnd r) in
      if existsb (String.eqb kept) whiteSpaces then EmptyString else kept
  end.

(** [String.prototype.trim] *)
Definition trim (s : string) : string := trimEnd (trimStart s).

(** [memo ? memo.replace(/\r?\n|\r/gu, '').trim() : ''] *)
Definition strippedMemo (memo : option string) : string :=
  match memo with
  | Some m => trim (string_filter (fun c => negb (is_line_break c)) m)
  | None => ""
  end.

(** [s.split('/')] *)
Fixpoint split_slash (s : string) : list string :=
  match s with
  | EmptyString => [EmptyString]
  | String c r =>
      if Ascii.eqb c "/"%char then EmptyString :: split_slash r
      else match split_slash r with
           | w :: ws => String c w :: ws
           | [] => [String c EmptyString]
           end
  end.

(** [Array.prototype.indexOf] on an array of strings: the first position,
    or [-1]. *)
Fixpoint indexOf (l : list string) (x : string) : Z :=
  match l with
  | [] => (-1)%Z
  | y :: r =>
      if String.eqb y x then 0%Z
      else let i := indexOf r x in if (i <? 0)%Z then (-1)%Z else (i + 1)%Z
  end.

(** [_.isEmpty] on [string | null | undefined]. *)
Definition isEmpty (s : option string) : bool :=
  match s with
  | Some (String _ _) => false
  | _ => true
  end.

(** ToBoolean on [number | null | undefined] and on strings. *)
Definition truthy_opt (o : option number) : bool :=
  match o with Some v => truthy v | None => false end.

Definition truthy_string (s : string) : bool :=
  match s with EmptyString => false | _ => true end.

(** A value of type [string | undefined] where the code takes it for a
    string ([as string]): inside a template literal, as a property key, as
    an argument.  [undefined] then reads as its name. *)
Definition as_string (o : option string) : string := default "undefined" o.

(** [x + y] where [y] may be [undefined]: [undefined] converts to [NaN]. *)
Definition add_undef (x : number) (y : option number) : number :=
  match y with Some v => add x v | None => NaN end.

(** [x > 0] where [x] may be [undefined]. *)
Definition positive_opt (x : option number) : bool :=
  match x with Some v => ltb zero v | None => false end.

(** ** The atomic-swap service fee *)

(** [Number((transfer.amount * (serviceFee.percentageCut / 100.0)).toFixed(2))] *)
Definition serviceFeeOf (percentageCut : number) (transfer : SimpleTransfer) : number :=
  toFixed2 (mul (amount transfer) (div percentageCut (of_Z 100))).

(** The property of [acc] a transfer is recorded under: [transfer.assetType]
    for HBAR, [transfer.assetId as string] otherwise. *)
Definition feeKey (transfer : SimpleTransfer) : string :=
  if String.eqb (assetType transfer) "HBAR" then assetType transfer
  else as_string (assetId transfer).

(** [acc[k] += fee]; an absent property reads as [undefined]. *)
Definition plus_assign (acc : gmap string number) (k : string) (fee : number)
  : gmap string number :=
  <[k := match acc !! k with Some v => add v fee | None => NaN end]> acc.

(** The callback of [transfers.reduce], as far as it changes [acc]. *)
Definition feeReducer (percentageCut : number) (acc : gmap string number)
    (transfer : SimpleTransfer) : gmap string number :=
  let acc :=
    if negb (truthy_opt (acc !! assetType transfer))
    then <[feeKey transfer := zero]> acc
    else acc in
  plus_assign acc (feeKey transfer) (serviceFeeOf percentageCut transfer).

(** The same callback, as far as it changes the transfer:
    [transfer.amount -= fee / 2.0]. *)
Definition deductFee (percentageCut : number) (transfer : SimpleTransfer)
  : SimpleTransfer :=
  {| assetType := assetType transfer;
     to := to transfer;
     amount := sub (amount transfer)
                 (div (serviceFeeOf percentageCut transfer) (of_Z 2));
     assetId := assetId transfer;
     from := from transfer;
     decimals := decimals transfer |}.

(** [transfers]: requester then responder of every swap, in order. *)
Definition transfersOf (swaps : list AtomicSwap) : list SimpleTransfer :=
  flat_map (fun swap => [requester swap; responder swap]) swaps.

(** [serviceFeesToPay]: the reduction starts from the empty object. *)
Definition serviceFeesToPayOf (percentageCut : number) (swaps : list AtomicSwap)
  : gmap string number :=
  fold_left (feeReducer percentageCut) (transfersOf swaps) ∅.

(** The elements of [transfers] are the very objects held by [atomicSwaps];
    the request comes out of a JSON-RPC message, so no two of them are the
    same object and each is visited once.  After the reduction every swap
    therefore holds its two transfers with the fee deducted. *)
Definition deductFees (percentageCut : number) (swaps : list AtomicSwap)
  : list AtomicSwap :=
  map (fun swap =>
         {| requester := deductFee percentageCut (requester swap);
            responder := deductFee percentageCut (responder swap) |}) swaps.

Definition defaultServiceFee : ServiceFee :=
  {| percentageCut := zero; toAddress := Some "0.0.98" |}.

(** The fee map as the description words it: every fee is added to the
    entry of its asset, an entry that starts at zero.  To be compared with
    [serviceFeesToPayOf]. *)
Definition summedFees (percentageCut : number) (swaps : list AtomicSwap)
  : gmap string number :=
  fold_left
    (fun acc transfer =>
       <[feeKey transfer :=
           add (default zero (acc !! feeKey transfer))
             (serviceFeeOf percentageCut transfer)]> acc)
    (transfersOf swaps) ∅.

(** Every entry of a fee map is zero. *)
Definition all_zero (acc : gmap string number) : Prop :=
  forall k v, acc !! k = Some v -> v = zero.

(** ** The facades *)

Section Facades.

Context `{C : Collaborators}.

(** [state.accountState[hederaEvmAddress][network]]; the facades read a
    property of it at once, which throws when it is [undefined]. *)
Definition currentAccountState (st : WalletState) : prog AccountState :=
  match accountState st !! hederaEvmAddress (currentAccount st) with
  | Some perNetwork =>
      match perNetwork !! network (currentAccount st) with
      | Some a => Ret a
      | None => Throw (TypeError "Cannot read properties of undefined")
      end
  | None => Throw (TypeError "Cannot read properties of undefined")
  end.

(** The lines every facade repeats: render the panel, ask, and throw when
    the answer is not a confirmation. *)
Definition confirmDialog (w : WalletSnapParams) (panelToShow : list Node)
  : prog unit :=
  let cur := currentAccount (state w) in
  content <- await (generateCommonPanel (origin w) (network cur)
                      (mirrorNodeUrl cur) panelToShow) ;;
  confirmed <- await (snapDialog {| dialogType := "confirmation";
                                    content := content |}) ;;
  if negb confirmed then
    let errMessage := "User rejected the transaction" in
    Log errMessage (Throw (transactionRejected errMessage))
  else Ret tt.

(** [new HederaClientImplFactory(...).createClient()] and its null check. *)
Definition buildClient (w : WalletSnapParams) (ks : KeyStore)
  : prog HederaClient :=
  let cur := currentAccount (state w) in
  hederaClient <- await (createClient (hederaAccountId cur) (network cur)
                           (curve ks) (privateKey ks)) ;;
  match hederaClient with
  | None => Throw (resourceUnavailable "hedera client returned null")
  | Some hederaClient => Ret hederaClient
  end.

(** The [catch] block of every facade but [createTopic]. *)
Definition notifyAndReject {R : Type} (errMessage : string) (error : exn)
  : prog R :=
  Log ("Error occurred: " +:+ errMessage +:+ " " +:+ errorToString error)
    (await (snapNotification ("Error occurred: " +:+ errMessage +:+ " - "
                              +:+ errorToString error)) ;;;
     Throw (transactionRejected errMessage)).

(** *** CreateTopicFacade.createTopic *)

Definition createTopicPanel (p : CreateTopicRequestParams) : list Node :=
  [ heading "Create a new topic";
    text "Learn more about creating topics [here](https://docs.hedera.com/hedera/sdks-and-apis/hedera-api/consensus/consensuscreatetopic)";
    text "You are about to create a new topic with the following parameters:";
    divider ]
  ++ match memo p with
     | Some m => [text ("Memo: " +:+ m)]
     | None => []
     end
  ++ match adminKey p with
     | Some k => [text "Admin Key:"; copyable k]
     | None => []
     end
  ++ match submitKey p with
     | Some k => [text "Submit Key:"; copyable k]
     | None => []
     end
  ++ match autoRenewPeriod p with
     | Some n => [text ("Auto Renew Period: " +:+ numberToString n)]
     | None => []
     end
  ++ match autoRenewAccount p with
     | Some a => [text "Auto Renew Account:"; copyable a]
     | None => []
     end.

Definition createTopic (w : WalletSnapParams) (p : CreateTopicRequestParams)
  : prog TxReceipt :=
  a <- currentAccountState (state w) ;;
  try_catch
    (confirmDialog w (createTopicPanel p) ;;;
     hederaClient <- buildClient w (keyStore a) ;;
     let command :=
       CreateTopicCommand (memo p) (adminKey p) (submitKey p)
         (autoRenewPeriod p) (autoRenewAccount p) in
     await (commandCall command execute (getClient hederaClient)))
    (fun error =>
       let errMessage := "Error while trying to create a topic" in
       Log ("Error occurred: " +:+ errMessage +:+ " " +:+ errorToString error)
         (Throw (transactionRejected errMessage))).

(** *** AssociateTokensFacade.associateTokens *)

(** What the loop pushes once the lookup of [tokenId] has answered. *)
Definition tokenInfoNodes (tokenId : string) (tokenInfo : option MirrorTokenInfo)
  : list Node :=
  match tokenInfo with
  | None =>
      [ text ("Error while trying to get token info for " +:+ tokenId
              +:+ " from Hedera Mirror Nodes at this time");
        text "Proceed only if you are sure this asset ID exists" ]
  | Some info =>
      [ text ("Asset Name: " +:+ name info);
        text ("Asset Type: " +:+ type info);
        text ("Symbol: " +:+ symbol info);
        text ("Total Supply: " +:+
              numberToString
                (div (stringToNumber (total_supply info))
                     (mathPow (of_Z 10) (stringToNumber (infoDecimals info)))));
        text ("Max Supply: " +:+
              numberToString
                (div (stringToNumber (max_supply info))
                     (mathPow (of_Z 10) (stringToNumber (infoDecimals info))))) ]
  end.

Definition tokenHeaderNodes (all : list string) (tokenId : string) : list Node :=
  [ text ("Token #" +:+ numberToString (of_Z (indexOf all tokenId + 1)));
    divider;
    text "Asset Id:";
    copyable tokenId ].

(** [for (const tokenId of tokenIds) { ... }], on the tokens still to
    visit. *)
Fixpoint associateTokensLoop (all : list string) (mirrorNodeUrl : string)
    (rest : list string) (panelToShow : list Node) : prog (list Node) :=
  match rest with
  | [] => Ret panelToShow
  | tokenId :: rest =>
      let panelToShow := panelToShow ++ tokenHeaderNodes all tokenId in
      tokenInfo <- await (getTokenById tokenId mirrorNodeUrl) ;;
      let panelToShow :=
        panelToShow ++ tokenInfoNodes tokenId tokenInfo ++ [divider] in
      match tokenInfo with
      | None =>
          Log ("Error while trying to get token info for " +:+ tokenId
               +:+ " from Hedera Mirror Nodes at this time")
            (associateTokensLoop all mirrorNodeUrl rest panelToShow)
      | Some _ => associateTokensLoop all mirrorNodeUrl rest panelToShow
      end
  end.

Definition associateTokensHeader : list Node :=
  initializePanelToShow ++
  [ heading "Associate Tokens";
    text "Are you sure you want to associate the following tokens to your account?";
    divider ].

Definition associateTokens (w : WalletSnapParams)
    (p : AssociateTokensRequestParams) : prog TxRecord :=
  let tokenIds := default [] (tokenIds p) in
  let cur := currentAccount (state w) in
  a <- currentAccountState (state w) ;;
  try_catch
    (panelToShow <- associateTokensLoop tokenIds (mirrorNodeUrl cur) tokenIds
                      associateTokensHeader ;;
     confirmDialog w panelToShow ;;;
     hederaClient <- buildClient w (keyStore a) ;;
     let command := AssociateTokensCommand tokenIds in
     txReceipt <- await (commandCall command execute (getClient hederaClient)) ;;
     await (snapCreateDialogAfterTransaction (network cur) txReceipt) ;;;
     Ret txReceipt)
    (notifyAndReject "Error while trying to associate tokens to the account").

(** *** StakeHbarFacade.stakeHbar *)

Definition stakeHeader : list Node :=
  initializePanelToShow ++
  [ heading "Stake/Unstake HBAR";
    text "Refer to this [guide](https://docs.hedera.com/hedera/core-concepts/staking) for more information on staking HBAR";
    divider ].

Definition nodeStakingNodes (info : MirrorStakingInfo) : list Node :=
  [ text ("Node Description: " +:+ description info);
    text ("Node ID: " +:+ numberToString (node_id info));
    text ("Node Account ID: " +:+ node_account_id info);
    text ("Total Stake: " +:+ hbarFromTinybar (stake info));
    text ("Staking Start: " +:+
          timestampToString (periodFrom (staking_period info)));
    text ("Staking End: " +:+
          timestampToString (periodTo (staking_period info))) ].

(** The branch on [nodeId] and [accountId]: the panel so far and the three
    local variables [stakedAccountId], [stakedNodeId] and
    [declineStakingReward], which start as the persisted staking info. *)
Definition stakeHbarPlan (mirrorNodeUrl : string) (p : StakeHbarRequestParams)
    (old : StakingInfo) : prog (list Node * StakingInfo) :=
  match nodeId p, accountId p with
  | None, None =>
      Ret (stakeHeader ++
           [ text "You are about to unstake your HBAR so you will not be receiving any staking rewards from here on out." ],
           {| stakedAccountId := stakedAccountId old;
              stakedNodeId := stakedNodeId old;
              declineStakingReward := true |})
  | Some _, Some _ =>
      Throw (methodNotSupported "Cannot stake to both a node and an account")
  | nodeId, accountId =>
      let panelToShow :=
        stakeHeader ++
        [ text "You are about to stake your HBAR to the following:"; divider ] in
      r <- match nodeId with
           | Some nodeId =>
               stakingInfo <- await (getNodeStakingInfo mirrorNodeUrl nodeId) ;;
               match stakingInfo with
               | [] =>
                   Throw (methodNotSupported
                            ("Node ID " +:+ numberToString nodeId
                             +:+ " does not exist"))
               | info :: _ =>
                   Ret (panelToShow ++ nodeStakingNodes info,
                        Some (numberToString nodeId))
               end
           | None => Ret (panelToShow, stakedNodeId old)
           end ;;
      let panelToShow := r.1 in
      let stakedNodeId := r.2 in
      let r :=
        if negb (isEmpty accountId)
        then (panelToShow ++ [text "Account ID:"; copyable (as_string accountId)],
              accountId)
        else (panelToShow, stakedAccountId old) in
      Ret (r.1 ++ [divider],
           {| stakedAccountId := r.2;
              stakedNodeId := stakedNodeId;
              declineStakingReward := false |})
  end.

(** The three assignments into
    [state.accountState[hederaEvmAddress][network].accountInfo.stakingInfo]. *)
Definition withStakingInfo (st : WalletState) (si : StakingInfo) : WalletState :=
  let cur := currentAccount st in
  {| currentAccount := cur;
     accountState :=
       alter (alter (fun a => {| keyStore := keyStore a;
                                 accountInfo := {| stakingInfo := si |} |})
                (network cur))
         (hederaEvmAddress cur) (accountState st) |}.

Definition stakeHbar (w : WalletSnapParams) (p : StakeHbarRequestParams)
  : prog TxRecord :=
  let cur := currentAccount (state w) in
  a <- currentAccountState (state w) ;;
  try_catch
    (plan <- stakeHbarPlan (mirrorNodeUrl cur) p (stakingInfo (accountInfo a)) ;;
     confirmDialog w plan.1 ;;;
     hederaClient <- buildClient w (keyStore a) ;;
     let command := StakeHbarCommand (nodeId p) (accountId p) in
     txReceipt <- await (commandCall command execute (getClient hederaClient)) ;;
     await (snapCreateDialogAfterTransaction (network cur) txReceipt) ;;;
     await (updateState (withStakingInfo (state w) plan.2)) ;;;
     Ret txReceipt)
    (notifyAndReject "Error while trying to stake Hbar").

(** *** UpdateTokenFeeScheduleFacade.updateTokenFeeSchedule *)

Definition customFeeNodes (fee : TokenCustomFee) : list Node :=
  [ text "Fee Collection Id:"; copyable (feeCollectorAccountId fee) ]
  ++ (if truthy_opt (hbarAmount fee)
      then [text ("Hbar Amount: " +:+
                  numberToString (default NaN (hbarAmount fee)))]
      else [])
  ++ (if truthy_opt (tokenAmount fee)
      then [text ("Token Amount: " +:+
                  numberToString (default NaN (tokenAmount fee)))]
      else [])
  ++ match denominatingTokenId fee with
     | Some (String c r) =>
         [text "Denominating Token Id:"; copyable (String c r)]
     | _ => []
     end
  ++ match allCollectorsAreExempt fee with
     | Some true => [text "All Collectors Are Exempt: true"]
     | _ => []
     end.

Definition feeSchedulePanel (tokenId : string) (fees : list TokenCustomFee)
  : list Node :=
  [ heading "Update token fee schedule";
    text "Learn more about updating a token fee schedule [here](https://docs.hedera.com/hedera/sdks-and-apis/sdks/readme-1/update-a-fee-schedule)";
    text "You are about to modify a token's fee schedule with the following details:";
    divider;
    text "Asset Id:";
    copyable tokenId ]
  ++ flat_map customFeeNodes fees.

(** [Number(mirrorTokenInfo.decimals)]; the empty object has no
    [decimals]. *)
Definition mirrorDecimals (info : option MirrorTokenInfo) : number :=
  match info with
  | Some info => stringToNumber (infoDecimals info)
  | None => NaN
  end.

Definition updateTokenFeeSchedule (w : WalletSnapParams)
    (p : UpdateTokenFeeScheduleRequestParams) : prog TxRecord :=
  match customFees p with
  | None =>
      let errMessage := "null custom fee schedule given" in
      Log errMessage (Throw (invalidParams errMessage))
  | Some customFees =>
      let cur := currentAccount (state w) in
      a <- currentAccountState (state w) ;;
      mirrorTokenInfo <- await (getTokenById (tokenId p) (mirrorNodeUrl cur)) ;;
      try_catch
        (confirmDialog w (feeSchedulePanel (tokenId p) customFees) ;;;
         hederaClient <- buildClient w (keyStore a) ;;
         match getPrivateKey hederaClient with
         | None =>
             Throw (resourceUnavailable "private key object returned null")
         | Some privateKeyObj =>
             let command :=
               UpdateTokenFeeScheduleCommand (tokenId p) privateKeyObj
                 (mirrorDecimals mirrorTokenInfo) customFees in
             txReceipt <- await (commandCall command execute
                                   (getClient hederaClient)) ;;
             await (snapCreateDialogAfterTransaction (network cur) txReceipt) ;;;
             Ret txReceipt
         end)
        (notifyAndReject "Error while trying to update a token fee schedule")
  end.

(** *** AtomicSwapFacade *)

Definition setTo (transfer : SimpleTransfer) (account : string) : SimpleTransfer :=
  {| assetType := assetType transfer;
     to := account;
     amount := amount transfer;
     assetId := assetId transfer;
     from := from transfer;
     decimals := decimals transfer |}.

Definition setDecimals (transfer : SimpleTransfer) (d : number) : SimpleTransfer :=
  {| assetType := assetType transfer;
     to := to transfer;
     amount := amount transfer;
     assetId := assetId transfer;
     from := from transfer;
     decimals := Some d |}.

Definition notEnough : list Node :=
  [ text "Proceed only if you are sure about the amount being transferred" ].

(** The last lines of [createTxDialog], common to both asset kinds. *)
Definition txDialogTail (transfer : SimpleTransfer) (asset : string)
    (feeToDisplay : option number) : list Node :=
  [ text "To:"; copyable (to transfer);
    text ("Amount: " +:+ numberToString (amount transfer) +:+ " " +:+ asset) ]
  ++ (if positive_opt feeToDisplay
      then [ formatFeeDisplay (default NaN feeToDisplay) transfer;
             formatFeeDisplay (add_undef (amount transfer) feeToDisplay) transfer ]
      else []).

(** [createTxDialog]: pushes onto [panelToShow] and returns the transfer,
    which for a token has its [decimals] filled in. *)
Definition createTxDialog (accountIdToSendFrom : string)
    (transfer : SimpleTransfer) (mirrorNodeUrl : string)
    (panelToShow : list Node) (serviceFeesToPay : gmap string number)
    (isRequester : bool) : prog (SimpleTransfer * list Node) :=
  if negb (isEmpty (from transfer)) then
    let errMessage :=
      "Atomic Swaps cannot be done with delegated transfers at this time" in
    Log errMessage (Throw (methodNotSupported errMessage))
  else
  let panelToShow :=
    panelToShow ++
    [ text ("Swap " +:+ (if isRequester then "Requester" else "Responder"));
      copyable accountIdToSendFrom ] in
  ownerAccountInfo <- await (getMirrorAccountInfo accountIdToSendFrom
                               mirrorNodeUrl) ;;
  let walletBalance := balance ownerAccountInfo in
  let panelToShow :=
    panelToShow ++ [text ("Asset Type: " +:+ assetType transfer)] in
  if String.eqb (assetType transfer) "HBAR" then
    let short :=
      ltb (hbars walletBalance)
        (add_undef (amount transfer) (serviceFeesToPay !! "HBAR")) in
    let errMessage :=
      "There is not enough Hbar in the wallet to transfer the requested amount" in
    let panelToShow :=
      if short then panelToShow ++ text errMessage :: notEnough
      else panelToShow in
    (if short then console_error errMessage else Ret tt) ;;;
    Ret (transfer, panelToShow ++ txDialogTail transfer "HBAR" (Some zero))
  else
    let owned := tokens walletBalance !! as_string (assetId transfer) in
    let transfer :=
      setDecimals transfer
        (match owned with Some b => tokenDecimals b | None => NaN end) in
    let short :=
      match owned with
      | Some b => ltb (tokenBalance b) (amount transfer)
      | None => true
      end in
    let errMessage :=
      "This wallet either does not own  " +:+ as_string (assetId transfer)
      +:+ " or there is not enough balance to transfer the requested amount" in
    let panelToShow :=
      if short then panelToShow ++ text errMessage :: notEnough
      else panelToShow in
    (if short then console_error errMessage else Ret tt) ;;;
    let isNft := String.eqb (assetType transfer) "NFT" in
    ids <- (if isNft then
              match assetId transfer with
              | Some assetId =>
                  let assetIdSplit := split_slash assetId in
                  Ret (as_string (assetIdSplit !! 0%nat),
                       as_string (assetIdSplit !! 1%nat))
              | None =>
                  Throw (TypeError "Cannot read properties of undefined")
              end
            else Ret (as_string (assetId transfer), "")) ;;
    let assetId' := ids.1 in
    let nftSerialNumber := ids.2 in
    let panelToShow := panelToShow ++ [text "Asset Id:"; copyable assetId'] in
    tokenInfo <- await (getTokenById assetId' mirrorNodeUrl) ;;
    let errMessage :=
      "Error while trying to get token info for " +:+ assetId'
      +:+ " from Hedera Mirror Nodes at this time" in
    (match tokenInfo with
     | None => console_error errMessage
     | Some _ => Ret tt
     end) ;;;
    let panelToShow :=
      match tokenInfo with
      | None =>
          panelToShow ++
          [ text errMessage;
            text "Proceed only if you are sure about the asset ID being transferred" ]
      | Some info =>
          panelToShow ++
          [ text ("Asset Name: " +:+ name info);
            text ("Asset Type: " +:+ type info);
            text ("Symbol: " +:+ symbol info) ]
      end in
    let asset :=
      match tokenInfo with Some info => symbol info | None => "" end in
    let transfer :=
      match tokenInfo with
      | Some info => setDecimals transfer (stringToNumber (infoDecimals info))
      | None => transfer
      end in
    if negb (match decimals transfer with
             | Some d => isFinite d
             | None => false
             end) then
      let errMessage := "decimals is not a finite number" in
      Log errMessage (Throw (invalidParams errMessage))
    else
    let panelToShow :=
      if isNft
      then panelToShow ++ [text ("NFT Serial Number: " +:+ nftSerialNumber)]
      else panelToShow in
    let feeToDisplay :=
      if positive_opt (serviceFeesToPay !! assetType transfer)
      then serviceFeesToPay !! assetType transfer
      else serviceFeesToPay !! as_string (assetId transfer) in
    Ret (transfer, panelToShow ++ txDialogTail transfer asset feeToDisplay).

(** [for (const swap of atomicSwaps) { ... }] of [initiateSwap], on the
    swaps still to visit; [txNumber] is the position of the swap, counted
    from one. *)
Fixpoint swapDialogLoop (hederaAccountId mirrorNodeUrl : string)
    (serviceFeesToPay : gmap string number) (txNumber : Z)
    (rest : list AtomicSwap) (panelToShow : list Node)
  : prog (list AtomicSwap * list Node) :=
  match rest with
  | [] => Ret ([], panelToShow)
  | swap :: rest =>
      let panelToShow :=
        panelToShow ++
        [ divider; text ("Swap #" +:+ numberToString (of_Z txNumber)); divider ] in
      let accountIdToSendFrom := hederaAccountId in
      r <- createTxDialog accountIdToSendFrom (requester swap) mirrorNodeUrl
             panelToShow serviceFeesToPay true ;;
      let requester' := r.1 in
      let panelToShow := r.2 ++ [divider] in
      let accountIdToSendFrom := to requester' in
      r <- createTxDialog accountIdToSendFrom
             (setTo (responder swap) hederaAccountId) mirrorNodeUrl
             panelToShow serviceFeesToPay false ;;
      let swap' := {| requester := requester'; responder := r.1 |} in
      r' <- swapDialogLoop hederaAccountId mirrorNodeUrl serviceFeesToPay
              (txNumber + 1) rest r.2 ;;
      Ret (swap' :: r'.1, r'.2)
  end.

Definition initiateSwapNotice : string :=
  "Are you sure you want to execute the following swap? Note that the responder will also need to approve the swap by calling "
  +:+ dquote +:+ "hts/completeSwap" +:+ dquote
  +:+ " API within 30 minutes from now or the transaction will fail.".

Definition initiateSwapHeader (memo : option string) (maxFee : option number)
  : list Node :=
  initializePanelToShow ++
  [ heading "Initiate Atomic Swap";
    text "Learn more about atomic swap [here](https://docs.hedera.com/hedera/sdks-and-apis/sdks/token-service/atomic-swaps)";
    text initiateSwapNotice;
    divider ]
  ++ (if truthy_string (strippedMemo memo)
      then [text "Memo:"; copyable (strippedMemo memo)]
      else [])
  ++ (if truthy_opt maxFee
      then [text ("Max Transaction Fee: " +:+
                  numberToString (default NaN maxFee) +:+ " Hbar")]
      else []).

Definition initiateSwap (w : WalletSnapParams) (p : InitiateSwapRequestParams)
  : prog TxRecord :=
  let atomicSwaps := default [] (atomicSwaps p) in
  let memo := swapMemo p in
  let maxFee := maxFee p in
  let serviceFee := default defaultServiceFee (serviceFee p) in
  let cur := currentAccount (state w) in
  a <- currentAccountState (state w) ;;
  let serviceFeesToPay :=
    serviceFeesToPayOf (percentageCut serviceFee) atomicSwaps in
  let atomicSwaps := deductFees (percentageCut serviceFee) atomicSwaps in
  hederaClient <- buildClient w (keyStore a) ;;
  try_catch
    (await (getMirrorAccountInfo (hederaAccountId cur) (mirrorNodeUrl cur)) ;;;
     r <- swapDialogLoop (hederaAccountId cur) (mirrorNodeUrl cur)
            serviceFeesToPay 1 atomicSwaps (initiateSwapHeader memo maxFee) ;;
     confirmDialog w r.2 ;;;
     let command :=
       AtomicSwapCommand r.1 memo maxFee serviceFeesToPay
         (toAddress serviceFee) in
     txReceipt <- await (commandCall command initiateSwapOn
                           (getClient hederaClient)) ;;
     await (snapCreateDialogAfterTransaction (network cur) txReceipt) ;;;
     Ret txReceipt)
    (notifyAndReject "Error while trying to initiate atomic swap").

Definition completeSwapNotice : string :=
  "Are you sure you want to execute the following swap? Note that all the parties involved in the swap must approve the swap within 30 minutes from now or the transaction will fail.".

Definition completeSwapPanel (scheduleId : string) : list Node :=
  initializePanelToShow ++
  [ heading "Complete Atomic Swap";
    text "Learn more about atomic swap [here](https://docs.hedera.com/hedera/sdks-and-apis/sdks/token-service/atomic-swaps)";
    text completeSwapNotice;
    divider;
    text "Atomic Swap Scheduled Transaction ID:";
    copyable scheduleId;
    divider ].

Definition completeSwap (w : WalletSnapParams) (p : SignScheduledTxParams)
  : prog TxRecord :=
  let cur := currentAccount (state w) in
  a <- currentAccountState (state w) ;;
  hederaClient <- buildClient w (keyStore a) ;;
  try_catch
    (confirmDialog w (completeSwapPanel (scheduleId p)) ;;;
     let command := AtomicSwapCommand [] None None ∅ None in
     txReceipt <- await (commandCall command (completeSwapOn (scheduleId p))
                           (getClient hederaClient)) ;;
     await (snapCreateDialogAfterTransaction (network cur) txReceipt) ;;;
     Ret txReceipt)
    (notifyAndReject "Error while trying to complete atomic swap").

End Facades.

(** ** Observations on a trace *)

Section Observations.

Context `{C : Collaborators}.

(** The four kinds of SDK call the description orders. *)
Inductive SdkCall : Type :=
| BuildClient
| ShowDialog
| ExecuteCommand
| PersistState.

Definition sdk_call_of (e : event) : option SdkCall :=
  match e with
  | EvCreateClient _ _ _ _ _ => Some BuildClient
  | EvSnapDialog _ _ => Some ShowDialog
  | EvCommand _ _ _ _ => Some ExecuteCommand
  | EvUpdateState _ _ => Some PersistState
  | _ => None
  end.

(** The SDK calls of a trace, in the order they were made. *)
Definition sdk_order (tr : list event) : list SdkCall := omap sdk_call_of tr.

(** The answers the confirmation dialogs got. *)
Definition dialog_replies (tr : list event) : list (result bool) :=
  omap (fun e => match e with EvSnapDialog _ r => Some r | _ => None end) tr.

(** The panels handed to the confirmation dialogs. *)
Definition dialogs_shown (tr : list event) : list DialogParams :=
  omap (fun e => match e with EvSnapDialog p _ => Some p | _ => None end) tr.

(** The command calls made, with their answers. *)
Definition commands_run (tr : list event)
  : list (Command * Method * Client * result TxRecord) :=
  omap (fun e => match e with
                 | EvCommand c m cl r => Some (c, m, cl, r)
                 | _ => None
                 end) tr.

(** The answers of the client factory. *)
Definition clients_built (tr : list event) : list (result (option HederaClient)) :=
  omap (fun e => match e with
                 | EvCreateClient _ _ _ _ r => Some r
                 | _ => None
                 end) tr.

(** The answers the error notifications got. *)
Definition notification_replies (tr : list event) : list (result unit) :=
  omap (fun e => match e with EvNotification _ r => Some r | _ => None end) tr.

(** The answers of the mirror node to token lookups. *)
Definition token_lookups (tr : list event)
  : list (string * result (option MirrorTokenInfo)) :=
  omap (fun e => match e with
                 | EvGetTokenById t _ r => Some (t, r)
                 | _ => None
                 end) tr.

(** The panels handed to [generateCommonPanel], with what came back. *)
Definition panels_rendered (tr : list event) : list (list Node * result Panel) :=
  omap (fun e => match e with
                 | EvGenerateCommonPanel _ _ _ p r => Some (p, r)
                 | _ => None
                 end) tr.

(** The states handed to [SnapState.updateState], with the answers. *)
Definition states_saved (tr : list event) : list (WalletState * result unit) :=
  omap (fun e => match e with
                 | EvUpdateState st r => Some (st, r)
                 | _ => None
                 end) tr.

(** Mirror-node lookups and log lines: events that are none of the
    above except a token lookup. *)
Definition is_lookup (e : event) : bool :=
  match e with
  | EvGetMirrorAccountInfo _ _ _ | EvGetTokenById _ _ _
  | EvGetNodeStakingInfo _ _ _ | EvConsoleError _ => true
  | _ => false
  end.

(** A list of lookups and log lines. *)
Definition lookups_only (evs : list event) : Prop :=
  Forall (fun e => is_lookup e = true) evs.

(** The entry under [key] of the fee maps handed to the atomic-swap
    command. *)
Definition fee_entries (key : string) (tr : list event) : list (option number) :=
  omap (fun e => match e with
                 | EvCommand (AtomicSwapCommand _ _ _ fees _) _ _ _ =>
                     Some (fees !! key)
                 | _ => None
                 end) tr.

Definition is_rejection {R : Type} (o : outcome R) : bool :=
  match o with
  | Thrown (transactionRejected _) => true
  | _ => false
  end.

(** The trace without the lookups and log lines. *)
Fixpoint key_events (tr : list event) : list event :=
  match tr with
  | [] => []
  | e :: rest => if is_lookup e then key_events rest else e :: key_events rest
  end.

(** Every command call of the trace comes after a confirmation dialog
    that was answered [true]; [confirmed] tells whether one has been seen
    already. *)
Fixpoint confirmed_before_commands (confirmed : bool) (tr : list event) : bool :=
  match tr with
  | [] => true
  | EvSnapDialog _ (Ok true) :: rest => confirmed_before_commands true rest
  | EvCommand _ _ _ _ :: rest =>
      confirmed && confirmed_before_commands confirmed rest
  | _ :: rest => confirmed_before_commands confirmed rest
  end.

(** ** A weakest-precondition calculus for [run] *)

(** [wp p Q]: whatever the collaborators answer, the outcome of [p] and
    the events it adds satisfy [Q]. *)
Fixpoint wp {R : Type} (p : prog R) (Q : outcome R -> list event -> Prop) : Prop :=
  match p with
  | Ret r => Q (Returned r) []
  | Throw e => Q (Thrown e) []
  | Log m k => wp k (fun o evs => Q o (EvConsoleError m :: evs))
  | Vis c k => forall r, wp (k r) (fun o evs => Q o (event_of c r :: evs))
  end.

End Observations.

(** ** The six operations *)

Section Operations.

Context `{C : Collaborators}.

Inductive Operation : Type :=
| CreateTopic (p : CreateTopicRequestParams)
| AssociateTokens (p : AssociateTokensRequestParams)
| StakeHbar (p : StakeHbarRequestParams)
| UpdateTokenFeeSchedule (p : UpdateTokenFeeScheduleRequestParams)
| InitiateSwap (p : InitiateSwapRequestParams)
| CompleteSwap (p : SignScheduledTxParams).

(** The facade method behind each operation. *)
Definition facade (w : WalletSnapParams) (op : Operation) : prog TxRecord :=
  match op with
  | CreateTopic p => createTopic w p
  | AssociateTokens p => associateTokens w p
  | StakeHbar p => stakeHbar w p
  | UpdateTokenFeeSchedule p => updateTokenFeeSchedule w p
  | InitiateSwap p => initiateSwap w p
  | CompleteSwap p => completeSwap w p
  end.

(** The method of the command each operation delegates to. *)
Definition delegate (op : Operation) : Method :=
  match op with
  | InitiateSwap _ => initiateSwapOn
  | CompleteSwap p => completeSwapOn (scheduleId p)
  | _ => execute
  end.

(** The order in which each operation makes its SDK calls when it runs to
    the end. *)
Definition order_of (op : Operation) : list SdkCall :=
  match op with
  | InitiateSwap _ | CompleteSwap _ =>
      [BuildClient; ShowDialog; ExecuteCommand]
  | CreateTopic _ | AssociateTokens _ | UpdateTokenFeeSchedule _ =>
      [ShowDialog; BuildClient; ExecuteCommand]
  | StakeHbar _ =>
      [ShowDialog; BuildClient; ExecuteCommand; PersistState]
  end.

(** What the loop of [associateTokens] pushes for one token. *)
Definition tokenSectionNodes (all : list string) (tokenId : string)
    (tokenInfo : option MirrorTokenInfo) : list Node :=
  tokenHeaderNodes all tokenId ++ tokenInfoNodes tokenId tokenInfo ++ [divider].

(** [t'] is [t] up to its [decimals]. *)
Definition same_transfer (t t' : SimpleTransfer) : Prop :=
  assetType t' = assetType t /\ to t' = to t /\ amount t' = amount t /\
  assetId t' = assetId t /\ from t' = from t.

(** [s'] is [s] with the responder's [to] replaced by [account], up to
    the [decimals] of its two transfers. *)
Definition swap_redirected (account : string) (s s' : AtomicSwap) : Prop :=
  same_transfer (requester s) (requester s') /\
  same_transfer (setTo (responder s) account) (responder s').

(** The part of the panel that describes one swap names the wallet's
    account as requester and [sender] as responder. *)
Definition swap_section (wallet sender : string) (nodes : list Node) : Prop :=
  exists h m1 m2,
    nodes = h ++ [text "Swap Requester"; copyable wallet] ++ m1
              ++ [text "Swap Responder"; copyable sender] ++ m2.

(** The one order the description gives for every operation: build the
    client, show the dialog, execute the command, persist the state. *)
Definition described_order : list SdkCall :=
  [BuildClient; ShowDialog; ExecuteCommand; PersistState].

(** What all six operations have in common, on the outcome [o] and the
    trace [tr] of a run. *)
Record Behaves (op : Operation) (o : outcome TxRecord) (tr : list event)
  : Prop := {
  (** a normal return hands back the answer of the one command call, made
      on the client of the one client object built *)
  returns_receipt :
    forall r, o = Returned r ->
      exists c hederaClient,
        clients_built tr = [Ok (Some hederaClient)] /\
        commands_run tr = [(c, delegate op, getClient hederaClient, Ok r)];
  (** a normal return has made the SDK calls in the order of the operation *)
  returns_in_order :
    forall r, o = Returned r -> sdk_order tr = order_of op;
  (** a dialog that was not confirmed ends in a rejection, no command run *)
  rejected :
    In (Ok false) (dialog_replies tr) ->
    Forall (fun r => r = Ok tt) (notification_replies tr) ->
    is_rejection o = true /\ commands_run tr = [];
  (** no command call without a confirmation before it *)
  guarded : confirmed_before_commands false tr = true
}.

End Operations.

(** ** Further observations *)

(** Every character of a string passes [ok]. *)
Fixpoint string_forall (ok : Ascii.ascii -> bool) (s : string) : bool :=
  match s with
  | EmptyString => true
  | String c r => ok c && string_forall ok r
  end.

(** [sub] occurs in [s]. *)
Definition mentions (sub s : string) : bool :=
  match String.index 0 sub s with
  | Some _ => true
  | None => false
  end.

(** A run of white-space characters. *)
Inductive white_run : string -> Prop :=
| white_run_nil : white_run ""
| white_run_cons p s : In p whiteSpaces -> white_run s -> white_run (p +:+ s).

(** A swap one of whose transfers names a [from] account. *)
Definition delegated (s : AtomicSwap) : bool :=
  negb (isEmpty (from (requester s))) || negb (isEmpty (from (responder s))).

(** A transfer of anything but HBAR carries a finite [decimals]. *)
Definition decimals_known (t : SimpleTransfer) : Prop :=
  String.eqb (assetType t) "HBAR" = false ->
  exists d, decimals t = Some d /\ isFinite d = true.

(** What the HBAR transfers among [ts] make of the entry [s]: each adds its
    fee to the entry, or to zero when the entry is absent or falsy. *)
Definition hbarFees (percentageCut : number) (ts : list SimpleTransfer)
    (s : option number) : option number :=
  fold_left
    (fun s t =>
       if String.eqb (assetType t) "HBAR"
       then Some (add (if truthy_opt s then default zero s else zero)
                    (serviceFeeOf percentageCut t))
       else s)
    ts s.

Section MoreObservations.

Context `{C : Collaborators}.

(** The error notifications sent, with the answers they got. *)
Definition notifications (tr : list event) : list (string * result unit) :=
  omap (fun e => match e with
                 | EvNotification msg r => Some (msg, r)
                 | _ => None
                 end) tr.

(** The errors the mirror node rejected lookups with. *)
Definition lookup_failures (tr : list event) : list exn :=
  omap (fun e => match e with
                 | EvGetMirrorAccountInfo _ _ (Err e)
                 | EvGetTokenById _ _ (Err e)
                 | EvGetNodeStakingInfo _ _ (Err e) => Some e
                 | _ => None
                 end) tr.

(** The answers of the mirror node to account lookups. *)
Definition account_lookups (tr : list event)
  : list (string * result AccountInfo) :=
  omap (fun e => match e with
                 | EvGetMirrorAccountInfo a _ r => Some (a, r)
                 | _ => None
                 end) tr.

(** The arguments of the calls to the client factory. *)
Definition clients_requested (tr : list event)
  : list (string * string * string * string) :=
  omap (fun e => match e with
                 | EvCreateClient a n cv k _ => Some (a, n, cv, k)
                 | _ => None
                 end) tr.

(** The calls to [generateCommonPanel], with all their arguments. *)
Definition renderings (tr : list event)
  : list (string * string * string * list Node * result Panel) :=
  omap (fun e => match e with
                 | EvGenerateCommonPanel o n u p r => Some (o, n, u, p, r)
                 | _ => None
                 end) tr.

(** The calls to [snapCreateDialogAfterTransaction]. *)
Definition receipts_shown (tr : list event)
  : list (string * TxRecord * result unit) :=
  omap (fun e => match e with
                 | EvAfterTransaction n r reply => Some (n, r, reply)
                 | _ => None
                 end) tr.

(** The answers of the mirror node about staking nodes. *)
Definition node_lookups (tr : list event)
  : list (string * number * result (list MirrorStakingInfo)) :=
  omap (fun e => match e with
                 | EvGetNodeStakingInfo u n r => Some (u, n, r)
                 | _ => None
                 end) tr.

(** [state.accountState[hederaEvmAddress][network]], when it is there. *)
Definition currentAccountOf (st : WalletState) : option AccountState :=
  accountState st !! hederaEvmAddress (currentAccount st)
    ≫= (.!! network (currentAccount st)).

(** The message of the [catch] block of each operation. *)
Definition error_message (op : Operation) : string :=
  match op with
  | CreateTopic _ => "Error while trying to create a topic"
  | AssociateTokens _ => "Error while trying to associate tokens to the account"
  | StakeHbar _ => "Error while trying to stake Hbar"
  | UpdateTokenFeeSchedule _ => "Error while trying to update a token fee schedule"
  | InitiateSwap _ => "Error while trying to initiate atomic swap"
  | CompleteSwap _ => "Error while trying to complete atomic swap"
  end.

(** The command each operation builds, up to what depends on the lookups
    of the run: the [decimals] of [updateTokenFeeSchedule] and the swaps of
    [initiateSwap]; [built] is the client object the factory answered
    with. *)
Definition command_outline (op : Operation) (built : HederaClient)
    (c : Command) : Prop :=
  match op with
  | CreateTopic p =>
      c = CreateTopicCommand (memo p) (adminKey p) (submitKey p)
            (autoRenewPeriod p) (autoRenewAccount p)
  | AssociateTokens p => c = AssociateTokensCommand (default [] (tokenIds p))
  | StakeHbar p => c = StakeHbarCommand (nodeId p) (accountId p)
  | UpdateTokenFeeSchedule p =>
      exists key decimals,
        getPrivateKey built = Some key /\
        c = UpdateTokenFeeScheduleCommand (tokenId p) key decimals
              (default [] (customFees p))
  | InitiateSwap p =>
      exists swaps',
        c = AtomicSwapCommand swaps' (swapMemo p) (maxFee p)
              (serviceFeesToPayOf
                 (percentageCut (default defaultServiceFee (serviceFee p)))
                 (default [] (atomicSwaps p)))
              (toAddress (default defaultServiceFee (serviceFee p)))
  | CompleteSwap _ => c = AtomicSwapCommand [] None None ∅ None
  end.

(** The token id [createTxDialog] asks the mirror node about: the asset id,
    and for an NFT what stands before its first slash. *)
Definition lookupId (t : SimpleTransfer) : string :=
  if String.eqb (assetType t) "NFT"
  then as_string (split_slash (as_string (assetId t)) !! 0%nat)
  else as_string (assetId t).

(** [d] is the [decimals] the run [tr] found for the token of [t], sent
    from [sender]: what the mirror node answered for the token, or, when it
    knew nothing of the token, what the balance of [sender] says. *)
Definition decimals_found (tr : list event) (sender : string)
    (t : SimpleTransfer) (d : number) : Prop :=
  (exists url info,
     In (EvGetTokenById (lookupId t) url (Ok (Some info))) tr /\
     d = stringToNumber (infoDecimals info))
  \/
  (exists url owner b,
     In (EvGetTokenById (lookupId t) url (Ok None)) tr /\
     In (EvGetMirrorAccountInfo sender url (Ok owner)) tr /\
     tokens (balance owner) !! as_string (assetId t) = Some b /\
     d = tokenDecimals b).

(** [t'] is the transfer [t] as [createTxDialog] returns it in the run
    [tr]: as it is for HBAR, and for a token with its [decimals] set to the
    finite number found in the run. *)
Definition handed_over (tr : list event) (sender : string)
    (t t' : SimpleTransfer) : Prop :=
  if String.eqb (assetType t) "HBAR" then t' = t
  else exists d,
         t' = setDecimals t d /\ isFinite d = true /\
         decimals_found tr sender t d.

(** [s'] is the swap [s] of the request as [initiateSwap] hands it to the
    command: half the fee is deducted from both amounts, the responder's
    [to] is the wallet's account, and the [decimals] are those found in the
    run, the requester's transfer being sent from the wallet and the
    responder's from the [to] account of the requester's. *)
Definition swap_handed_over (tr : list event) (wallet : string)
    (percentageCut : number) (s s' : AtomicSwap) : Prop :=
  handed_over tr wallet (deductFee percentageCut (requester s)) (requester s') /\
  handed_over tr (to (requester s))
    (setTo (deductFee percentageCut (responder s)) wallet) (responder s').

(** The command each operation builds in the run [tr] for the wallet [w];
    [built] is the client object the factory answered with. *)
Definition requested_command (w : WalletSnapParams) (op : Operation)
    (built : HederaClient) (tr : list event) (c : Command) : Prop :=
  match op with
  | CreateTopic p =>
      c = CreateTopicCommand (memo p) (adminKey p) (submitKey p)
            (autoRenewPeriod p) (autoRenewAccount p)
  | AssociateTokens p => c = AssociateTokensCommand (default [] (tokenIds p))
  | StakeHbar p => c = StakeHbarCommand (nodeId p) (accountId p)
  | UpdateTokenFeeSchedule p =>
      exists key info,
        getPrivateKey built = Some key /\
        token_lookups tr = [(tokenId p, Ok info)] /\
        c = UpdateTokenFeeScheduleCommand (tokenId p) key (mirrorDecimals info)
              (default [] (customFees p))
  | InitiateSwap p =>
      let fee := default defaultServiceFee (serviceFee p) in
      let swaps := default [] (atomicSwaps p) in
      exists swaps',
        c = AtomicSwapCommand swaps' (swapMemo p) (maxFee p)
              (serviceFeesToPayOf (percentageCut fee) swaps) (toAddress fee) /\
        Forall2 (swap_handed_over tr
                   (hederaAccountId (currentAccount (state w)))
                   (percentageCut fee))
          swaps swaps'
  | CompleteSwap _ => c = AtomicSwapCommand [] None None ∅ None
  end.

(** More of what the six operations have in common, on the outcome [o] and
    the trace [tr] of a run for the wallet [w]. *)
Record Orderly (w : WalletSnapParams) (op : Operation) (o : outcome TxRecord)
    (tr : list event) : Prop := {
  (** nothing is done twice *)
  at_most_once :
    (length (panels_rendered tr) <= 1 /\ length (dialogs_shown tr) <= 1 /\
     length (clients_built tr) <= 1 /\ length (commands_run tr) <= 1 /\
     length (receipts_shown tr) <= 1 /\ length (states_saved tr) <= 1)%nat;
  (** the state is saved by [stakeHbar] only, after the command and the
      dialog that shows its receipt have answered *)
  saved_after_success :
    forall st reply, In (st, reply) (states_saved tr) ->
      (exists p, op = StakeHbar p) /\
      exists c cl r,
        commands_run tr = [(c, execute, cl, Ok r)] /\
        receipts_shown tr
        = [(network (currentAccount (state w)), r, Ok tt)];
  (** once the panel has been rendered, a failure is a rejection with the
      message of the operation *)
  failure_wrapped :
    panels_rendered tr <> [] ->
    Forall (fun r => r = Ok tt) (notification_replies tr) ->
    forall e, o = Thrown e -> e = transactionRejected (error_message op);
  (** the dialog shows what was rendered for this origin, network and
      mirror node *)
  dialog_from_rendering :
    forall d, In d (dialogs_shown tr) ->
      dialogType d = "confirmation" /\
      exists panel,
        renderings tr
        = [(origin w, network (currentAccount (state w)),
            mirrorNodeUrl (currentAccount (state w)), panel, Ok (content d))];
  (** the client is asked for with the account id, the network and the key
      store of the current account *)
  client_for_account :
    forall x, In x (clients_requested tr) ->
      exists a,
        currentAccountOf (state w) = Some a /\
        x = (hederaAccountId (currentAccount (state w)),
             network (currentAccount (state w)),
             curve (keyStore a), privateKey (keyStore a));
  (** the receipt shown is the one the command answered *)
  receipt_from_command :
    forall n r reply, In (n, r, reply) (receipts_shown tr) ->
      n = network (currentAccount (state w)) /\
      exists c cl, commands_run tr = [(c, delegate op, cl, Ok r)];
  (** [createTopic] shows no receipt and sends no notification *)
  topic_is_silent :
    (exists p, op = CreateTopic p) ->
    receipts_shown tr = [] /\ notification_replies tr = [];
  (** the command is, in outline, the one the request asks for, called on
      the client of the object the factory built *)
  command_as_requested :
    forall c m cl r, In (c, m, cl, r) (commands_run tr) ->
      m = delegate op /\
      exists built,
        clients_built tr = [Ok (Some built)] /\ cl = getClient built /\
        command_outline op built c;
  (** a notification tells the error that was caught, is the only one, and
      ends the run: with a rejection, or with its own failure *)
  notified :
    forall msg reply, In (msg, reply) (notifications tr) ->
      (exists e, msg = "Error occurred: " +:+ error_message op +:+ " - "
                       +:+ errorToString e) /\
      notifications tr = [(msg, reply)] /\
      o = Thrown (match reply with
                  | Ok _ => transactionRejected (error_message op)
                  | Err e' => e'
                  end);
  (** a dialog that is not confirmed: no command is called; [createTopic]
      throws its rejection, the others notify that the user rejected and
      end as a notification ends the run *)
  declined :
    In (Ok false) (dialog_replies tr) ->
    commands_run tr = [] /\
    (((exists p, op = CreateTopic p) /\ notifications tr = [] /\
      o = Thrown (transactionRejected (error_message op)))
     \/
     ((forall p, op <> CreateTopic p) /\
      exists reply,
        notifications tr
        = [("Error occurred: " +:+ error_message op +:+ " - " +:+
            errorToString (transactionRejected "User rejected the transaction"),
            reply)] /\
        o = Thrown (match reply with
                    | Ok _ => transactionRejected (error_message op)
                    | Err e' => e'
                    end)))
}.

End MoreObservations.

(** ** Sample collaborators and requests

    One instance of the collaborators and a few requests, on which the
    definitions above can be evaluated. *)

Module Sample.

(** The integer a number denotes, when it is one. *)
Definition to_Z (x : number) : option Z :=
  match x with
  | S754_zero _ => Some 0%Z
  | S754_finite s m e =>
      let v :=
        if (0 <=? e)%Z then Some (Zpos m * 2 ^ e)%Z
        else if (Zpos m mod 2 ^ (- e) =? 0)%Z then Some (Zpos m / 2 ^ (- e))%Z
        else None in
      (fun z : Z => if s then (- z)%Z else z) <$> v
  | _ => None
  end.

(** Integers print in decimal; that is all the samples need. *)
Definition printNumber (x : number) : string :=
  match to_Z x with
  | Some z => pretty z
  | None => "NaN"
  end.

Fixpoint digits (s : string) (acc : Z) : option Z :=
  match s with
  | EmptyString => Some acc
  | String c r =>
      let n := Z.of_nat (Ascii.nat_of_ascii c) in
      if ((48 <=? n) && (n <=? 57))%Z then digits r (10 * acc + (n - 48))%Z
      else None
  end.

Definition parseNumber (s : string) : number :=
  match digits s 0 with
  | Some z => of_Z z
  | None => NaN
  end.

Definition power (b e : number) : number :=
  match to_Z b, to_Z e with
  | Some b, Some e => if (0 <=? e)%Z then of_Z (b ^ e) else NaN
  | _, _ => NaN
  end.

Definition printError (e : exn) : string :=
  match e with
  | transactionRejected m | invalidParams m | resourceUnavailable m
  | methodNotSupported m | Failure m => "Error: " +:+ m
  | TypeError m => "TypeError: " +:+ m
  end.

Definition collaborators : Collaborators :=
  {| TxRecord := string;
     Client := string;
     PrivateKey := string;
     Panel := list Node;
     numberToString := printNumber;
     stringToNumber := parseNumber;
     mathPow := power;
     errorToString := printError;
     formatFeeDisplay := fun fee t =>
       text ("Service Fee: " +:+ printNumber fee +:+ " " +:+ assetType t);
     hbarFromTinybar := fun n => printNumber n +:+ " tinybar";
     timestampToString := fun t => t;
     initializePanelToShow := [] |}.

#[local] Existing Instance collaborators.

Definition account : AccountState :=
  {| keyStore := {| privateKey := "302e"; curve := "ECDSA_SECP256K1" |};
     accountInfo :=
       {| stakingInfo := {| stakedAccountId := None;
                            stakedNodeId := None;
                            declineStakingReward := true |} |} |}.

Definition wallet : WalletSnapParams :=
  {| origin := "https://dapp.example";
     state :=
       {| currentAccount :=
            {| hederaAccountId := "0.0.1001";
               hederaEvmAddress := "0xabc";
               network := "testnet";
               mirrorNodeUrl := "https://testnet.mirrornode.hedera.com" |};
          accountState := {[ "0xabc" := {[ "testnet" := account ]} ]} |} |}.

Definition tokenInfo : MirrorTokenInfo :=
  {| name := "Sample"; type := "FUNGIBLE_COMMON"; symbol := "SMP";
     total_supply := "100000"; max_supply := "1000000"; infoDecimals := "2" |}.

Definition nodeInfo : MirrorStakingInfo :=
  {| description := "Hosted by a sample"; node_id := of_Z 3;
     node_account_id := "0.0.6"; stake := of_Z 4500000;
     staking_period := {| periodFrom := "1700000000.0";
                          periodTo := "1700086400.0" |} |}.

(** Collaborators that all succeed; the mirror node knows every token but
    [0.0.404]; the user answers [confirm]. *)
Definition answering (confirm : bool) : environment :=
  fun _ X c =>
    match c in call X return result X with
    | createClient _ _ _ _ =>
        Ok (Some {| getClient := "client"; getPrivateKey := Some "key" |})
    | getMirrorAccountInfo _ _ =>
        Ok {| balance :=
                {| hbars := of_Z 1000;
                   tokens := {[ "0.0.123" :=
                                  {| tokenBalance := of_Z 5000;
                                     tokenDecimals := of_Z 2 |} ]} |} |}
    | getTokenById t _ =>
        if String.eqb t "0.0.404" then Ok None else Ok (Some tokenInfo)
    | getNodeStakingInfo _ _ => Ok [nodeInfo]
    | generateCommonPanel o _ _ p => Ok (text ("Origin: " +:+ o) :: p)
    | snapDialog _ => Ok confirm
    | snapCreateDialogAfterTransaction _ _ => Ok tt
    | snapNotification _ => Ok tt
    | commandCall _ _ _ => Ok "0.0.1001@1700000000.000000000"
    | updateState _ => Ok tt
    end.

Definition transfer (kind : string) (id : option string) (n : Z) (dest : string)
  : SimpleTransfer :=
  {| assetType := kind; to := dest; amount := of_Z n; assetId := id;
     from := None; decimals := None |}.

(** Two swaps whose requester sends the same token. *)
Definition swaps : list AtomicSwap :=
  [ {| requester := transfer "TOKEN" (Some "0.0.123") 100 "0.0.2002";
       responder := transfer "HBAR" None 10 "0.0.9" |};
    {| requester := transfer "TOKEN" (Some "0.0.123") 200 "0.0.3003";
       responder := transfer "HBAR" None 20 "0.0.9" |} ].

Definition swapRequest (cut : option Z) : InitiateSwapRequestParams :=
  {| atomicSwaps := Some swaps;
     swapMemo := Some "swap";
     maxFee := None;
     serviceFee :=
       (fun c => {| percentageCut := of_Z c; toAddress := Some "0.0.98" |})
         <$> cut |}.

Definition topicRequest : CreateTopicRequestParams :=
  {| memo := Some "topic"; adminKey := None; submitKey := None;
     autoRenewPeriod := None; autoRenewAccount := None |}.

Definition associateRequest : AssociateTokensRequestParams :=
  {| tokenIds := Some ["0.0.123"; "0.0.404"] |}.

Definition stakeRequest : StakeHbarRequestParams :=
  {| nodeId := Some (of_Z 3); accountId := None |}.

Definition feeScheduleRequest (fees : option (list TokenCustomFee))
  : UpdateTokenFeeScheduleRequestParams :=
  {| tokenId := "0.0.123"; customFees := fees |}.

Definition customFee : TokenCustomFee :=
  {| feeCollectorAccountId := "0.0.1001"; hbarAmount := Some (of_Z 1);
     tokenAmount := None; denominatingTokenId := None;
     allCollectorsAreExempt := Some false |}.

(** The runs of the samples. *)
Definition receipt : string := "0.0.1001@1700000000.000000000".

Definition rejectedSwap : outcome TxRecord * list event :=
  run (answering false) (facade wallet (InitiateSwap (swapRequest (Some 10)))) [].

Definition topicRun : outcome TxRecord * list event :=
  run (answering true) (facade wallet (CreateTopic topicRequest)) [].

Definition stakeRun : outcome TxRecord * list event :=
  run (answering true) (facade wallet (StakeHbar stakeRequest)) [].

Definition completeRun : outcome TxRecord * list event :=
  run (answering true) (facade wallet (CompleteSwap {| scheduleId := "0.0.77" |})) [].

Definition swapRun : outcome TxRecord * list event :=
  run (answering true) (initiateSwap wallet (swapRequest (Some 10))) [].

Definition plainSwapRun : outcome TxRecord * list event :=
  run (answering true) (initiateSwap wallet (swapRequest None)) [].


End Sample.

(** ** Samples of what goes wrong *)

Module SampleFaults.

Import Sample.
#[local] Existing Instance collaborators.

(** The one collaborator that does not do its part. *)
Inductive Fault : Type :=
| NoClient       (* the client factory answers [null] *)
| MirrorDown     (* every token lookup is rejected *)
| UnknownNode.   (* the mirror node knows no staking node *)

Definition mirrorDown : exn := Failure "mirror node unreachable".

(** Collaborators as in [answering true], but for the one at fault. *)
Definition failing (fault : Fault) : environment :=
  fun past X c =>
    match c in call X return result X with
    | createClient a n cv k =>
        match fault with
        | NoClient => Ok None
        | _ => answering true past (createClient a n cv k)
        end
    | getTokenById t u =>
        match fault with
        | MirrorDown => Err mirrorDown
        | _ => answering true past (getTokenById t u)
        end
    | getNodeStakingInfo u n =>
        match fault with
        | UnknownNode => Ok []
        | _ => answering true past (getNodeStakingInfo u n)
        end
    | getMirrorAccountInfo a u => answering true past (getMirrorAccountInfo a u)
    | generateCommonPanel o n u p =>
        answering true past (generateCommonPanel o n u p)
    | snapDialog d => answering true past (snapDialog d)
    | snapCreateDialogAfterTransaction n r =>
        answering true past (snapCreateDialogAfterTransaction n r)
    | snapNotification m => answering true past (snapNotification m)
    | commandCall c m cl => answering true past (commandCall c m cl)
    | updateState st => answering true past (updateState st)
    end.

Definition notificationFailed : exn := Failure "notification failed".

(** The user declines, and the error notification cannot be delivered. *)
Definition unnotified : environment :=
  fun past X c =>
    match c in call X return result X with
    | snapNotification m => Err notificationFailed
    | createClient a n cv k => answering false past (createClient a n cv k)
    | getTokenById t u => answering false past (getTokenById t u)
    | getNodeStakingInfo u n => answering false past (getNodeStakingInfo u n)
    | getMirrorAccountInfo a u => answering false past (getMirrorAccountInfo a u)
    | generateCommonPanel o n u p =>
        answering false past (generateCommonPanel o n u p)
    | snapDialog d => answering false past (snapDialog d)
    | snapCreateDialogAfterTransaction n r =>
        answering false past (snapCreateDialogAfterTransaction n r)
    | commandCall c m cl => answering false past (commandCall c m cl)
    | updateState st => answering false past (updateState st)
    end.

Definition unnotifiedRun : outcome TxRecord * list event :=
  run unnotified (facade wallet (StakeHbar stakeRequest)) [].

(** A wallet whose state holds no account. *)
Definition emptyWallet : WalletSnapParams :=
  {| origin := origin wallet;
     state := {| currentAccount := currentAccount (state wallet);
                 accountState := ∅ |} |}.

Definition bothRequest : StakeHbarRequestParams :=
  {| nodeId := Some (of_Z 3); accountId := Some "0.0.5" |}.

Definition delegatedTransfer : SimpleTransfer :=
  {| assetType := "HBAR"; to := "0.0.9"; amount := of_Z 10; assetId := None;
     from := Some "0.0.7"; decimals := None |}.

Definition delegatedRequest : InitiateSwapRequestParams :=
  {| atomicSwaps :=
       Some [ {| requester := transfer "HBAR" None 10 "0.0.2002";
                 responder := delegatedTransfer |} ];
     swapMemo := None; maxFee := None; serviceFee := None |}.

(** An NFT with more than a token id and a serial number in its asset id. *)
Definition nftTransfer : SimpleTransfer :=
  transfer "NFT" (Some "0.0.555/7/9") 1 "0.0.9".

Definition nftLeg : outcome (SimpleTransfer * list Node) * list event :=
  run (answering true)
    (createTxDialog "0.0.1001" nftTransfer
       "https://testnet.mirrornode.hedera.com" [] ∅ true) [].

(** More HBAR than the sample account holds. *)
Definition largeTransfer : SimpleTransfer := transfer "HBAR" None 5000 "0.0.9".

Definition lastTokenTransfer : SimpleTransfer :=
  transfer "TOKEN" (Some "0.0.123") 200 "0.0.3003".

Definition repeatedIds : list string := ["0.0.123"; "0.0.404"; "0.0.123"].

Definition noClientRun : outcome TxRecord * list event :=
  run (failing NoClient) (facade wallet (CompleteSwap {| scheduleId := "0.0.77" |})) [].

Definition feeScheduleRun : outcome TxRecord * list event :=
  run (answering true)
    (updateTokenFeeSchedule wallet (feeScheduleRequest (Some [customFee]))) [].

Definition feeScheduleDownRun : outcome TxRecord * list event :=
  run (failing MirrorDown)
    (updateTokenFeeSchedule wallet (feeScheduleRequest (Some [customFee]))) [].

Definition unknownNodeRun : outcome TxRecord * list event :=
  run (failing UnknownNode) (stakeHbar wallet stakeRequest) [].

Definition associateDownRun : outcome TxRecord * list event :=
  run (failing MirrorDown) (associateTokens wallet associateRequest) [].

Definition delegatedLeg : outcome (SimpleTransfer * list Node) * list event :=
  run (answering true)
    (createTxDialog "0.0.1001" delegatedTransfer
       "https://testnet.mirrornode.hedera.com" [] ∅ true) [].

Definition largeLeg : outcome (SimpleTransfer * list Node) * list event :=
  run (answering true)
    (createTxDialog "0.0.1001" largeTransfer
       "https://testnet.mirrornode.hedera.com" [] ∅ true) [].

End SampleFaults.

(** ** Rounding to two decimal places, on examples *)

Example toFixed2_0125 :
  toFixed2 (div (of_Z 1) (of_Z 8)) = div (of_Z 13) (of_Z 100).
Proof. vm_compute. reflexivity. Qed.

Example toFixed2_1005 :
  toFixed2 (div (of_Z 1005) (of_Z 1000)) = of_Z 1.
Proof. vm_compute. reflexivity. Qed.

Example toFixed2_neg_small :
  toFixed2 (div (of_Z (-1)) (of_Z 1000)) = S754_zero true.
Proof. vm_compute. reflexivity. Qed.

Example toFixed2_int : toFixed2 (of_Z 250) = of_Z 250.
Proof. vm_compute. reflexivity. Qed.

(** ** Trimming, on examples *)

(** A no-break space, a line separator and a byte order mark are trimmed
    like a blank; the space inside is kept. *)
Example trim_unicode :
  trim (utf8 [32; 194; 160; 97; 32; 98; 226; 128; 168; 239; 187; 191; 9]%nat)
  = "a b".
Proof. vm_compute. reflexivity. Qed.

(** A zero-width space (U+200B) is no white space, and the last byte of an
    'a' with grave accent, which is the last byte of a no-break space too,
    is not taken for one. *)
Example trim_keeps :
  trim (utf8 [226; 128; 139; 97; 195; 160]%nat)
  = utf8 [226; 128; 139; 97; 195; 160]%nat.
Proof. vm_compute. reflexivity. Qed.

Example trim_all_white : trim (utf8 [32; 226; 128; 128; 10]%nat) = "".
Proof. vm_compute. reflexivity. Qed.

(** ** Reasoning about runs *)

Section Logic.

Context `{C : Collaborators}.

Lemma wp_run {R : Type} (p : prog R) Q env past :
  wp p Q -> Q (run env p past).1 (run env p past).2.
Proof.
  revert Q past. induction p as [r|e|m k IH|X c k IH]; intros Q past H; simpl in *.
  - exact H.
  - exact H.
  - apply (IH (fun o evs => Q o (EvConsoleError m :: evs))), H.
  - apply (IH (env past X c) (fun o evs => Q o (event_of c (env past X c) :: evs))), H.
Qed.

Lemma wp_mono {R : Type} (p : prog R) (Q Q' : outcome R -> list event -> Prop) :
  wp p Q -> (forall o evs, Q o evs -> Q' o evs) -> wp p Q'.
Proof.
  revert Q Q'. induction p as [r|e|m k IH|X c k IH]; intros Q Q' H HQ; simpl in *.
  - by apply HQ.
  - by apply HQ.
  - eapply IH; [exact H|]. intros o evs. apply HQ.
  - intros r. eapply IH; [apply H|]. intros o evs. apply HQ.
Qed.

Lemma wp_bind {A B : Type} (p : prog A) (f : A -> prog B) Q :
  wp p (fun o evs =>
          match o with
          | Returned a => wp (f a) (fun o' evs' => Q o' (evs ++ evs'))
          | Thrown e => Q (Thrown e) evs
          end) ->
  wp (bind p f) Q.
Proof.
  revert Q. induction p as [r|e|m k IH|X c k IH]; intros Q H; simpl in *.
  - exact H.
  - exact H.
  - apply IH. eapply wp_mono; [exact H|]. intros [a|e] evs; simpl; auto.
  - intros r. apply IH. eapply wp_mono; [apply H|]. intros [a|e] evs; simpl; auto.
Qed.

Lemma wp_try_catch {A : Type} (p : prog A) (h : exn -> prog A) Q :
  wp p (fun o evs =>
          match o with
          | Returned a => Q (Returned a) evs
          | Thrown e => wp (h e) (fun o' evs' => Q o' (evs ++ evs'))
          end) ->
  wp (try_catch p h) Q.
Proof.
  revert Q. induction p as [r|e|m k IH|X c k IH]; intros Q H; simpl in *.
  - exact H.
  - exact H.
  - apply IH. eapply wp_mono; [exact H|]. intros [a|e] evs; simpl; auto.
  - intros r. apply IH. eapply wp_mono; [apply H|]. intros [a|e] evs; simpl; auto.
Qed.

End Logic.

Section FacadeProofs.

Context `{C : Collaborators}.

Lemma key_events_app (a b : list event) :
  key_events (a ++ b) = key_events a ++ key_events b.
Proof.
  induction a as [|e a IH]; simpl; [done|].
  destruct (is_lookup e); simpl; by rewrite IH.
Qed.

Lemma key_events_lookups (evs : list event) :
  lookups_only evs -> key_events evs = [].
Proof.
  induction 1 as [|e evs He _ IH]; simpl; [done|]. by rewrite He.
Qed.

Lemma lookups_only_app (a b : list event) :
  lookups_only a -> lookups_only b -> lookups_only (a ++ b).
Proof. apply Forall_app_2. Qed.

(** Peel the program: compute [wp] through the straight-line code, split
    on every answer and on every test. *)
Ltac wp_peel :=
  repeat first
    [ progress cbn [wp bind try_catch await console_error confirmDialog
                    buildClient notifyAndReject negb fst snd event_of]
    | match goal with
      | |- forall _ : result _, _ => intros [?|?]
      | |- wp (match ?x with _ => _ end) _ => destruct x eqn:?
      | |- wp (bind (match ?x with _ => _ end) _) _ => destruct x eqn:?
      | |- wp (try_catch (match ?x with _ => _ end) _) _ => destruct x eqn:?
      | |- wp (try_catch (bind (match ?x with _ => _ end) _) _) _ =>
          destruct x eqn:?
      | |- wp (bind (bind (match ?x with _ => _ end) _) _) _ =>
          destruct x eqn:?
      | |- wp (try_catch (bind (bind (match ?x with _ => _ end) _) _) _) _ =>
          destruct x eqn:?
      end ].

(** Settle [Behaves] on a trace that is known event by event. *)
Ltac behaves_leaf :=
  repeat match goal with
    | H : negb ?b = _ |- _ => destruct b; simpl in H; try discriminate H; clear H
    end;
  split;
  [ intros ? ?; simplify_eq/=; eauto 10
  | intros ? ?; simplify_eq/=; done
  | simpl; intros ? ?; destruct_or?; simplify_eq;
    decompose_Forall_hyps; simplify_eq; done
  | reflexivity ].

Lemma createTopic_behaves w p :
  wp (createTopic w p) (fun o evs => Behaves (CreateTopic p) o (key_events evs)).
Proof.
  unfold createTopic, currentAccountState.
  destruct (accountState (state w) !! _) as [per|]; [|behaves_leaf].
  destruct (per !! _) as [a|]; [|behaves_leaf].
  wp_peel; behaves_leaf.
Qed.

Lemma completeSwap_behaves w p :
  wp (completeSwap w p) (fun o evs => Behaves (CompleteSwap p) o (key_events evs)).
Proof.
  unfold completeSwap, currentAccountState.
  destruct (accountState (state w) !! _) as [per|]; [|behaves_leaf].
  destruct (per !! _) as [a|]; [|behaves_leaf].
  wp_peel; behaves_leaf.
Qed.

Lemma updateTokenFeeSchedule_behaves w p :
  wp (updateTokenFeeSchedule w p)
    (fun o evs => Behaves (UpdateTokenFeeSchedule p) o (key_events evs)).
Proof.
  unfold updateTokenFeeSchedule, currentAccountState.
  destruct (customFees p) as [fees|]; [|wp_peel; behaves_leaf].
  destruct (accountState (state w) !! _) as [per|]; [|behaves_leaf].
  destruct (per !! _) as [a|]; [|behaves_leaf].
  wp_peel; behaves_leaf.
Qed.

Lemma associateTokensLoop_wp all url rest panel :
  wp (associateTokensLoop all url rest panel)
    (fun o evs =>
       lookups_only evs /\
       (forall e, o = Thrown e ->
          Exists (fun x => exists e', x.2 = Err e') (token_lookups evs)) /\
       forall panel', o = Returned panel' ->
         exists infos,
           token_lookups evs = zip rest (Ok <$> infos) /\
           length infos = length rest /\
           panel' = panel ++
             flat_map (fun x => tokenSectionNodes all x.1 x.2) (zip rest infos)).
Proof.
  revert panel. induction rest as [|tokenId rest IH]; intros panel.
  - simpl. split; [constructor|]. split; [done|].
    intros ? [= <-]. exists []. by rewrite app_nil_r.
  - cbn [associateTokensLoop]. wp_peel.
    + eapply wp_mono; [apply IH|]. intros o evs (Hl & He & Hp).
      split; [by constructor|]. split.
      * intros e ->. apply Exists_cons_tl. by eapply He.
      * intros panel' ->. destruct (Hp _ eq_refl) as (infos & Ht & Hlen & ->).
        eexists (Some _ :: infos). simpl. rewrite Ht, Hlen.
        split_and!; [done..|]. unfold tokenSectionNodes.
        by rewrite <- !app_assoc.
    + eapply wp_mono; [apply IH|]. intros o evs (Hl & He & Hp).
      split; [by repeat constructor|]. split.
      * intros e ->. apply Exists_cons_tl. by eapply He.
      * intros panel' ->. destruct (Hp _ eq_refl) as (infos & Ht & Hlen & ->).
        exists (None :: infos). simpl. rewrite Ht, Hlen.
        split_and!; [done..|]. unfold tokenSectionNodes.
        by rewrite <- !app_assoc.
    + split; [by repeat constructor|]. split; [|done].
      intros ? [= <-]. apply Exists_cons_hd. by eexists.
Qed.

(** Carry on after a sub-program that only looks things up. *)
Ltac wp_after lemma :=
  first [apply wp_try_catch | idtac]; apply wp_bind;
  eapply wp_mono; [apply lemma|]; cbv beta.

Ltac forget_lookups :=
  cbn [key_events is_lookup]; rewrite ?key_events_app;
  repeat match goal with
    | H : lookups_only ?evs |- _ => rewrite (key_events_lookups H); clear H
    end;
  cbn [app].

Lemma associateTokens_behaves w p :
  wp (associateTokens w p)
    (fun o evs => Behaves (AssociateTokens p) o (key_events evs)).
Proof.
  unfold associateTokens, currentAccountState.
  destruct (accountState (state w) !! _) as [per|]; [|behaves_leaf].
  destruct (per !! _) as [a|]; [|behaves_leaf].
  cbn [bind]. wp_after associateTokensLoop_wp.
  intros [panel|e] evs (Hl & _ & _); wp_peel; forget_lookups; behaves_leaf.
Qed.

Lemma stakeHbarPlan_wp url p old :
  wp (stakeHbarPlan url p old)
    (fun o evs =>
       lookups_only evs /\
       forall plan, o = Returned plan ->
         (forall n, nodeId p = Some n ->
            stakedNodeId plan.2 = Some (numberToString n)) /\
         (nodeId p = None -> stakedNodeId plan.2 = stakedNodeId old) /\
         (forall acc, accountId p = Some acc -> acc <> "" ->
            stakedAccountId plan.2 = Some acc) /\
         (isEmpty (accountId p) = true ->
            stakedAccountId plan.2 = stakedAccountId old) /\
         declineStakingReward plan.2 =
           bool_decide (nodeId p = None /\ accountId p = None)).
Proof.
  unfold stakeHbarPlan.
  destruct (nodeId p) as [n|], (accountId p) as [[|c acc]|];
    wp_peel; (split; [by repeat constructor|]); intros plan ?;
    simplify_eq/=; split_and!; intros; simplify_eq/=; try done.
Qed.

Lemma stakeHbar_behaves w p :
  wp (stakeHbar w p) (fun o evs => Behaves (StakeHbar p) o (key_events evs)).
Proof.
  unfold stakeHbar, currentAccountState.
  destruct (accountState (state w) !! _) as [per|]; [|behaves_leaf].
  destruct (per !! _) as [a|]; [|behaves_leaf].
  cbn [bind]. wp_after stakeHbarPlan_wp.
  intros [plan|e] evs [Hl _]; wp_peel; forget_lookups; behaves_leaf.
Qed.

Ltac solve_lookups :=
  repeat first
    [ assumption
    | apply lookups_only_app
    | apply Forall_nil_2
    | apply Forall_cons_2; [reflexivity|] ].

Lemma createTxDialog_wp sender t url panel fees isRequester :
  wp (createTxDialog sender t url panel fees isRequester)
    (fun o evs =>
       lookups_only evs /\
       forall r, o = Returned r ->
         same_transfer t r.1 /\
         exists more,
           r.2 = panel ++
                 [ text ("Swap " +:+
                         (if isRequester then "Requester" else "Responder"));
                   copyable sender ] ++ more).
Proof.
  unfold createTxDialog.
  wp_peel; (split; [by repeat constructor|]); intros r ?; simplify_eq;
    cbn [fst snd]; (split; [by unfold same_transfer|]);
    rewrite <- ?app_assoc; cbn [app]; eexists; reflexivity.
Qed.

Lemma swapDialogLoop_wp wallet url fees n swaps panel :
  wp (swapDialogLoop wallet url fees n swaps panel)
    (fun o evs =>
       lookups_only evs /\
       forall r, o = Returned r ->
         Forall2 (swap_redirected wallet) swaps r.1 /\
         exists sections,
           r.2 = panel ++ concat sections /\
           Forall2 (fun s nodes => swap_section wallet (to (requester s)) nodes)
             swaps sections).
Proof.
  revert n panel. induction swaps as [|swap swaps IH]; intros n panel.
  - simpl. split; [constructor|]. intros r [= <-]. split; [constructor|].
    exists []. simpl. by rewrite app_nil_r.
  - cbn [swapDialogLoop]. wp_after createTxDialog_wp.
    intros [r1|e] evs1 [Hl1 H1]; [|done].
    destruct (H1 _ eq_refl) as [Hsame1 [more1 Hp1]].
    wp_after createTxDialog_wp.
    intros [r2|e] evs2 [Hl2 H2]; [|split; [solve_lookups|done]].
    destruct (H2 _ eq_refl) as [Hsame2 [more2 Hp2]].
    apply wp_bind. eapply wp_mono; [apply IH|]. cbv beta.
    intros [r3|e] evs3 [Hl3 H3]; cbn [wp]; (split; [solve_lookups|]); [|done].
    intros r [= <-]. destruct (H3 _ eq_refl) as [Hall (sections & Hp3 & Hsec)].
    cbn [fst snd]. split.
    + constructor; [|done]. by split.
    + set (h := [divider; text ("Swap #" +:+ numberToString (of_Z n)); divider]).
      exists ((h ++ [text "Swap Requester"; copyable wallet] ++ more1
               ++ [divider]
               ++ [text "Swap Responder"; copyable (to r1.1)] ++ more2)
              :: sections).
      split; [|constructor; [|done]].
      * rewrite Hp3, Hp2, Hp1. cbn [concat]. by rewrite <- !app_assoc.
      * destruct Hsame1 as (_ & -> & _).
        exists h, (more1 ++ [divider]), more2. by rewrite <- !app_assoc.
Qed.

Lemma initiateSwap_behaves w p :
  wp (initiateSwap w p) (fun o evs => Behaves (InitiateSwap p) o (key_events evs)).
Proof.
  unfold initiateSwap, currentAccountState.
  destruct (accountState (state w) !! _) as [per|]; [|behaves_leaf].
  destruct (per !! _) as [a|]; [|behaves_leaf].
  wp_peel; try behaves_leaf.
  wp_after swapDialogLoop_wp.
  intros [r|e] evs [Hl _]; wp_peel; forget_lookups; behaves_leaf.
Qed.

(** Every operation behaves, whatever the collaborators answer. *)
Lemma facade_behaves env w op :
  let res := run env (facade w op) [] in
  Behaves op res.1 (key_events res.2).
Proof.
  apply (wp_run (Q := fun o evs => Behaves op o (key_events evs))).
  destruct op; simpl.
  - apply createTopic_behaves.
  - apply associateTokens_behaves.
  - apply stakeHbar_behaves.
  - apply updateTokenFeeSchedule_behaves.
  - apply initiateSwap_behaves.
  - apply completeSwap_behaves.
Qed.

(** The observations do not see lookups and log lines. *)
Lemma omap_key_events {A : Type} (f : event -> option A) tr :
  (forall e, is_lookup e = true -> f e = None) ->
  omap f (key_events tr) = omap f tr.
Proof.
  intros Hf. induction tr as [|e tr IH]; [done|].
  cbn [key_events]. destruct (is_lookup e) eqn:He.
  - cbn [omap list_omap]. rewrite (Hf e He). exact IH.
  - cbn [omap list_omap]. destruct (f e); [f_equal|]; exact IH.
Qed.

Lemma sdk_order_key_events tr : sdk_order (key_events tr) = sdk_order tr.
Proof. apply omap_key_events. by intros []. Qed.

Lemma commands_run_key_events tr : commands_run (key_events tr) = commands_run tr.
Proof. apply omap_key_events. by intros []. Qed.

Lemma dialog_replies_key_events tr :
  dialog_replies (key_events tr) = dialog_replies tr.
Proof. apply omap_key_events. by intros []. Qed.

Lemma clients_built_key_events tr : clients_built (key_events tr) = clients_built tr.
Proof. apply omap_key_events. by intros []. Qed.

Lemma dialogs_shown_key_events tr : dialogs_shown (key_events tr) = dialogs_shown tr.
Proof. apply omap_key_events. by intros []. Qed.

Lemma panels_rendered_key_events tr :
  panels_rendered (key_events tr) = panels_rendered tr.
Proof. apply omap_key_events. by intros []. Qed.

Lemma states_saved_key_events tr : states_saved (key_events tr) = states_saved tr.
Proof. apply omap_key_events. by intros []. Qed.

Lemma notification_replies_key_events tr :
  notification_replies (key_events tr) = notification_replies tr.
Proof. apply omap_key_events. by intros []. Qed.

Lemma confirmed_before_commands_key_events b tr :
  confirmed_before_commands b (key_events tr) = confirmed_before_commands b tr.
Proof.
  revert b. induction tr as [|e tr IH]; intros b; [done|].
  destruct e as [| | | | |? [[]|]| | | | |]; simpl; by rewrite ?IH.
Qed.

(** What [confirmed_before_commands] computes: a command call in the trace
    has a confirmed dialog somewhere before it. *)
Lemma confirmed_before_commands_sound b tr pre c m cl r post :
  confirmed_before_commands b tr = true ->
  tr = pre ++ EvCommand c m cl r :: post ->
  b = true \/ In (Ok true) (dialog_replies pre).
Proof.
  revert b tr. induction pre as [|e pre IH]; intros b tr H ->.
  - simpl in H. apply andb_true_iff in H as [-> _]. by left.
  - assert (forall b', confirmed_before_commands b' (pre ++ EvCommand c m cl r :: post)
                       = true ->
                       b' = true \/ In (Ok true) (dialog_replies pre)) as IH'
      by (intros b' Hb'; by eapply IH).
    unfold dialog_replies in *.
    destruct e as [| | | | |? [[]|]| | | | |]; simpl in *;
      first [ by (right; left)
            | apply andb_true_iff in H as [-> _]; by left
            | destruct (IH' _ H) as [?|?]; by auto ].
Qed.

(** ** The properties of the facades *)

(** C3, as amended: an operation that runs to the end has made its SDK
    calls in the order of [order_of]: [initiateSwap] and [completeSwap]
    build the client, show the dialog, execute the command; [createTopic],
    [associateTokens] and [updateTokenFeeSchedule] show the dialog, build
    the client, execute the command; [stakeHbar] does the same and then
    persists the state. *)
Theorem sdk_calls_in_order env w op r tr :
  run env (facade w op) [] = (Returned r, tr) ->
  sdk_order tr = order_of op.
Proof.
  intros Hrun. pose proof (facade_behaves env w op) as H.
  rewrite Hrun in H. cbn [fst snd] in H. destruct H as [_ Hord _ _].
  rewrite sdk_order_key_events in Hord. by eapply Hord.
Qed.

(** C4: an operation that returns normally returns the receipt its one
    call to the command ([execute], [initiateSwap] or [completeSwap])
    answered, as it is. *)
Theorem returns_command_receipt env w op r tr :
  run env (facade w op) [] = (Returned r, tr) ->
  exists c hederaClient,
    clients_built tr = [Ok (Some hederaClient)] /\
    commands_run tr = [(c, delegate op, getClient hederaClient, Ok r)].
Proof.
  intros Hrun. pose proof (facade_behaves env w op) as H.
  rewrite Hrun in H. cbn [fst snd] in H. destruct H as [Hret _ _ _].
  rewrite commands_run_key_events, clients_built_key_events in Hret.
  by eapply Hret.
Qed.

(** C10: with [customFees] undefined, [updateTokenFeeSchedule] throws
    [invalidParams] with the message 'null custom fee schedule given' having
    done nothing but log that line: no dialog, no lookup, no command.  With
    [customFees] defined the check passes: that line is never logged, and
    when the state holds the current account the method goes on to the
    token lookup. *)
Theorem updateTokenFeeSchedule_null_schedule env w p :
  (customFees p = None ->
   run env (updateTokenFeeSchedule w p) []
   = (Thrown (invalidParams "null custom fee schedule given"),
      [EvConsoleError "null custom fee schedule given"]))
  /\
  (forall fees, customFees p = Some fees ->
     let tr := (run env (updateTokenFeeSchedule w p) []).2 in
     ~ In (EvConsoleError "null custom fee schedule given") tr /\
     (forall a, accountState (state w) !! hederaEvmAddress (currentAccount (state w))
                  ≫= (.!! network (currentAccount (state w))) = Some a ->
        exists reply rest,
          tr = EvGetTokenById (tokenId p) (mirrorNodeUrl (currentAccount (state w)))
                 reply :: rest)).
Proof.
  split.
  - intros Hnone. unfold updateTokenFeeSchedule. by rewrite Hnone.
  - intros fees Hfees. cbv zeta.
    apply (wp_run (Q := fun _ tr =>
      ~ In (EvConsoleError "null custom fee schedule given") tr /\
      (forall a, accountState (state w) !! hederaEvmAddress (currentAccount (state w))
                   ≫= (.!! network (currentAccount (state w))) = Some a ->
         exists reply rest,
           tr = EvGetTokenById (tokenId p) (mirrorNodeUrl (currentAccount (state w)))
                  reply :: rest))).
    unfold updateTokenFeeSchedule, currentAccountState. rewrite Hfees.
    destruct (accountState (state w) !! _) as [per|];
      [|cbn [bind wp]; split; [by intros []|by intros]].
    cbn [mbind option_bind].
    destruct (per !! _) as [a|];
      [|cbn [bind wp]; split; [by intros []|by intros]].
    wp_peel; (split; [|by eauto]); simpl; intros ?; destruct_or?; simplify_eq.
Qed.

(** C8: every confirmation dialog of [AtomicSwapFacade] states the time
    window.  What [initiateSwap] shows was rendered from a panel holding the
    text 'Are you sure you want to execute the following swap? Note that the
    responder will also need to approve the swap by calling
    "hts/completeSwap" API within 30 minutes from now or the transaction
    will fail.', and what [completeSwap] shows from a panel holding 'Are you
    sure you want to execute the following swap? Note that all the parties
    involved in the swap must approve the swap within 30 minutes from now or
    the transaction will fail.'; the first names the "hts/completeSwap" API
    and both say 'within 30 minutes'. *)
Theorem atomic_swap_dialogs_state_window env w :
  let initiateNotice :=
    "Are you sure you want to execute the following swap? Note that the responder will also need to approve the swap by calling "
    +:+ dquote +:+ "hts/completeSwap" +:+ dquote
    +:+ " API within 30 minutes from now or the transaction will fail." in
  let completeNotice :=
    "Are you sure you want to execute the following swap? Note that all the parties involved in the swap must approve the swap within 30 minutes from now or the transaction will fail." in
  (mentions (dquote +:+ "hts/completeSwap" +:+ dquote +:+ " API") initiateNotice = true /\
   mentions "within 30 minutes" initiateNotice = true /\
   mentions "or the transaction will fail" initiateNotice = true /\
   mentions "all the parties involved in the swap must approve" completeNotice = true /\
   mentions "within 30 minutes" completeNotice = true /\
   mentions "or the transaction will fail" completeNotice = true)
  /\
  (forall p d,
     In d (dialogs_shown (run env (initiateSwap w p) []).2) ->
     dialogType d = "confirmation" /\
     exists panel,
       In (text initiateNotice) panel /\
       In (panel, Ok (content d)) (panels_rendered (run env (initiateSwap w p) []).2))
  /\
  (forall p d,
     In d (dialogs_shown (run env (completeSwap w p) []).2) ->
     dialogType d = "confirmation" /\
     exists panel,
       In (text completeNotice) panel /\
       In (panel, Ok (content d)) (panels_rendered (run env (completeSwap w p) []).2)).
Proof.
  intros initiateNotice completeNotice.
  split; [by vm_compute|].
  set (P := fun (notice : string) (tr : list event) =>
    forall d, In d (dialogs_shown tr) ->
      dialogType d = "confirmation" /\
      exists panel, In (text notice) panel /\
                    In (panel, Ok (content d)) (panels_rendered tr)).
  assert (forall notice tr, P notice (key_events tr) -> P notice tr) as Hkey.
  { intros notice tr H d Hd. rewrite <- dialogs_shown_key_events in Hd.
    destruct (H d Hd) as [? (panel & ? & Hin)]. split; [done|].
    exists panel. split; [done|]. by rewrite <- panels_rendered_key_events. }
  split; intros p; apply Hkey;
    apply (wp_run (Q := fun _ tr => P _ (key_events tr))).
  - unfold initiateSwap, currentAccountState.
    destruct (accountState (state w) !! _) as [per|]; [|by intros ? []].
    destruct (per !! _) as [a|]; [|by intros ? []].
    wp_peel; try (by intros ? []).
    wp_after swapDialogLoop_wp.
    intros [r|e] evs [Hl Hr]; wp_peel; forget_lookups;
      intros d Hd; simpl in Hd; destruct_or?; simplify_eq; try done;
      (split; [done|]);
      destruct (Hr _ eq_refl) as [_ (sections & -> & _)];
      (eexists; split; [|left; reflexivity]);
      unfold initiateSwapHeader; rewrite !in_app_iff; simpl; tauto.
  - unfold completeSwap, currentAccountState.
    destruct (accountState (state w) !! _) as [per|]; [|by intros ? []].
    destruct (per !! _) as [a|]; [|by intros ? []].
    wp_peel; intros d Hd; simpl in Hd; destruct_or?; simplify_eq; try done;
      (split; [done|]);
      (eexists; split; [|left; reflexivity]);
      unfold completeSwapPanel; rewrite !in_app_iff; simpl; tauto.
Qed.

Lemma omap_lookups_only {A : Type} (f : event -> option A) evs :
  lookups_only evs ->
  (forall e, is_lookup e = true -> f e = None) ->
  omap f evs = [].
Proof.
  intros Hl Hf. rewrite <- (omap_key_events evs Hf). by rewrite (key_events_lookups Hl).
Qed.

(** C7: a [stakeHbar] that returns normally has saved the wallet state once
    through [SnapState.updateState], and in the saved state the staking
    info of the current account on the current network has [stakedNodeId]
    set to the node id given, [stakedAccountId] set to the account id given
    (a non-empty string), and [declineStakingReward] true exactly when
    neither was given. *)
Theorem stakeHbar_persists_staking_info env w p r tr :
  run env (stakeHbar w p) [] = (Returned r, tr) ->
  exists st' a',
    states_saved tr = [(st', Ok tt)] /\
    currentAccount st' = currentAccount (state w) /\
    accountState st' !! hederaEvmAddress (currentAccount (state w))
      ≫= (.!! network (currentAccount (state w))) = Some a' /\
    (forall n, nodeId p = Some n ->
       stakedNodeId (stakingInfo (accountInfo a')) = Some (numberToString n)) /\
    (forall acc, accountId p = Some acc -> acc <> "" ->
       stakedAccountId (stakingInfo (accountInfo a')) = Some acc) /\
    declineStakingReward (stakingInfo (accountInfo a'))
    = bool_decide (nodeId p = None /\ accountId p = None).
Proof.
  intros Hrun.
  pose proof (wp_run (p := stakeHbar w p) (Q := fun o tr =>
    forall r, o = Returned r ->
    exists st' a',
      states_saved (key_events tr) = [(st', Ok tt)] /\
      currentAccount st' = currentAccount (state w) /\
      accountState st' !! hederaEvmAddress (currentAccount (state w))
        ≫= (.!! network (currentAccount (state w))) = Some a' /\
      (forall n, nodeId p = Some n ->
         stakedNodeId (stakingInfo (accountInfo a')) = Some (numberToString n)) /\
      (forall acc, accountId p = Some acc -> acc <> "" ->
         stakedAccountId (stakingInfo (accountInfo a')) = Some acc) /\
      declineStakingReward (stakingInfo (accountInfo a'))
      = bool_decide (nodeId p = None /\ accountId p = None)) env []) as H.
  rewrite Hrun in H. cbn [fst snd] in H.
  rewrite states_saved_key_events in H. eapply H; [|done]. clear H Hrun.
  unfold stakeHbar, currentAccountState.
  destruct (accountState (state w) !! _) as [per|] eqn:Hper; [|done].
  destruct (per !! _) as [a|] eqn:Ha; [|done].
  cbn [bind]. wp_after stakeHbarPlan_wp.
  intros [plan|e] evs [Hl Hplan]; wp_peel; forget_lookups;
    intros r0 ?; simplify_eq.
  destruct (Hplan _ eq_refl) as (Hnode & _ & Hacc & _ & Hdecline).
  repeat match goal with x : () |- _ => destruct x end.
  exists (withStakingInfo (state w) plan.2),
    {| keyStore := keyStore a; accountInfo := {| stakingInfo := plan.2 |} |}.
  split_and!; try done.
  unfold withStakingInfo. cbn [accountState currentAccount].
  rewrite lookup_alter_eq, Hper. cbn [fmap option_fmap option_map mbind option_bind].
  by rewrite lookup_alter_eq, Ha.
Qed.



(** *** The service fee at a cut of zero *)

Lemma serviceFeeOf_zero_cut cut t :
  is_zero cut = true -> isFinite (amount t) = true -> serviceFeeOf cut t = zero.
Proof.
  unfold serviceFeeOf. destruct cut; try done. intros _.
  destruct (amount t); done.
Qed.

Lemma deductFee_zero_cut cut t :
  is_zero cut = true -> isFinite (amount t) = true ->
  amount (deductFee cut t) = amount t.
Proof.
  intros Hcut Hfin. unfold deductFee. cbn [amount].
  rewrite (serviceFeeOf_zero_cut Hcut Hfin).
  by destruct (amount t) as [[]| | |].
Qed.

Lemma feeReducer_zero_cut cut acc t :
  is_zero cut = true -> isFinite (amount t) = true ->
  all_zero acc -> all_zero (feeReducer cut acc t).
Proof.
  intros Hcut Hfin Hacc. unfold feeReducer, plus_assign.
  rewrite (serviceFeeOf_zero_cut Hcut Hfin).
  assert (truthy_opt (acc !! assetType t) = false) as ->.
  { destruct (acc !! assetType t) as [v|] eqn:Hv; [|done].
    by rewrite (Hacc _ _ Hv). }
  cbn [negb]. rewrite lookup_insert_eq. intros k v.
  destruct (decide (feeKey t = k)) as [->|Hne].
  - rewrite lookup_insert_eq. by intros [= <-].
  - rewrite !lookup_insert_ne by done. apply Hacc.
Qed.

Lemma serviceFeesToPayOf_zero_cut cut swaps :
  is_zero cut = true ->
  Forall (fun t => isFinite (amount t) = true) (transfersOf swaps) ->
  all_zero (serviceFeesToPayOf cut swaps).
Proof.
  intros Hcut. unfold serviceFeesToPayOf.
  assert (all_zero (∅ : gmap string number)) as Hempty by (intros k v; by rewrite lookup_empty).
  revert Hempty. generalize (∅ : gmap string number) as acc.
  induction (transfersOf swaps) as [|t ts IH]; intros acc Hacc Hfin; [done|].
  apply Forall_cons in Hfin as [Ht Hts]. simpl.
  apply IH; [|done]. by apply feeReducer_zero_cut.
Qed.

(** *** What [initiateSwap] shows and what it hands to the command *)

Lemma Forall2_deductFees {B : Type} cut (P : AtomicSwap -> B -> Prop) swaps (l : list B) :
  Forall2 P (deductFees cut swaps) l ->
  Forall2 (fun s => P {| requester := deductFee cut (requester s);
                         responder := deductFee cut (responder s) |}) swaps l.
Proof.
  revert l. induction swaps as [|s swaps IH]; intros l H.
  - inversion H. constructor.
  - simpl in H. inversion H; subst. constructor; [done|]. by apply IH.
Qed.

Lemma initiateSwap_hands_over env w p :
  let swaps := default [] (atomicSwaps p) in
  let fee := default defaultServiceFee (serviceFee p) in
  let wallet := hederaAccountId (currentAccount (state w)) in
  let tr := (run env (initiateSwap w p) []).2 in
  (forall panel reply, In (panel, reply) (panels_rendered tr) ->
     exists sections,
       panel = initiateSwapHeader (swapMemo p) (maxFee p) ++ concat sections /\
       Forall2 (fun s nodes => swap_section wallet (to (requester s)) nodes)
         swaps sections)
  /\
  (forall c m cl r, In (c, m, cl, r) (commands_run tr) ->
     exists swaps',
       c = AtomicSwapCommand swaps' (swapMemo p) (maxFee p)
             (serviceFeesToPayOf (percentageCut fee) swaps) (toAddress fee) /\
       Forall2 (swap_redirected wallet) (deductFees (percentageCut fee) swaps) swaps').
Proof.
  intros swaps fee wallet tr. subst tr.
  rewrite <- panels_rendered_key_events, <- commands_run_key_events.
  apply (wp_run (Q := fun _ tr =>
    (forall panel reply, In (panel, reply) (panels_rendered (key_events tr)) ->
       exists sections,
         panel = initiateSwapHeader (swapMemo p) (maxFee p) ++ concat sections /\
         Forall2 (fun s nodes => swap_section wallet (to (requester s)) nodes)
           swaps sections) /\
    (forall c m cl r, In (c, m, cl, r) (commands_run (key_events tr)) ->
       exists swaps',
         c = AtomicSwapCommand swaps' (swapMemo p) (maxFee p)
               (serviceFeesToPayOf (percentageCut fee) swaps) (toAddress fee) /\
         Forall2 (swap_redirected wallet)
           (deductFees (percentageCut fee) swaps) swaps'))).
  unfold initiateSwap, currentAccountState. fold swaps fee wallet.
  destruct (accountState (state w) !! _) as [per|]; [|by split; intros; simpl in *].
  destruct (per !! _) as [a|]; [|by split; intros; simpl in *].
  wp_peel; try (by split; intros; simpl in * ).
  wp_after swapDialogLoop_wp.
  intros [r|e] evs [Hl Hr]; wp_peel; forget_lookups;
    (split; intros; simpl in *; destruct_or?; simplify_eq; try done);
    destruct (Hr _ eq_refl) as [Hswaps (sections & Hpanel & Hsec)];
    try (exists sections; split; [done|];
         apply Forall2_deductFees in Hsec; exact Hsec);
    by eexists.
Qed.

Lemma same_transfer_amounts s s' wallet :
  swap_redirected wallet s s' ->
  amount (requester s') = amount (requester s) /\
  amount (responder s') = amount (responder s) /\
  to (responder s') = wallet.
Proof. intros [(_ & _ & ? & _) (_ & ? & ? & _)]. done. Qed.

(** C5: in [initiateSwap], the swaps handed to the command are those of the
    request, one for one, and in every one of them the responder's [to] is
    the wallet's own account id, whatever the request said; and the panel
    behind the dialog names, for every swap of the request in order, the
    wallet's account as requester and the [to] account of the requester's
    transfer as responder. *)
Theorem initiateSwap_redirects_responder env w p :
  let swaps := default [] (atomicSwaps p) in
  let wallet := hederaAccountId (currentAccount (state w)) in
  let tr := (run env (initiateSwap w p) []).2 in
  (forall swaps' memo maxFee fees addr m cl r,
     In (AtomicSwapCommand swaps' memo maxFee fees addr, m, cl, r) (commands_run tr) ->
     length swaps' = length swaps /\
     Forall (fun s' => to (responder s') = wallet) swaps')
  /\
  (forall panel reply, In (panel, reply) (panels_rendered tr) ->
     exists sections,
       panel = initiateSwapHeader (swapMemo p) (maxFee p) ++ concat sections /\
       Forall2 (fun s nodes => swap_section wallet (to (requester s)) nodes)
         swaps sections).
Proof.
  intros swaps wallet tr.
  destruct (initiateSwap_hands_over env w p) as [Hpanel Hcmd].
  split; [|exact Hpanel].
  intros swaps' memo maxFee fees addr m cl r Hin.
  destruct (Hcmd _ _ _ _ Hin) as (swaps'' & [= -> _ _ _ _] & Hall).
  split.
  - apply Forall2_length in Hall. rewrite <- Hall. unfold deductFees.
    by rewrite length_map.
  - clear Hin Hcmd Hpanel. revert Hall. generalize (deductFees
      (percentageCut (default defaultServiceFee (serviceFee p))) swaps).
    intros ds Hall. induction Hall as [|s s' l l' Hs _ IH]; [constructor|].
    constructor; [|done]. by destruct (same_transfer_amounts Hs) as (_ & _ & ?).
Qed.

(** C6: when [serviceFee] is omitted, or given with a [percentageCut] of
    zero, the fee computed for every transfer of the request is zero, every
    transfer handed to the command carries the amount of the request, and
    every entry of the fee map handed to the command is zero.  (Amounts are
    finite numbers, as in any JSON-RPC request.) *)
Theorem initiateSwap_zero_cut env w p :
  let swaps := default [] (atomicSwaps p) in
  let cut := percentageCut (default defaultServiceFee (serviceFee p)) in
  let tr := (run env (initiateSwap w p) []).2 in
  is_zero cut = true ->
  Forall (fun t => isFinite (amount t) = true) (transfersOf swaps) ->
  Forall (fun t => serviceFeeOf cut t = zero) (transfersOf swaps) /\
  forall swaps' memo maxFee fees addr m cl r,
    In (AtomicSwapCommand swaps' memo maxFee fees addr, m, cl, r) (commands_run tr) ->
    map amount (transfersOf swaps') = map amount (transfersOf swaps) /\
    forall k v, fees !! k = Some v -> v = zero.
Proof.
  intros swaps cut tr Hcut Hfin. split.
  - eapply Forall_impl; [exact Hfin|]. intros t Ht. by apply serviceFeeOf_zero_cut.
  - intros swaps' memo maxFee fees addr m cl r Hin.
    destruct (initiateSwap_hands_over env w p) as [_ Hcmd].
    destruct (Hcmd _ _ _ _ Hin) as (swaps'' & [= -> _ _ -> _] & Hall).
    split; [|by apply serviceFeesToPayOf_zero_cut].
    fold swaps cut in Hall. clear Hin Hcmd. revert Hfin Hall.
    generalize swaps'' as l'. induction swaps as [|s l IH]; intros l' Hfin Hall.
    + by inversion Hall.
    + simpl in Hall. inversion Hall as [|? s' ? l'' Hs Hrest]; subst.
      simpl in Hfin. apply Forall_cons in Hfin as [Hreq Hfin].
      apply Forall_cons in Hfin as [Hresp Hfin].
      destruct (same_transfer_amounts Hs) as (Ha1 & Ha2 & _).
      cbn [requester responder] in Ha1, Ha2.
      rewrite (deductFee_zero_cut Hcut Hreq) in Ha1.
      rewrite (deductFee_zero_cut Hcut Hresp) in Ha2.
      simpl. rewrite Ha1, Ha2. f_equal. f_equal. by apply IH.
Qed.

(** ** Further properties of the code *)

(** *** Pieces of the runtime the facades lean on *)

Lemma indexOf_nonneg l x : (-1 <= indexOf l x)%Z.
Proof.
  induction l as [|y l IH]; simpl; [lia|].
  destruct (String.eqb y x); [lia|]. destruct (indexOf l x <? 0)%Z; lia.
Qed.

(** X1: the number shown for a token in the [associateTokens] panel is the
    position of the first occurrence of its id, counted from one; a token id
    that occurs twice is numbered twice with the number of its first
    occurrence. *)
Theorem token_number_is_first_occurrence (all : list string) i id :
  all !! i = Some id ->
  exists j,
    (j <= i)%nat /\ all !! j = Some id /\
    (forall k, (k < j)%nat -> all !! k <> Some id) /\
    indexOf all id = Z.of_nat j.
Proof.
  revert i. induction all as [|y all IH]; intros i Hi; [done|].
  simpl. destruct (String.eqb y id) eqn:Hy.
  - apply String.eqb_eq in Hy as ->. exists 0%nat.
    split_and!; [lia|done|intros; lia|done].
  - apply String.eqb_neq in Hy. destruct i as [|i]; [simpl in Hi; congruence|].
    destruct (IH i Hi) as (j & Hle & Hj & Hfirst & Hidx).
    exists (S j). rewrite Hidx.
    destruct (Z.of_nat j <? 0)%Z eqn:Hneg; [lia|].
    split_and!; [lia|done| |lia].
    intros [|k] Hk; simpl; [congruence|]. apply Hfirst. lia.
Qed.

Lemma string_forall_filter ok s : string_forall ok (string_filter ok s) = true.
Proof.
  induction s as [|c s IH]; [done|]. simpl.
  destruct (ok c) eqn:Hc; [|done]. simpl. by rewrite Hc.
Qed.

Lemma string_app_cons c (a b : string) : String c a +:+ b = String c (a +:+ b).
Proof. reflexivity. Qed.

Lemma string_app_nil_r (a : string) : a +:+ "" = a.
Proof. induction a as [|x a IH]; [done|]. rewrite string_app_cons. by f_equal. Qed.

Lemma string_app_assoc (a b c : string) : (a +:+ b) +:+ c = a +:+ (b +:+ c).
Proof.
  induction a as [|x a IH]; [done|]. rewrite !string_app_cons. by f_equal.
Qed.

Lemma string_length_app (a b : string) :
  String.length (a +:+ b) = (String.length a + String.length b)%nat.
Proof.
  induction a as [|x a IH]; [done|]. rewrite string_app_cons. simpl. by f_equal.
Qed.

Lemma string_forall_app ok (a b : string) :
  string_forall ok (a +:+ b) = string_forall ok a && string_forall ok b.
Proof.
  induction a as [|x a IH]; [done|]. rewrite string_app_cons. simpl.
  rewrite IH. by destruct (ok x).
Qed.

Lemma split_slash_plain s :
  string_forall (fun c => negb (Ascii.eqb c "/")) s = true -> split_slash s = [s].
Proof.
  induction s as [|c s IH]; [done|]. simpl.
  intros [Hc Hs]%andb_prop. apply negb_true_iff in Hc. by rewrite Hc, IH.
Qed.

Lemma split_slash_app a b :
  string_forall (fun c => negb (Ascii.eqb c "/")) a = true ->
  split_slash (a +:+ "/" +:+ b) = a :: split_slash b.
Proof.
  induction a as [|c a IH]; [done|]. intros H. simpl in H.
  apply andb_prop in H as [Hc Ha]. apply negb_true_iff in Hc.
  change (split_slash (String c (a +:+ "/" +:+ b)) = String c a :: split_slash b).
  simpl. by rewrite Hc, IH.
Qed.

Lemma drop_prefix_Some p s r : drop_prefix p s = Some r <-> s = p +:+ r.
Proof.
  revert s. induction p as [|a p IH]; intros s; simpl.
  - change ("" +:+ r) with r. split; congruence.
  - rewrite string_app_cons. destruct s as [|b s]; [done|].
    destruct (Ascii.eqb a b) eqn:Hab.
    + apply Ascii.eqb_eq in Hab as ->. rewrite IH. split; congruence.
    + apply Ascii.eqb_neq in Hab. split; [done|]. congruence.
Qed.

Lemma drop_white_Some s r :
  drop_white s = Some r -> exists p, In p whiteSpaces /\ s = p +:+ r.
Proof.
  unfold drop_white. induction whiteSpaces as [|p ws IH]; [done|].
  cbn [omap list_omap]. destruct (drop_prefix p s) as [r'|] eqn:Hp.
  - intros [= <-]. exists p. split; [by left|]. by apply drop_prefix_Some.
  - intros H. destruct (IH H) as (q & ? & ?). exists q. split; [by right|done].
Qed.

Lemma drop_white_None s p r :
  drop_white s = None -> In p whiteSpaces -> s <> p +:+ r.
Proof.
  unfold drop_white. induction whiteSpaces as [|q ws IH]; [done|].
  cbn [omap list_omap]. destruct (drop_prefix q s) as [r'|] eqn:Hq; [done|].
  intros H [->|Hin] Hs; [|by apply IH].
  apply drop_prefix_Some in Hs. congruence.
Qed.

Lemma whiteSpaces_nonempty p : In p whiteSpaces -> (1 <= String.length p)%nat.
Proof.
  intros Hin.
  assert (forallb (fun p => (1 <=? String.length p)%nat) whiteSpaces = true) as H
    by reflexivity.
  rewrite forallb_forall in H. apply Nat.leb_le. by apply H.
Qed.

Lemma trimStartWithin_spec fuel s :
  (String.length s <= fuel)%nat ->
  drop_white (trimStartWithin fuel s) = None /\
  exists lead, white_run lead /\ s = lead +:+ trimStartWithin fuel s.
Proof.
  revert s. induction fuel as [|fuel IH]; intros s Hlen.
  - destruct s; [|simpl in Hlen; lia]. split; [reflexivity|].
    exists "". split; [constructor|done].
  - cbn [trimStartWithin]. destruct (drop_white s) as [r|] eqn:Hs.
    + destruct (drop_white_Some Hs) as (p & Hp & ->).
      pose proof (whiteSpaces_nonempty Hp). rewrite string_length_app in Hlen.
      destruct (IH r ltac:(lia)) as [Hnone (lead & Hlead & Hr)].
      split; [done|]. exists (p +:+ lead). split; [by constructor|].
      by rewrite string_app_assoc, <- Hr.
    + split; [done|]. exists "". split; [constructor|done].
Qed.

Lemma trimEnd_suffix s : exists trail, white_run trail /\ s = trimEnd s +:+ trail.
Proof.
  induction s as [|c s (trail & Htrail & IH)]; [exists ""; by split; [constructor|]|].
  cbn [trimEnd]. cbv zeta.
  destruct (existsb _ whiteSpaces) eqn:Hw.
  - apply existsb_exists in Hw as (p & Hp & Heq). apply String.eqb_eq in Heq.
    exists (p +:+ trail). split; [by constructor|].
    rewrite <- Heq, string_app_cons. by rewrite <- IH.
  - exists trail. split; [done|]. rewrite string_app_cons. by rewrite <- IH.
Qed.

Lemma trimEnd_no_white s p r : In p whiteSpaces -> trimEnd s <> r +:+ p.
Proof.
  intros Hp. revert r. induction s as [|c s IH]; intros r.
  - simpl. pose proof (whiteSpaces_nonempty Hp) as Hlen. intros Heq.
    apply (f_equal String.length) in Heq. rewrite string_length_app in Heq.
    simpl in Heq. lia.
  - cbn [trimEnd]. cbv zeta. destruct (existsb _ whiteSpaces) eqn:Hw.
    + pose proof (whiteSpaces_nonempty Hp) as Hlen. intros Heq.
      apply (f_equal String.length) in Heq. rewrite string_length_app in Heq.
      simpl in Heq. lia.
    + destruct r as [|c' r]; [change ("" +:+ p) with p|rewrite string_app_cons].
      * intros Heq. assert (existsb (String.eqb (String c (trimEnd s))) whiteSpaces = true) as Hex.
        { apply existsb_exists. exists p. split; [done|]. by apply String.eqb_eq. }
        congruence.
      * intros [= _ Heq]. by apply (IH r).
Qed.

(** X3: the memo shown in the [initiateSwap] dialog is the memo of the
    request without its carriage returns and line feeds and without the
    white space at its two ends, and nothing else is removed: it holds no
    carriage return or line feed, no white-space character of ECMAScript
    (U+00A0, U+FEFF, U+2028 and the space separators among them) stands at
    its start or at its end, and the memo without its line breaks is what
    is shown between two runs of white space.  An absent memo shows as the
    empty string. *)
Theorem strippedMemo_is_clean memo :
  let kept := strippedMemo memo in
  string_forall (fun c => negb (is_line_break c)) kept = true /\
  (forall p r, In p whiteSpaces -> kept <> p +:+ r) /\
  (forall p r, In p whiteSpaces -> kept <> r +:+ p) /\
  (forall m, memo = Some m ->
     exists lead trail,
       white_run lead /\ white_run trail /\
       string_filter (fun c => negb (is_line_break c)) m
       = lead +:+ kept +:+ trail).
Proof.
  destruct memo as [m|]; cbv zeta; cbn [strippedMemo].
  2: { split; [done|]. split_and!; [| |done].
       - intros p r Hp Heq. pose proof (whiteSpaces_nonempty Hp).
         apply (f_equal String.length) in Heq. rewrite string_length_app in Heq.
         simpl in Heq. lia.
       - intros p r Hp Heq. pose proof (whiteSpaces_nonempty Hp).
         apply (f_equal String.length) in Heq. rewrite string_length_app in Heq.
         simpl in Heq. lia. }
  set (s := string_filter _ m). unfold trim, trimStart.
  destruct (@trimStartWithin_spec (String.length s) s (le_n _))
    as [Hnone (lead & Hlead & Hs)].
  set (u := trimStartWithin (String.length s) s) in *.
  destruct (trimEnd_suffix u) as (trail & Htrail & Hu).
  split_and!.
  - assert (string_forall (fun c => negb (is_line_break c)) s = true) as Hall
      by apply string_forall_filter.
    rewrite Hs, Hu, !string_forall_app in Hall.
    by apply andb_prop in Hall as [_ [? _]%andb_prop].
  - intros p r Hp Heq. apply (@drop_white_None u p (r +:+ trail) Hnone Hp).
    by rewrite Hu at 1; rewrite Heq, string_app_assoc.
  - intros p r Hp. by apply trimEnd_no_white.
  - intros ? [= <-]. exists lead, trail. split_and!; [done..|].
    by rewrite <- Hu.
Qed.

(** *** The fee map *)

Lemma feeReducer_dom cut (acc : gmap string number) t :
  dom (feeReducer cut acc t) = {[feeKey t]} ∪ dom acc.
Proof.
  unfold feeReducer, plus_assign.
  destruct (negb (truthy_opt (acc !! assetType t))); rewrite !dom_insert_L;
    [|done].
  by rewrite (assoc_L (∪)), (idemp_L (∪)).
Qed.

Lemma feeReducer_fold_dom cut ts (acc : gmap string number) :
  dom (fold_left (feeReducer cut) ts acc)
  = list_to_set (feeKey <$> ts) ∪ dom acc.
Proof.
  revert acc. induction ts as [|t ts IH]; intros acc.
  - cbn [fold_left fmap list_fmap list_to_set]. by rewrite (left_id_L ∅ (∪)).
  - cbn [fold_left fmap list_fmap list_to_set].
    rewrite IH, feeReducer_dom. rewrite !(assoc_L (∪)).
    f_equal. apply (comm_L (∪)).
Qed.

Lemma feeReducer_other cut (acc : gmap string number) t k :
  k <> feeKey t -> feeReducer cut acc t !! k = acc !! k.
Proof.
  intros Hk. unfold feeReducer, plus_assign.
  destruct (negb (truthy_opt (acc !! assetType t)));
    by rewrite ?lookup_insert_ne.
Qed.

Lemma feeReducer_fold_other cut ts (acc : gmap string number) k :
  Forall (fun t => feeKey t <> k) ts ->
  fold_left (feeReducer cut) ts acc !! k = acc !! k.
Proof.
  revert acc. induction ts as [|t ts IH]; intros acc Hts; [done|].
  apply Forall_cons in Hts as [Ht Hts]. simpl.
  rewrite IH by done. by apply feeReducer_other.
Qed.

(** X4: the fee map of [initiateSwap] has an entry for exactly the assets of
    the request: 'HBAR' when some transfer is in HBAR, and the asset id of
    every other transfer; a request without swaps gives the empty map. *)
Theorem serviceFeesToPay_keys cut swaps :
  dom (serviceFeesToPayOf cut swaps)
  = list_to_set (feeKey <$> transfersOf swaps).
Proof.
  unfold serviceFeesToPayOf. rewrite feeReducer_fold_dom, dom_empty_L.
  apply (right_id_L ∅ (∪)).
Qed.

(** X5: for an asset other than HBAR the fee map holds, not a sum, but the
    fee of the last transfer of that asset (added to zero), provided no
    asset id is spelled like the asset type of such a transfer: the test
    [!acc[transfer.assetType]] then succeeds on each of them and resets the
    entry. *)
Theorem serviceFeesToPay_token_entry cut swaps before t after :
  transfersOf swaps = before ++ t :: after ->
  String.eqb (assetType t) "HBAR" = false ->
  Forall (fun t' => feeKey t' <> assetType t) before ->
  Forall (fun t' => feeKey t' <> feeKey t) after ->
  serviceFeesToPayOf cut swaps !! feeKey t
  = Some (add zero (serviceFeeOf cut t)).
Proof.
  intros Hts Htoken Hbefore Hafter. unfold serviceFeesToPayOf.
  rewrite Hts, fold_left_app. cbn [fold_left].
  rewrite feeReducer_fold_other by done.
  set (acc := fold_left (feeReducer cut) before ∅).
  assert (acc !! assetType t = None) as Hnone.
  { apply not_elem_of_dom. subst acc. rewrite feeReducer_fold_dom.
    rewrite dom_empty_L, elem_of_union, elem_of_list_to_set, list_elem_of_fmap.
    intros [(t' & Heq & Hin)|[]%elem_of_empty].
    rewrite Forall_forall in Hbefore. by apply (Hbefore t' Hin). }
  unfold feeReducer, plus_assign. rewrite Hnone. cbn [truthy_opt negb].
  by rewrite !lookup_insert_eq.
Qed.

Lemma feeReducer_hbar cut (acc : gmap string number) t :
  (String.eqb (assetType t) "HBAR" = false -> assetId t <> Some "HBAR") ->
  feeReducer cut acc t !! "HBAR"
  = if String.eqb (assetType t) "HBAR"
    then Some (add (if truthy_opt (acc !! "HBAR")
                    then default zero (acc !! "HBAR") else zero)
                 (serviceFeeOf cut t))
    else acc !! "HBAR".
Proof.
  intros Hid. destruct (String.eqb (assetType t) "HBAR") eqn:Hk.
  - unfold feeReducer, plus_assign, feeKey. rewrite Hk.
    apply String.eqb_eq in Hk. rewrite Hk.
    destruct (acc !! "HBAR") as [v|] eqn:Hv; cbn [truthy_opt default];
      [destruct (truthy v)|]; cbn [negb];
      by rewrite ?lookup_insert_eq, ?Hv, ?lookup_insert_eq.
  - apply feeReducer_other. unfold feeKey. rewrite Hk.
    destruct (assetId t) as [i|]; [|done]. intros Heq. apply Hid; [done|].
    cbn in Heq. by rewrite Heq.
Qed.

(** X6: the fees of the HBAR transfers, unlike those of a token, are added
    up under 'HBAR', in the order of the transfers and whatever transfers
    of tokens come in between; the sum starts again from zero whenever it
    stands at zero or [NaN].  (No token of the request has the asset id
    'HBAR'.) *)
Theorem serviceFeesToPay_hbar_entry cut swaps :
  Forall (fun t => String.eqb (assetType t) "HBAR" = false ->
                   assetId t <> Some "HBAR") (transfersOf swaps) ->
  serviceFeesToPayOf cut swaps !! "HBAR"
  = hbarFees cut (transfersOf swaps) None.
Proof.
  unfold serviceFeesToPayOf, hbarFees.
  rewrite <- (lookup_empty (M := gmap string) (A := number) "HBAR").
  generalize (∅ : gmap string number) as acc.
  induction (transfersOf swaps) as [|t ts IH]; intros acc Hts; [done|].
  apply Forall_cons in Hts as [Ht Hts]. cbn [fold_left].
  rewrite IH by done. f_equal. by apply feeReducer_hbar.
Qed.

(** *** More that the six operations have in common *)

Ltac orderly_leaf :=
  repeat match goal with
    | H : negb ?b = _ |- _ => destruct b; simpl in H; try discriminate H; clear H
    | x : () |- _ => destruct x
    end;
  split; simpl;
  [ repeat split; lia
  | intros ? ? ?; destruct_or?; simplify_eq; eauto 10
  | intros ? ? ? ?; simplify_eq; try done; decompose_Forall_hyps; simplify_eq;
    done
  | intros ? ?; destruct_or?; simplify_eq; eauto
  | intros ? ?; destruct_or?; simplify_eq; eauto
  | intros ? ? ? ?; destruct_or?; simplify_eq; eauto
  | intros [? ?]; simplify_eq; done
  | intros ? ? ? ? ?; destruct_or?; simplify_eq; eauto 12
  | intros ? ? ?; destruct_or?; simplify_eq;
    (split; [eexists; reflexivity|split; reflexivity])
  | intros ?; destruct_or?; simplify_eq; (split; [reflexivity|]);
    first [ left; split; [by eexists|]; split; reflexivity
          | right; split; [by intros ? ?|]; eexists; split; reflexivity ] ].

Lemma createTopic_orderly w p :
  wp (createTopic w p) (fun o evs => Orderly w (CreateTopic p) o (key_events evs)).
Proof.
  unfold createTopic, currentAccountState.
  destruct (accountState (state w) !! _) as [per|] eqn:Hper; [|orderly_leaf].
  destruct (per !! _) as [a|] eqn:Ha; [|orderly_leaf].
  assert (currentAccountOf (state w) = Some a) as Hacc
    by (unfold currentAccountOf; rewrite Hper; exact Ha).
  clear Hper Ha.
  wp_peel; orderly_leaf.
Qed.

Ltac with_account w a :=
  unfold currentAccountState;
  let per := fresh "per" in
  let Hper := fresh "Hper" in
  let Ha := fresh "Ha" in
  destruct (accountState (state w) !! _) as [per|] eqn:Hper; [|orderly_leaf];
  destruct (per !! _) as [a|] eqn:Ha; [|orderly_leaf];
  assert (currentAccountOf (state w) = Some a)
    by (unfold currentAccountOf; rewrite Hper; exact Ha);
  clear Hper Ha.

Lemma completeSwap_orderly w p :
  wp (completeSwap w p) (fun o evs => Orderly w (CompleteSwap p) o (key_events evs)).
Proof. unfold completeSwap. with_account w a. wp_peel; orderly_leaf. Qed.

Lemma updateTokenFeeSchedule_orderly w p :
  wp (updateTokenFeeSchedule w p)
    (fun o evs => Orderly w (UpdateTokenFeeSchedule p) o (key_events evs)).
Proof.
  unfold updateTokenFeeSchedule.
  destruct (customFees p) as [fees|] eqn:Hfees; [|wp_peel; orderly_leaf].
  with_account w a. wp_peel; orderly_leaf; rewrite Hfees; eauto 12.
Qed.

Lemma associateTokens_orderly w p :
  wp (associateTokens w p)
    (fun o evs => Orderly w (AssociateTokens p) o (key_events evs)).
Proof.
  unfold associateTokens. with_account w a.
  cbn [bind]. wp_after associateTokensLoop_wp.
  intros [panel|e] evs (Hl & _ & _); wp_peel; forget_lookups; orderly_leaf.
Qed.

Lemma stakeHbar_orderly w p :
  wp (stakeHbar w p) (fun o evs => Orderly w (StakeHbar p) o (key_events evs)).
Proof.
  unfold stakeHbar. with_account w a.
  cbn [bind]. wp_after stakeHbarPlan_wp.
  intros [plan|e] evs [Hl _]; wp_peel; forget_lookups; orderly_leaf.
Qed.

Lemma initiateSwap_orderly w p :
  wp (initiateSwap w p) (fun o evs => Orderly w (InitiateSwap p) o (key_events evs)).
Proof.
  unfold initiateSwap. with_account w a.
  wp_peel; try orderly_leaf.
  wp_after swapDialogLoop_wp.
  intros [r|e] evs [Hl _]; wp_peel; forget_lookups; orderly_leaf.
Qed.

Lemma facade_orderly env w op :
  let res := run env (facade w op) [] in
  Orderly w op res.1 (key_events res.2).
Proof.
  apply (wp_run (Q := fun o evs => Orderly w op o (key_events evs))).
  destruct op; simpl.
  - apply createTopic_orderly.
  - apply associateTokens_orderly.
  - apply stakeHbar_orderly.
  - apply updateTokenFeeSchedule_orderly.
  - apply initiateSwap_orderly.
  - apply completeSwap_orderly.
Qed.

Lemma clients_requested_key_events tr :
  clients_requested (key_events tr) = clients_requested tr.
Proof. apply omap_key_events. by intros []. Qed.

Lemma renderings_key_events tr : renderings (key_events tr) = renderings tr.
Proof. apply omap_key_events. by intros []. Qed.

Lemma receipts_shown_key_events tr :
  receipts_shown (key_events tr) = receipts_shown tr.
Proof. apply omap_key_events. by intros []. Qed.

Lemma facade_orderly_run env w op o tr :
  run env (facade w op) [] = (o, tr) -> Orderly w op o (key_events tr).
Proof. intros H. pose proof (facade_orderly env w op) as Ho. by rewrite H in Ho. Qed.

(** X7: no operation does anything twice: in every run there is at most one
    rendering of the panel, one confirmation dialog, one client built, one
    call to the command, one receipt shown and one state saved. *)
Theorem nothing_done_twice env w op :
  let tr := (run env (facade w op) []).2 in
  (length (panels_rendered tr) <= 1 /\ length (dialogs_shown tr) <= 1 /\
   length (clients_built tr) <= 1 /\ length (commands_run tr) <= 1 /\
   length (receipts_shown tr) <= 1 /\ length (states_saved tr) <= 1)%nat.
Proof.
  intros tr. destruct (facade_orderly env w op) as [H _ _ _ _ _ _ _ _ _].
  by rewrite panels_rendered_key_events, dialogs_shown_key_events,
    clients_built_key_events, commands_run_key_events,
    receipts_shown_key_events, states_saved_key_events in H.
Qed.

(** X8: the wallet state is handed to [SnapState.updateState] by [stakeHbar]
    only, and only after the command has answered with a receipt and the
    dialog showing that receipt has returned; the other five operations
    never save, and a [stakeHbar] that fails before that point saves
    nothing. *)
Theorem state_saved_only_after_success env w op o tr st reply :
  run env (facade w op) [] = (o, tr) ->
  In (st, reply) (states_saved tr) ->
  (exists p, op = StakeHbar p) /\
  exists c cl r,
    commands_run tr = [(c, execute, cl, Ok r)] /\
    receipts_shown tr = [(network (currentAccount (state w)), r, Ok tt)].
Proof.
  intros Hrun Hin. destruct (facade_orderly_run Hrun) as [_ H _ _ _ _ _ _ _ _].
  rewrite states_saved_key_events, commands_run_key_events,
    receipts_shown_key_events in H. by eapply H.
Qed.

(** X9: once an operation has rendered its panel, every failure reaches the
    caller as [transactionRejected] with the fixed message of the
    operation, whatever the collaborator threw (the error notification of
    the [catch] block being delivered). *)
Theorem failure_after_rendering_is_rejection env w op e tr :
  run env (facade w op) [] = (Thrown e, tr) ->
  panels_rendered tr <> [] ->
  Forall (fun r => r = Ok tt) (notification_replies tr) ->
  e = transactionRejected (error_message op).
Proof.
  intros Hrun Hp Hn. destruct (facade_orderly_run Hrun) as [_ _ H _ _ _ _ _ _ _].
  rewrite panels_rendered_key_events, notification_replies_key_events in H.
  by eapply H.
Qed.

(** X10: every confirmation dialog, of any operation, has type
    'confirmation' and shows what [generateCommonPanel] returned for the
    origin of the request and the network and mirror node of the current
    account. *)
Theorem dialog_shows_rendering env w op d :
  let tr := (run env (facade w op) []).2 in
  In d (dialogs_shown tr) ->
  dialogType d = "confirmation" /\
  exists panel,
    renderings tr
    = [(origin w, network (currentAccount (state w)),
        mirrorNodeUrl (currentAccount (state w)), panel, Ok (content d))].
Proof.
  intros tr Hin. destruct (facade_orderly env w op) as [_ _ _ H _ _ _ _ _ _].
  rewrite dialogs_shown_key_events, renderings_key_events in H. by apply H.
Qed.

(** X11: whenever an operation asks for a client, it does so with the account
    id and the network of the current account and with the curve and the
    private key stored for that account on that network. *)
Theorem client_built_for_current_account env w op x :
  let tr := (run env (facade w op) []).2 in
  In x (clients_requested tr) ->
  exists a,
    currentAccountOf (state w) = Some a /\
    x = (hederaAccountId (currentAccount (state w)),
         network (currentAccount (state w)),
         curve (keyStore a), privateKey (keyStore a)).
Proof.
  intros tr Hin. destruct (facade_orderly env w op) as [_ _ _ _ H _ _ _ _ _].
  rewrite clients_requested_key_events in H. by apply H.
Qed.

(** X12: the receipt handed to [snapCreateDialogAfterTransaction] is the one
    the command has just answered, shown for the network of the current
    account. *)
Theorem receipt_shown_is_command_answer env w op n r reply :
  let tr := (run env (facade w op) []).2 in
  In (n, r, reply) (receipts_shown tr) ->
  n = network (currentAccount (state w)) /\
  exists c cl, commands_run tr = [(c, delegate op, cl, Ok r)].
Proof.
  intros tr Hin. destruct (facade_orderly env w op) as [_ _ _ _ _ H _ _ _ _].
  rewrite receipts_shown_key_events, commands_run_key_events in H. by eapply H.
Qed.

(** X13: [createTopic], unlike the other operations, never shows the receipt
    in a dialog and never sends an error notification. *)
Theorem createTopic_is_silent env w p :
  let tr := (run env (createTopic w p) []).2 in
  receipts_shown tr = [] /\ notification_replies tr = [].
Proof.
  intros tr. destruct (facade_orderly env w (CreateTopic p)) as [_ _ _ _ _ _ H _ _ _].
  rewrite receipts_shown_key_events, notification_replies_key_events in H.
  apply H. by eexists.
Qed.

Lemma notifications_key_events tr :
  notifications (key_events tr) = notifications tr.
Proof. apply omap_key_events. by intros []. Qed.

(** C2, as amended: in every one of the six operations, a confirmation
    dialog that the user does not confirm ends the operation with an error
    and without any call to the command.  In [createTopic] the error is
    [transactionRejected] with the message of the operation.  In the other
    five the [catch] block first sends the notification that the user
    rejected the transaction: the error is [transactionRejected] with the
    message of the operation when that notification is delivered, and the
    error of the notification itself when it is not.  And in every run, a
    call to the command has a confirmed dialog before it. *)
Theorem unconfirmed_dialog_rejects env w op o tr :
  run env (facade w op) [] = (o, tr) ->
  (In (Ok false) (dialog_replies tr) ->
   commands_run tr = [] /\
   match op with
   | CreateTopic _ =>
       notifications tr = [] /\
       o = Thrown (transactionRejected (error_message op))
   | _ =>
       exists reply,
         notifications tr
         = [("Error occurred: " +:+ error_message op +:+ " - " +:+
             errorToString (transactionRejected "User rejected the transaction"),
             reply)] /\
         o = Thrown (match reply with
                     | Ok _ => transactionRejected (error_message op)
                     | Err e' => e'
                     end)
   end)
  /\
  (forall pre c m cl r post,
     tr = pre ++ EvCommand c m cl r :: post ->
     In (Ok true) (dialog_replies pre)).
Proof.
  intros Hrun. split.
  - intros Hin. destruct (facade_orderly_run Hrun) as [_ _ _ _ _ _ _ _ _ H].
    rewrite dialog_replies_key_events, commands_run_key_events,
      notifications_key_events in H.
    destruct (H Hin) as [Hnone [([p Hp] & Hn & Ho)|(Hne & reply & Hn & Ho)]].
    + subst op. by split.
    + split; [done|]. destruct op as [p|p|p|p|p|p];
        [by destruct (Hne p)|by exists reply..].
  - pose proof (facade_behaves env w op) as H.
    rewrite Hrun in H. cbn [fst snd] in H. destruct H as [_ _ _ Hguard].
    rewrite confirmed_before_commands_key_events in Hguard.
    intros pre c m cl r post Htr.
    destruct (confirmed_before_commands_sound Hguard Htr) as [?|?];
      [done|assumption].
Qed.

(** X15: an error notification tells the error that was caught, under the
    fixed message of the operation; it is the only one of the run, and the
    run ends with it: in [transactionRejected] with that message when the
    notification was delivered, and in the notification's own error, not
    wrapped, when it was not. *)
Theorem notification_ends_the_run env w op o tr msg reply :
  run env (facade w op) [] = (o, tr) ->
  In (msg, reply) (notifications tr) ->
  (exists e, msg = "Error occurred: " +:+ error_message op +:+ " - "
                   +:+ errorToString e) /\
  notifications tr = [(msg, reply)] /\
  o = Thrown (match reply with
              | Ok _ => transactionRejected (error_message op)
              | Err e' => e'
              end).
Proof.
  intros Hrun Hin. destruct (facade_orderly_run Hrun) as [_ _ _ _ _ _ _ _ H _].
  rewrite notifications_key_events in H. by apply H.
Qed.

(** X16: a [createTopic] that finds the current account in the state either
    returns or throws [transactionRejected] with its fixed message; nothing
    else escapes, whatever the collaborators do. *)
Theorem createTopic_outcome env w p a :
  currentAccountOf (state w) = Some a ->
  let o := (run env (createTopic w p) []).1 in
  (exists r, o = Returned r) \/
  o = Thrown (transactionRejected "Error while trying to create a topic").
Proof.
  intros Hacc o. subst o.
  apply (wp_run (Q := fun o _ =>
    (exists r, o = Returned r) \/
    o = Thrown (transactionRejected "Error while trying to create a topic"))).
  unfold createTopic, currentAccountState. unfold currentAccountOf in Hacc.
  destruct (accountState (state w) !! _) as [per|]; [|done].
  cbn [mbind option_bind] in Hacc. rewrite Hacc.
  wp_peel; eauto.
Qed.

(** *** Failures outside the [try] block *)

Lemma wp_trivial {R : Type} (p : prog R) : wp p (fun _ _ => True).
Proof. induction p as [r|e|m k IH|X c k IH]; simpl; auto. Qed.

Lemma wp_and {R : Type} (p : prog R) (Q Q' : outcome R -> list event -> Prop) :
  wp p Q -> wp p Q' -> wp p (fun o evs => Q o evs /\ Q' o evs).
Proof.
  revert Q Q'. induction p as [r|e|m k IH|X c k IH]; intros Q Q' H H'; simpl in *.
  - done.
  - done.
  - by apply (IH (fun o evs => Q o (EvConsoleError m :: evs))
                 (fun o evs => Q' o (EvConsoleError m :: evs))).
  - intros r. by apply (IH r (fun o evs => Q o (event_of c r :: evs))
                            (fun o evs => Q' o (event_of c r :: evs))).
Qed.

(** X17: every operation reads the key store of the current account before
    anything else: when the state holds no entry for the current account on
    the current network the operation throws a [TypeError], not wrapped,
    and has called nothing and logged nothing.  ([updateTokenFeeSchedule]
    checks its fee schedule first.) *)
Theorem missing_account_state_throws env w op :
  currentAccountOf (state w) = None ->
  (forall p, op = UpdateTokenFeeSchedule p -> customFees p <> None) ->
  exists msg, run env (facade w op) [] = (Thrown (TypeError msg), []).
Proof.
  unfold currentAccountOf. intros Hacc Hfees.
  assert (currentAccountState (state w)
          = Throw (TypeError "Cannot read properties of undefined")) as Hcur.
  { unfold currentAccountState.
    destruct (accountState (state w) !! _) as [per|]; [|done].
    cbn [mbind option_bind] in Hacc. by rewrite Hacc. }
  destruct op as [p|p|p|p|p|p]; cbn [facade];
    unfold createTopic, associateTokens, stakeHbar, updateTokenFeeSchedule,
      initiateSwap, completeSwap;
    try (rewrite Hcur; by eexists).
  destruct (customFees p) as [fees|] eqn:Hp; [rewrite Hcur; by eexists|].
  by destruct (Hfees p eq_refl).
Qed.

(** X18: [initiateSwap] and [completeSwap] build the client before the [try]
    block: when the factory answers [null] or fails, the run ends there
    with [resourceUnavailable] 'hedera client returned null' or with the
    error of the factory, neither wrapped into a rejection nor notified;
    the factory call is the only event of the run. *)
Theorem swap_client_failure_escapes env w op o tr r :
  (exists p, op = InitiateSwap p) \/ (exists p, op = CompleteSwap p) ->
  run env (facade w op) [] = (o, tr) ->
  clients_built tr = [r] ->
  (forall built, r <> Ok (Some built)) ->
  length tr = 1%nat /\
  o = Thrown (match r with
              | Err e => e
              | Ok _ => resourceUnavailable "hedera client returned null"
              end).
Proof.
  intros Hop Hrun.
  pose proof (wp_run (p := facade w op) (Q := fun o tr =>
    forall r, clients_built tr = [r] -> (forall built, r <> Ok (Some built)) ->
      length tr = 1%nat /\
      o = Thrown (match r with
                  | Err e => e
                  | Ok _ => resourceUnavailable "hedera client returned null"
                  end)) env []) as H.
  rewrite Hrun in H. apply H. clear H Hrun.
  assert (forall (k : HederaClient -> prog TxRecord) a,
    wp (hederaClient <- buildClient w a ;; k hederaClient)%prog
      (fun o tr =>
         forall r, clients_built tr = [r] -> (forall built, r <> Ok (Some built)) ->
           length tr = 1%nat /\
           o = Thrown (match r with
                       | Err e => e
                       | Ok _ => resourceUnavailable "hedera client returned null"
                       end))) as Hbuild.
  { intros k a. cbn [buildClient bind await wp]. intros [[built|]|e]; cbn [bind wp].
    - eapply wp_mono; [apply wp_trivial|]. intros o' evs _ r' Hr' Hne.
      cbn in Hr'. simplify_eq. by destruct (Hne built).
    - intros r' Hr' _. cbn in Hr'. by simplify_eq.
    - intros r' Hr' _. cbn in Hr'. by simplify_eq. }
  destruct Hop as [[p ->]|[p ->]]; cbn [facade];
    unfold initiateSwap, completeSwap, currentAccountState;
    (destruct (accountState (state w) !! _) as [per|]; [|by intros ? [=]]);
    (destruct (per !! _) as [a|]; [|by intros ? [=]]);
    cbn [bind]; apply Hbuild.
Qed.

(** X19: the [decimals] handed to the command of [updateTokenFeeSchedule] is
    [Number(decimals)] of what the one token lookup answered, made for the
    token of the request: [NaN] when the mirror node knew nothing of the
    token. *)
Theorem updateTokenFeeSchedule_decimals env w p c m cl r :
  let tr := (run env (updateTokenFeeSchedule w p) []).2 in
  In (c, m, cl, r) (commands_run tr) ->
  exists info key,
    token_lookups tr = [(tokenId p, Ok info)] /\
    c = UpdateTokenFeeScheduleCommand (tokenId p) key (mirrorDecimals info)
          (default [] (customFees p)).
Proof.
  intros tr. subst tr. revert c m cl r.
  apply (wp_run (Q := fun _ tr => forall c m cl r,
    In (c, m, cl, r) (commands_run tr) ->
    exists info key,
      token_lookups tr = [(tokenId p, Ok info)] /\
      c = UpdateTokenFeeScheduleCommand (tokenId p) key (mirrorDecimals info)
            (default [] (customFees p)))).
  unfold updateTokenFeeSchedule, currentAccountState.
  destruct (customFees p) as [fees|]; [|by intros ? ? ? ? []].
  destruct (accountState (state w) !! _) as [per|]; [|by intros ? ? ? ? []].
  destruct (per !! _) as [a|]; [|by intros ? ? ? ? []].
  wp_peel; intros c m cl r Hin; simpl in Hin; destruct_or?; simplify_eq;
    by eexists _, _.
Qed.

(** X20: [updateTokenFeeSchedule] looks the token up before the [try] block:
    when that lookup fails, its error is thrown as it is, and the lookup is
    the only event of the run: no panel, no dialog, no notification. *)
Theorem updateTokenFeeSchedule_lookup_failure env w p o tr e :
  run env (updateTokenFeeSchedule w p) [] = (o, tr) ->
  In e (lookup_failures tr) ->
  o = Thrown e /\
  tr = [EvGetTokenById (tokenId p) (mirrorNodeUrl (currentAccount (state w)))
          (Err e)].
Proof.
  intros Hrun.
  pose proof (wp_run (p := updateTokenFeeSchedule w p) (Q := fun o tr =>
    In e (lookup_failures tr) ->
    o = Thrown e /\
    tr = [EvGetTokenById (tokenId p) (mirrorNodeUrl (currentAccount (state w)))
            (Err e)]) env []) as H.
  rewrite Hrun in H. apply H. clear H Hrun.
  unfold updateTokenFeeSchedule, currentAccountState.
  destruct (customFees p) as [fees|]; [|by intros []].
  destruct (accountState (state w) !! _) as [per|]; [|by intros []].
  destruct (per !! _) as [a|]; [|by intros []].
  wp_peel; intros Hin; simpl in Hin; destruct_or?; simplify_eq; done.
Qed.

(** *** What [stakeHbar] refuses, and what it leaves alone *)

(** X21: asked to stake to a node and to an account at once, [stakeHbar]
    looks nothing up, shows nothing and builds no client: it logs one line
    and sends the notification that staking to both is not possible. *)
Theorem stakeHbar_refuses_node_and_account env w p a n acc :
  currentAccountOf (state w) = Some a ->
  nodeId p = Some n -> accountId p = Some acc ->
  exists line reply,
    (run env (stakeHbar w p) []).2
    = [EvConsoleError line;
       EvNotification
         ("Error occurred: Error while trying to stake Hbar - " +:+
          errorToString
            (methodNotSupported "Cannot stake to both a node and an account"))
         reply].
Proof.
  intros Hacc Hn Ha.
  apply (wp_run (Q := fun _ tr => exists line reply,
    tr = [EvConsoleError line;
          EvNotification
            ("Error occurred: Error while trying to stake Hbar - " +:+
             errorToString
               (methodNotSupported "Cannot stake to both a node and an account"))
            reply])).
  unfold stakeHbar, currentAccountState. unfold currentAccountOf in Hacc.
  destruct (accountState (state w) !! _) as [per|]; [|done].
  cbn [mbind option_bind] in Hacc. rewrite Hacc.
  unfold stakeHbarPlan. rewrite Hn, Ha. wp_peel; by eexists _, _.
Qed.

(** X22: when the mirror node knows no node of the id asked for,
    [stakeHbar] stops at once: after the lookup it logs one line and sends
    the notification that the node does not exist; no panel, no dialog, no
    client. *)
Theorem stakeHbar_unknown_node env w p o tr u n :
  run env (stakeHbar w p) [] = (o, tr) ->
  In (u, n, Ok []) (node_lookups tr) ->
  exists line reply,
    tr = [EvGetNodeStakingInfo u n (Ok []);
          EvConsoleError line;
          EvNotification
            ("Error occurred: Error while trying to stake Hbar - " +:+
             errorToString
               (methodNotSupported
                  ("Node ID " +:+ numberToString n +:+ " does not exist")))
            reply].
Proof.
  intros Hrun.
  pose proof (wp_run (p := stakeHbar w p) (Q := fun _ tr =>
    In (u, n, Ok []) (node_lookups tr) ->
    exists line reply,
      tr = [EvGetNodeStakingInfo u n (Ok []);
            EvConsoleError line;
            EvNotification
              ("Error occurred: Error while trying to stake Hbar - " +:+
               errorToString
                 (methodNotSupported
                    ("Node ID " +:+ numberToString n +:+ " does not exist")))
              reply]) env []) as H.
  rewrite Hrun in H. apply H. clear H Hrun.
  unfold stakeHbar, currentAccountState.
  destruct (accountState (state w) !! _) as [per|]; [|by intros []].
  destruct (per !! _) as [a|]; [|by intros []].
  unfold stakeHbarPlan.
  destruct (nodeId p) as [n'|], (accountId p) as [[|c acc]|];
    wp_peel; intros Hin; simpl in Hin; destruct_or?; simplify_eq;
    by eexists _, _.
Qed.

Lemma withStakingInfo_other st si addr net :
  (addr, net) <> (hederaEvmAddress (currentAccount st),
                  network (currentAccount st)) ->
  accountState (withStakingInfo st si) !! addr ≫= (.!! net)
  = accountState st !! addr ≫= (.!! net).
Proof.
  intros Hne. unfold withStakingInfo. cbn [accountState].
  destruct (decide (addr = hederaEvmAddress (currentAccount st))) as [->|Haddr].
  - rewrite lookup_alter_eq.
    destruct (accountState st !! _) as [per|]; [|done].
    cbn [fmap option_fmap option_map mbind option_bind].
    apply lookup_alter_ne. congruence.
  - by rewrite lookup_alter_ne.
Qed.

Lemma withStakingInfo_current st si a :
  currentAccountOf st = Some a ->
  currentAccountOf (withStakingInfo st si)
  = Some {| keyStore := keyStore a; accountInfo := {| stakingInfo := si |} |}.
Proof.
  unfold currentAccountOf, withStakingInfo. cbn [accountState currentAccount].
  intros Ha. rewrite lookup_alter_eq.
  destruct (accountState st !! _) as [per|]; [|done].
  cbn [fmap option_fmap option_map mbind option_bind] in *.
  by rewrite lookup_alter_eq, Ha.
Qed.

(** X23: the state [stakeHbar] saves differs from the state it was given in
    the staking info of the current account on the current network only:
    the current account, the entries of all other accounts and networks
    and the key store are as before; so is [stakedNodeId] when no node id
    was given, and [stakedAccountId] when no account id (or an empty one)
    was given. *)
Theorem stakeHbar_keeps_the_rest env w p a st' reply :
  currentAccountOf (state w) = Some a ->
  In (st', reply) (states_saved (run env (stakeHbar w p) []).2) ->
  currentAccount st' = currentAccount (state w) /\
  (forall addr net,
     (addr, net) <> (hederaEvmAddress (currentAccount (state w)),
                     network (currentAccount (state w))) ->
     accountState st' !! addr ≫= (.!! net)
     = accountState (state w) !! addr ≫= (.!! net)) /\
  exists a',
    currentAccountOf st' = Some a' /\ keyStore a' = keyStore a /\
    (nodeId p = None ->
       stakedNodeId (stakingInfo (accountInfo a'))
       = stakedNodeId (stakingInfo (accountInfo a))) /\
    (isEmpty (accountId p) = true ->
       stakedAccountId (stakingInfo (accountInfo a'))
       = stakedAccountId (stakingInfo (accountInfo a))).
Proof.
  intros Hacc Hin.
  assert (exists si,
    st' = withStakingInfo (state w) si /\
    (nodeId p = None ->
       stakedNodeId si = stakedNodeId (stakingInfo (accountInfo a))) /\
    (isEmpty (accountId p) = true ->
       stakedAccountId si = stakedAccountId (stakingInfo (accountInfo a))))
    as (si & -> & Hnode & Haccount).
  { revert Hin. rewrite <- states_saved_key_events.
    apply (wp_run (Q := fun _ tr =>
      In (st', reply) (states_saved (key_events tr)) ->
      exists si,
        st' = withStakingInfo (state w) si /\
        (nodeId p = None ->
           stakedNodeId si = stakedNodeId (stakingInfo (accountInfo a))) /\
        (isEmpty (accountId p) = true ->
           stakedAccountId si = stakedAccountId (stakingInfo (accountInfo a))))).
    unfold stakeHbar, currentAccountState. unfold currentAccountOf in Hacc.
    destruct (accountState (state w) !! _) as [per|]; [|done].
    cbn [mbind option_bind] in Hacc. rewrite Hacc.
    cbn [bind]. wp_after stakeHbarPlan_wp.
    intros [plan|e] evs [Hl Hplan]; wp_peel; forget_lookups;
      intros Hin; simpl in Hin; destruct_or?; simplify_eq;
      destruct (Hplan _ eq_refl) as (_ & ? & _ & ? & _); eauto. }
  split; [done|]. split; [intros addr net; apply withStakingInfo_other|].
  eexists. split; [by apply withStakingInfo_current|]. by split_and!.
Qed.

(** *** A token lookup that fails in [associateTokens] *)

Lemma associateTokensLoop_stops all url rest panel :
  wp (associateTokensLoop all url rest panel)
    (fun o evs =>
       forall id e, In (id, Err e) (token_lookups evs) ->
         o = Thrown e /\
         exists infos,
           token_lookups evs = zip rest (Ok <$> infos) ++ [(id, Err e)] /\
           rest !! length infos = Some id).
Proof.
  revert panel. induction rest as [|tokenId rest IH]; intros panel.
  - by intros ? ? [].
  - cbn [associateTokensLoop]. wp_peel.
    + eapply wp_mono; [apply IH|]. intros o evs H id e Hin.
      simpl in Hin. destruct Hin as [[=]|Hin].
      destruct (H _ _ Hin) as [-> (infos & Hl & Hid)]. split; [done|].
      exists (Some m :: infos). simpl. by rewrite Hl.
    + eapply wp_mono; [apply IH|]. intros o evs H id e Hin.
      simpl in Hin. destruct Hin as [[=]|Hin].
      destruct (H _ _ Hin) as [-> (infos & Hl & Hid)]. split; [done|].
      exists (None :: infos). simpl. by rewrite Hl.
    + intros id e' Hin. simpl in Hin. destruct_or?; simplify_eq.
      split; [done|]. by exists [].
Qed.

(** X24: [associateTokens] stops at the first token lookup that fails: the
    lookups made are those of the tokens before it, in the order of the
    request and all answered, and then the failing one; apart from lookups
    and log lines the only event of the run is the notification of that
    error: no panel, no dialog, no client. *)
Theorem associateTokens_lookup_failure env w p o tr id e :
  run env (associateTokens w p) [] = (o, tr) ->
  In (id, Err e) (token_lookups tr) ->
  let ids := default [] (tokenIds p) in
  (exists infos,
     token_lookups tr = zip ids (Ok <$> infos) ++ [(id, Err e)] /\
     ids !! length infos = Some id) /\
  exists reply,
    key_events tr
    = [EvNotification
         ("Error occurred: Error while trying to associate tokens to the account - "
          +:+ errorToString e) reply].
Proof.
  intros Hrun Hin ids. revert Hin.
  pose proof (wp_run (p := associateTokens w p) (Q := fun _ tr =>
    In (id, Err e) (token_lookups tr) ->
    (exists infos,
       token_lookups tr = zip ids (Ok <$> infos) ++ [(id, Err e)] /\
       ids !! length infos = Some id) /\
    exists reply,
      key_events tr
      = [EvNotification
           ("Error occurred: Error while trying to associate tokens to the account - "
            +:+ errorToString e) reply]) env []) as H.
  rewrite Hrun in H. apply H. clear H Hrun.
  unfold associateTokens, currentAccountState. fold ids.
  destruct (accountState (state w) !! _) as [per|]; [|by intros []].
  destruct (per !! _) as [a|]; [|by intros []].
  cbn [bind]. apply wp_try_catch, wp_bind.
  eapply wp_mono;
    [apply (wp_and (associateTokensLoop_wp ids _ ids _)
                   (associateTokensLoop_stops ids _ ids _))|].
  cbv beta.
  intros [panel|e0] evs [(Hl & _ & _) Hstop]; wp_peel; forget_lookups;
    unfold token_lookups in *; rewrite ?omap_app; cbn [omap list_omap];
    rewrite ?app_nil_r; intros Hin;
    destruct (Hstop _ _ Hin) as [? Hinfos]; simplify_eq;
    (split; [exact Hinfos|by eexists]).
Qed.

(** *** What [createTxDialog] checks *)

Lemma lookup_failures_app (a b : list event) :
  lookup_failures (a ++ b) = lookup_failures a ++ lookup_failures b.
Proof. apply omap_app. Qed.

Lemma createTxDialog_checked sender t url panel fees isRequester :
  wp (createTxDialog sender t url panel fees isRequester)
    (fun o evs =>
       (forall r, o = Returned r ->
          isEmpty (from t) = true /\ decimals_known r.1 /\
          (String.eqb (assetType t) "HBAR" = true -> r.1 = t)) /\
       (forall e, o = Thrown e ->
          In e (lookup_failures evs) \/
          (isEmpty (from t) = false /\
           e = methodNotSupported
                 "Atomic Swaps cannot be done with delegated transfers at this time") \/
          (String.eqb (assetType t) "HBAR" = false /\
           e = invalidParams "decimals is not a finite number") \/
          (String.eqb (assetType t) "NFT" = true /\ assetId t = None /\
           exists msg, e = TypeError msg))).
Proof.
  unfold createTxDialog.
  wp_peel;
    repeat match goal with
      | H : negb _ = false |- _ => apply (proj1 (negb_false_iff _)) in H
      | H : negb _ = true |- _ => apply (proj1 (negb_true_iff _)) in H
      end;
    (split; [intros r ?|intros e' ?]); simplify_eq; cbn [fst snd];
    try (split; [done|split; [|congruence]]);
    try (unfold decimals_known; cbn [assetType decimals setDecimals] in *;
         first [ congruence
               | intros _;
                 match goal with
                 | H : match ?d with Some _ => _ | None => _ end = true |- _ =>
                     destruct d eqn:?; [|discriminate H]; by eexists
                 end
               | intros _; by eexists ]);
    cbn [assetType assetId setDecimals] in *;
    first
      [ left; cbn; left; reflexivity
      | right; left; by split
      | right; right; left; by split
      | right; right; right; split_and!; [done|done|by eexists] ].
Qed.

(** X25: [createTxDialog] fails in four ways only: a lookup at the mirror
    node failed and its error is thrown; the transfer names a [from]
    account; the transfer is of a token whose [decimals], as the mirror node
    or else the owner's balance gives it, is not a finite number; or the
    transfer is an NFT without an asset id.  In particular a balance that
    does not cover the amount is no failure.  (The mirror node answers with
    values of the declared types, and [SnapUtils.formatFeeDisplay]
    returns.) *)
Theorem createTxDialog_failures env past sender t url panel fees isRequester e tr :
  run env (createTxDialog sender t url panel fees isRequester) past = (Thrown e, tr) ->
  In e (lookup_failures tr) \/
  (isEmpty (from t) = false /\
   e = methodNotSupported
         "Atomic Swaps cannot be done with delegated transfers at this time") \/
  (String.eqb (assetType t) "HBAR" = false /\
   e = invalidParams "decimals is not a finite number") \/
  (String.eqb (assetType t) "NFT" = true /\ assetId t = None /\
   exists msg, e = TypeError msg).
Proof.
  intros Hrun.
  pose proof (wp_run env past (createTxDialog_checked sender t url panel fees
                                 isRequester)) as [_ H].
  rewrite Hrun in H. by apply H.
Qed.

(** X26: for a transfer of HBAR that names no [from] account,
    [createTxDialog] returns the transfer as it was given, whatever the
    balance of the sender, as soon as the lookup of the sender's account
    answers. *)
Theorem createTxDialog_hbar_goes_through env past sender t url panel fees isRequester :
  assetType t = "HBAR" -> isEmpty (from t) = true ->
  let res := run env (createTxDialog sender t url panel fees isRequester) past in
  lookup_failures res.2 = [] ->
  exists panel', res.1 = Returned (t, panel').
Proof.
  intros Hbar Hfrom res Hok.
  pose proof (wp_run env past (createTxDialog_checked sender t url panel fees
                                 isRequester)) as [Hret Hthrow].
  fold res in Hret, Hthrow. destruct res.1 as [[t' panel']|e].
  - destruct (Hret _ eq_refl) as (_ & _ & Heq).
    exists panel'. cbn [fst] in Heq. rewrite Heq; [done|]. by rewrite Hbar.
  - destruct (Hthrow _ eq_refl) as [Hin|[[? _]|[[Hk _]|[Hk _]]]].
    + by rewrite Hok in Hin.
    + congruence.
    + by rewrite Hbar in Hk.
    + by rewrite Hbar in Hk.
Qed.

(** X2: for an NFT whose asset id is a token id, a slash and a serial
    number, with or without more after a second slash, [createTxDialog]
    asks the mirror node about the token id alone, and that once; when it
    returns, the panel holds the token id as the asset id and the serial
    number as 'NFT Serial Number'.  What follows a second slash is
    dropped. *)
Theorem createTxDialog_nft_id env past sender t url panel fees isRequester
    token serial tail o tr :
  assetType t = "NFT" ->
  string_forall (fun c => negb (Ascii.eqb c "/")) token = true ->
  string_forall (fun c => negb (Ascii.eqb c "/")) serial = true ->
  tail = "" \/ (exists more, tail = "/" +:+ more) ->
  assetId t = Some (token +:+ "/" +:+ serial +:+ tail) ->
  run env (createTxDialog sender t url panel fees isRequester) past = (o, tr) ->
  Forall (fun x => x.1 = token) (token_lookups tr) /\
  forall r, o = Returned r ->
    (exists reply, token_lookups tr = [(token, Ok reply)]) /\
    In (copyable token) r.2 /\
    In (text ("NFT Serial Number: " +:+ serial)) r.2.
Proof.
  intros Htype Htoken Hserial Htail Hid Hrun.
  assert (exists rest,
    split_slash (token +:+ "/" +:+ serial +:+ tail) = token :: serial :: rest)
    as [rest Hparts].
  { rewrite split_slash_app by done. destruct Htail as [->|[more ->]].
    - exists []. rewrite string_app_nil_r. by rewrite split_slash_plain.
    - eexists. by rewrite split_slash_app. }
  pose proof (wp_run (p := createTxDialog sender t url panel fees isRequester)
    (Q := fun o tr =>
      Forall (fun x => x.1 = token) (token_lookups tr) /\
      forall r, o = Returned r ->
        (exists reply, token_lookups tr = [(token, Ok reply)]) /\
        In (copyable token) r.2 /\
        In (text ("NFT Serial Number: " +:+ serial)) r.2) env past) as H.
  rewrite Hrun in H. apply H. clear H Hrun.
  unfold createTxDialog. cbn [assetType assetId setDecimals].
  rewrite Htype, Hid.
  change (String.eqb "NFT" "HBAR") with false.
  change (String.eqb "NFT" "NFT") with true.
  cbn [as_string default]. rewrite Hparts. cbn [lookup list_lookup].
  wp_peel;
    (split; [cbn; repeat constructor|intros r ?; simplify_eq; cbn [fst snd]]);
    (split; [by eexists|]);
    rewrite !in_app_iff; simpl; tauto.
Qed.

Lemma swapDialogLoop_checked wallet url fees n swaps panel :
  wp (swapDialogLoop wallet url fees n swaps panel)
    (fun o evs =>
       forall r, o = Returned r ->
         Forall (fun s => delegated s = false) swaps /\
         Forall decimals_known (transfersOf r.1)).
Proof.
  revert n panel. induction swaps as [|swap swaps IH]; intros n panel.
  - simpl. intros r [= <-]. split; constructor.
  - cbn [swapDialogLoop]. apply wp_bind.
    eapply wp_mono; [apply createTxDialog_checked|]. cbv beta.
    intros [r1|e] evs1 [H1 _]; [|done].
    destruct (H1 _ eq_refl) as (Hfrom1 & Hd1 & _).
    apply wp_bind. eapply wp_mono; [apply createTxDialog_checked|]. cbv beta.
    intros [r2|e] evs2 [H2 _]; [|done].
    destruct (H2 _ eq_refl) as (Hfrom2 & Hd2 & _).
    apply wp_bind. eapply wp_mono; [apply IH|]. cbv beta.
    intros [r3|e] evs3 H3; cbn [wp]; [|done].
    intros r [= <-]. destruct (H3 _ eq_refl) as [Hrest Hd3].
    cbn [fst snd transfersOf flat_map app]. split.
    + constructor; [|done]. unfold delegated.
      cbn [from setTo] in Hfrom2. by rewrite Hfrom1, Hfrom2.
    + by repeat constructor.
Qed.

Lemma delegated_deductFees cut swaps :
  Forall (fun s => delegated s = false) (deductFees cut swaps) ->
  Forall (fun s => delegated s = false) swaps.
Proof.
  unfold deductFees. rewrite Forall_fmap. intros H.
  eapply Forall_impl; [exact H|]. by intros s.
Qed.

Lemma initiateSwap_checked w p :
  wp (initiateSwap w p)
    (fun _ tr =>
       (Exists (fun s => delegated s = true) (default [] (atomicSwaps p)) ->
        panels_rendered (key_events tr) = [] /\
        dialogs_shown (key_events tr) = [] /\
        commands_run (key_events tr) = []) /\
       (forall swaps' memo maxFee fees addr m cl r,
          In (AtomicSwapCommand swaps' memo maxFee fees addr, m, cl, r)
            (commands_run (key_events tr)) ->
          Forall decimals_known (transfersOf swaps'))).
Proof.
  unfold initiateSwap, currentAccountState.
  destruct (accountState (state w) !! _) as [per|]; [|by split; [|intros; simpl in *]].
  destruct (per !! _) as [a|]; [|by split; [|intros; simpl in *]].
  wp_peel; try (by split; [|intros; simpl in *]).
  apply wp_try_catch, wp_bind.
  eapply wp_mono;
    [apply (wp_and (swapDialogLoop_wp _ _ _ _ _ _)
                   (swapDialogLoop_checked _ _ _ _ _ _))|].
  cbv beta.
  intros [r|e] evs [[Hl _] Hc]; wp_peel; forget_lookups;
    (split;
     [ intros Hex; try done;
       destruct (Hc _ eq_refl) as [Hall _];
       apply delegated_deductFees in Hall;
       apply Exists_exists in Hex as (s & Hs & Hd);
       rewrite Forall_forall in Hall; specialize (Hall s Hs); congruence
     | intros; simpl in *; destruct_or?; simplify_eq; try done;
       by destruct (Hc _ eq_refl) ]).
Qed.

(** X27: [initiateSwap] refuses a request in which some transfer names a
    [from] account: nothing is rendered, no dialog is shown and no command
    is called. *)
Theorem initiateSwap_refuses_delegated env w p :
  Exists (fun s => delegated s = true) (default [] (atomicSwaps p)) ->
  let tr := (run env (initiateSwap w p) []).2 in
  panels_rendered tr = [] /\ dialogs_shown tr = [] /\ commands_run tr = [].
Proof.
  intros Hex tr.
  rewrite <- panels_rendered_key_events, <- dialogs_shown_key_events,
    <- commands_run_key_events.
  by apply (wp_run env [] (initiateSwap_checked w p)).
Qed.

(** X28: every transfer of a token that [initiateSwap] hands to the command
    carries a finite [decimals], filled in by [createTxDialog], whether the
    request gave one or not. *)
Theorem initiateSwap_decimals_known env w p swaps' memo maxFee fees addr m cl r :
  In (AtomicSwapCommand swaps' memo maxFee fees addr, m, cl, r)
    (commands_run (run env (initiateSwap w p) []).2) ->
  Forall decimals_known (transfersOf swaps').
Proof.
  rewrite <- commands_run_key_events.
  apply (wp_run env [] (initiateSwap_checked w p)).
Qed.

(** *** The command, in full *)

Lemma createTxDialog_hands_over sender t url panel fees isRequester :
  wp (createTxDialog sender t url panel fees isRequester)
    (fun o evs => forall r, o = Returned r -> handed_over evs sender t r.1).
Proof.
  unfold createTxDialog.
  wp_peel; intros r ?; simplify_eq; cbn [fst snd]; unfold handed_over;
    cbn [assetType assetId setDecimals decimals] in *;
    repeat match goal with
      | H : String.eqb (assetType t) "HBAR" = _ |- _ => rewrite H; clear H
      | H : negb _ = false |- _ => apply (proj1 (negb_false_iff _)) in H
      end; try done;
    unfold decimals_found, lookupId;
    repeat match goal with
      | H : String.eqb (assetType t) "NFT" = _ |- _ => rewrite H; clear H
      end;
    try match goal with
      | H : isFinite (match ?o with _ => _ end) = true |- _ =>
          destruct o as [b|] eqn:Howned; rewrite ?Howned in H;
          [|discriminate H]
      end;
    (eexists; split; [reflexivity|]; split; [eassumption|]);
    repeat match goal with
      | H : assetId t = Some _ |- _ => rewrite H in *; clear H
      end;
    cbn [as_string default] in *;
    first [ left; do 2 eexists; split; [|reflexivity]; cbn [In]; tauto
          | right; do 3 eexists; split_and!; [| |eassumption|reflexivity];
            cbn [In]; tauto ].
Qed.

Lemma handed_over_mono tr tr' sender t t' :
  (forall e, In e tr -> In e tr') ->
  handed_over tr sender t t' -> handed_over tr' sender t t'.
Proof.
  intros Hsub. unfold handed_over.
  destruct (String.eqb (assetType t) "HBAR"); [done|].
  intros (d & ? & ? & Hd). exists d. split_and!; [done..|].
  destruct Hd as [(u & info & ? & ?)|(u & owner & b & ? & ? & ? & ?)];
    [left|right]; eauto 10.
Qed.

Lemma handed_over_to tr sender t t' : handed_over tr sender t t' -> to t' = to t.
Proof.
  unfold handed_over. destruct (String.eqb (assetType t) "HBAR");
    [by intros ->|by intros (d & -> & _)].
Qed.

Lemma swapDialogLoop_hands_over wallet url fees n swaps panel :
  wp (swapDialogLoop wallet url fees n swaps panel)
    (fun o evs =>
       forall r, o = Returned r ->
         Forall2 (fun s s' =>
                    handed_over evs wallet (requester s) (requester s') /\
                    handed_over evs (to (requester s))
                      (setTo (responder s) wallet) (responder s'))
           swaps r.1).
Proof.
  revert n panel. induction swaps as [|swap swaps IH]; intros n panel.
  - simpl. intros r [= <-]. constructor.
  - cbn [swapDialogLoop]. apply wp_bind.
    eapply wp_mono; [apply createTxDialog_hands_over|]. cbv beta.
    intros [r1|e] evs1 H1; [|done]. specialize (H1 _ eq_refl).
    apply wp_bind. eapply wp_mono; [apply createTxDialog_hands_over|]. cbv beta.
    intros [r2|e] evs2 H2; [|done]. specialize (H2 _ eq_refl).
    apply wp_bind. eapply wp_mono; [apply IH|]. cbv beta.
    intros [r3|e] evs3 H3; cbn [wp]; [|done]. specialize (H3 _ eq_refl).
    intros r [= <-]. cbn [fst snd]. constructor.
    + cbn [requester responder]. split.
      * eapply handed_over_mono; [|exact H1]. intros e. rewrite !in_app_iff. tauto.
      * rewrite <- (handed_over_to H1).
        eapply handed_over_mono; [|exact H2]. intros e. rewrite !in_app_iff. tauto.
    + eapply Forall2_impl; [exact H3|]. intros s s' [Ha Hb].
      split; (eapply handed_over_mono; [|eassumption]);
        intros e; rewrite !in_app_iff; tauto.
Qed.

Lemma initiateSwap_swaps_handed_over w p :
  wp (initiateSwap w p)
    (fun _ tr =>
       forall swaps' memo maxFee fees addr m cl r,
         In (AtomicSwapCommand swaps' memo maxFee fees addr, m, cl, r)
           (commands_run tr) ->
         Forall2 (swap_handed_over tr
                    (hederaAccountId (currentAccount (state w)))
                    (percentageCut (default defaultServiceFee (serviceFee p))))
           (default [] (atomicSwaps p)) swaps').
Proof.
  unfold initiateSwap, currentAccountState.
  destruct (accountState (state w) !! _) as [per|]; [|by intros; simpl in *].
  destruct (per !! _) as [a|]; [|by intros; simpl in *].
  wp_peel; try (by intros; simpl in * ).
  apply wp_try_catch, wp_bind.
  eapply wp_mono;
    [apply (wp_and (swapDialogLoop_wp _ _ _ _ _ _)
                   (swapDialogLoop_hands_over _ _ _ _ _ _))|].
  cbv beta.
  intros [r|e] evs [[Hl _] Hh]; wp_peel;
    intros swaps' memo maxFee fees addr m cl r0 Hin;
    unfold commands_run in Hin; cbn [omap list_omap] in Hin;
    rewrite ?omap_app in Hin;
    rewrite (omap_lookups_only (f := fun e => match e with
                                             | EvCommand c m cl r => Some (c, m, cl, r)
                                             | _ => None
                                             end) Hl) in Hin by (by intros []);
    cbn [omap list_omap app] in Hin; simpl in Hin; destruct_or?; simplify_eq;
    specialize (Hh _ eq_refl); apply Forall2_deductFees in Hh;
    (eapply Forall2_impl; [exact Hh|]); intros s s' [Ha Hb];
    (split; (eapply handed_over_mono; [|eassumption]));
    intros ev; cbn [In]; rewrite !in_app_iff; tauto.
Qed.

Lemma updateTokenFeeSchedule_command env w p c m cl r :
  In (c, m, cl, r) (commands_run (run env (updateTokenFeeSchedule w p) []).2) ->
  exists info key,
    token_lookups (run env (updateTokenFeeSchedule w p) []).2
    = [(tokenId p, Ok info)] /\
    c = UpdateTokenFeeScheduleCommand (tokenId p) key (mirrorDecimals info)
          (default [] (customFees p)).
Proof.
  revert c m cl r.
  apply (wp_run (Q := fun _ tr => forall c m cl r,
    In (c, m, cl, r) (commands_run tr) ->
    exists info key,
      token_lookups tr = [(tokenId p, Ok info)] /\
      c = UpdateTokenFeeScheduleCommand (tokenId p) key (mirrorDecimals info)
            (default [] (customFees p)))).
  unfold updateTokenFeeSchedule, currentAccountState.
  destruct (customFees p) as [fees|]; [|by intros ? ? ? ? []].
  destruct (accountState (state w) !! _) as [per|]; [|by intros ? ? ? ? []].
  destruct (per !! _) as [a|]; [|by intros ? ? ? ? []].
  wp_peel; intros c m cl r Hin; simpl in Hin; destruct_or?; simplify_eq;
    by eexists _, _.
Qed.

(** X14: the command an operation calls, with the operation's method and on
    [getClient()] of the one client object built, is this.  [createTopic],
    [associateTokens] and [stakeHbar] pass the parameters of the request
    on.  [updateTokenFeeSchedule] passes the token id and the fees of the
    request, the private key of the client object, and as [decimals]
    [Number(decimals)] of what its one token lookup answered.
    [completeSwap] builds the command from empty arguments.  [initiateSwap]
    passes memo and maximal fee of the request, the fee map, the fee
    address ('0.0.98' by default), and the swaps of the request, one for
    one, changed in three ways: half the fee is deducted from every amount,
    the responder's [to] is the wallet's account, and every transfer of a
    token carries the finite [decimals] the run found for it, at the mirror
    node or else in the balance of its sender. *)
Theorem command_is_as_requested env w op c m cl r :
  let tr := (run env (facade w op) []).2 in
  In (c, m, cl, r) (commands_run tr) ->
  m = delegate op /\
  exists built,
    clients_built tr = [Ok (Some built)] /\ cl = getClient built /\
    requested_command w op built tr c.
Proof.
  intros tr Hin. destruct (facade_orderly env w op) as [_ _ _ _ _ _ _ H _ _].
  rewrite commands_run_key_events, clients_built_key_events in H.
  destruct (H _ _ _ _ Hin) as [Hm (built & Hb & Hcl & Hout)].
  split; [done|]. exists built. split_and!; [done..|].
  destruct op as [p|p|p|p|p|p];
    cbn [command_outline requested_command] in *; try done.
  - destruct Hout as (key & dec & Hkey & ->).
    destruct (updateTokenFeeSchedule_command Hin) as (info & key' & Hl & Hc).
    simplify_eq. by eexists _, info.
  - destruct Hout as (swaps' & ->). exists swaps'. split; [done|].
    by apply (wp_run env [] (initiateSwap_swaps_handed_over w p)
                _ _ _ _ _ _ _ _ Hin).
Qed.

End FacadeProofs.

(** ** The properties on the samples *)

Module SampleRuns.

Import Sample SampleFaults.
#[local] Existing Instance collaborators.

Lemma unconfirmed_dialog_rejects_sample :
  (In (Ok false) (dialog_replies rejectedSwap.2) /\
   commands_run rejectedSwap.2 = [] /\
   exists reply,
     notifications rejectedSwap.2
     = [("Error occurred: Error while trying to initiate atomic swap - " +:+
         printError (transactionRejected "User rejected the transaction"),
         reply)] /\
     rejectedSwap.1
     = Thrown (match reply with
               | Ok _ => transactionRejected
                           "Error while trying to initiate atomic swap"
               | Err e' => e'
               end)) /\
  (In (Ok false) (dialog_replies unnotifiedRun.2) /\
   commands_run unnotifiedRun.2 = [] /\
   exists reply,
     notifications unnotifiedRun.2
     = [("Error occurred: Error while trying to stake Hbar - " +:+
         printError (transactionRejected "User rejected the transaction"),
         reply)] /\
     unnotifiedRun.1
     = Thrown (match reply with
               | Ok _ => transactionRejected "Error while trying to stake Hbar"
               | Err e' => e'
               end)).
Proof.
  split.
  - destruct (@unconfirmed_dialog_rejects _ (answering false) wallet
                (InitiateSwap (swapRequest (Some 10)))
                rejectedSwap.1 rejectedSwap.2 (surjective_pairing _)) as [H _].
    assert (In (Ok false) (dialog_replies rejectedSwap.2)) as Hin
      by (vm_compute; left; reflexivity).
    exact (conj Hin (H Hin)).
  - destruct (@unconfirmed_dialog_rejects _ unnotified wallet
                (StakeHbar stakeRequest)
                unnotifiedRun.1 unnotifiedRun.2 (surjective_pairing _)) as [H _].
    assert (In (Ok false) (dialog_replies unnotifiedRun.2)) as Hin
      by (vm_compute; left; reflexivity).
    exact (conj Hin (H Hin)).
Defined.

(** C2, as the description has it, fails when the error notification of
    the [catch] block cannot be delivered: the user declines the dialog of
    [stakeHbar], and what is thrown is the error of the notification, not
    [transactionRejected]. *)
Lemma unconfirmed_dialog_without_rejection :
  In (Ok false) (dialog_replies unnotifiedRun.2) /\
  unnotifiedRun.1 = Thrown (Failure "notification failed") /\
  is_rejection unnotifiedRun.1 = false.
Proof.
  split; [vm_compute; left; reflexivity|]. split; reflexivity.
Qed.

(** C3, as the description has it, fails on [createTopic]: the dialog is
    shown before the client is built, and no state is persisted. *)
Lemma createTopic_not_in_described_order :
  topicRun.1 = Returned receipt /\
  sdk_order topicRun.2 = [ShowDialog; BuildClient; ExecuteCommand] /\
  sdk_order topicRun.2 <> described_order.
Proof. split; [reflexivity|]. split; [reflexivity|discriminate]. Qed.

Lemma sdk_calls_in_order_sample :
  stakeRun = (Returned receipt, stakeRun.2) /\
  sdk_order stakeRun.2 = [ShowDialog; BuildClient; ExecuteCommand; PersistState].
Proof.
  split; [reflexivity|].
  apply (@sdk_calls_in_order _ (answering true) wallet (StakeHbar stakeRequest)
           receipt stakeRun.2).
  reflexivity.
Defined.

Lemma returns_command_receipt_sample :
  completeRun = (Returned receipt, completeRun.2) /\
  exists c hederaClient,
    clients_built completeRun.2 = [Ok (Some hederaClient)] /\
    commands_run completeRun.2
    = [(c, completeSwapOn "0.0.77", getClient hederaClient, Ok receipt)].
Proof.
  split; [reflexivity|].
  apply (@returns_command_receipt _ (answering true) wallet
           (CompleteSwap {| scheduleId := "0.0.77" |}) receipt completeRun.2).
  reflexivity.
Defined.

(** C1 on a request of two swaps whose requesters send 100 and 200 of the
    same token and whose responders send 10 and 20 HBAR, at a cut of 10: the
    four fees are 10, 1, 20 and 2, each amount loses half its fee, the HBAR
    entry of the map handed to the command is the sum 3, but the entry of
    the token is 20, the fee of its last transfer, where adding up the fees
    of the token gives 30. *)
Lemma repeated_token_fee_not_summed :
  map (serviceFeeOf (of_Z 10)) (transfersOf swaps)
  = [of_Z 10; of_Z 1; of_Z 20; of_Z 2] /\
  map amount (transfersOf (deductFees (of_Z 10) swaps))
  = [of_Z 95; div (of_Z 19) (of_Z 2); of_Z 190; of_Z 19] /\
  map feeKey (transfersOf swaps) = ["0.0.123"; "HBAR"; "0.0.123"; "HBAR"] /\
  fee_entries "HBAR" swapRun.2 = [Some (of_Z 3)] /\
  fee_entries "0.0.123" swapRun.2 = [Some (of_Z 20)] /\
  summedFees (of_Z 10) swaps !! "HBAR" = Some (of_Z 3) /\
  summedFees (of_Z 10) swaps !! "0.0.123" = Some (of_Z 30).
Proof.
  split; [vm_compute; reflexivity|]. split; [vm_compute; reflexivity|].
  split; [vm_compute; reflexivity|]. split; [vm_compute; reflexivity|].
  split; [vm_compute; reflexivity|]. split; vm_compute; reflexivity.
Qed.

Lemma initiateSwap_redirects_responder_sample :
  length (commands_run swapRun.2) = 1%nat /\
  length (panels_rendered swapRun.2) = 1%nat /\
  (forall swaps' memo maxFee fees addr m cl r,
     In (AtomicSwapCommand swaps' memo maxFee fees addr, m, cl, r)
       (commands_run swapRun.2) ->
     length swaps' = 2%nat /\
     Forall (fun s' => to (responder s') = "0.0.1001") swaps') /\
  (forall panel reply, In (panel, reply) (panels_rendered swapRun.2) ->
     exists sections,
       panel = initiateSwapHeader (Some "swap") None ++ concat sections /\
       Forall2 (fun s nodes => swap_section "0.0.1001" (to (requester s)) nodes)
         swaps sections).
Proof.
  split; [vm_compute; reflexivity|]. split; [vm_compute; reflexivity|].
  exact (@initiateSwap_redirects_responder _ (answering true) wallet
           (swapRequest (Some 10))).
Defined.

Lemma initiateSwap_zero_cut_sample :
  is_zero (percentageCut defaultServiceFee) = true /\
  Forall (fun t => isFinite (amount t) = true) (transfersOf swaps) /\
  Forall (fun t => serviceFeeOf zero t = zero) (transfersOf swaps) /\
  forall swaps' memo maxFee fees addr m cl r,
    In (AtomicSwapCommand swaps' memo maxFee fees addr, m, cl, r)
      (commands_run plainSwapRun.2) ->
    map amount (transfersOf swaps') = map amount (transfersOf swaps) /\
    forall k v, fees !! k = Some v -> v = zero.
Proof.
  assert (is_zero (percentageCut defaultServiceFee) = true) as Hcut by reflexivity.
  assert (Forall (fun t => isFinite (amount t) = true) (transfersOf swaps)) as Hfin
    by (repeat constructor).
  split; [exact Hcut|]. split; [exact Hfin|].
  exact (@initiateSwap_zero_cut _ (answering true) wallet (swapRequest None) Hcut Hfin).
Defined.

Lemma stakeHbar_persists_staking_info_sample :
  stakeRun = (Returned receipt, stakeRun.2) /\
  exists st' a',
    states_saved stakeRun.2 = [(st', Ok tt)] /\
    currentAccount st' = currentAccount (state wallet) /\
    accountState st' !! "0xabc" ≫= (.!! "testnet") = Some a' /\
    (forall n, Some (of_Z 3) = Some n ->
       stakedNodeId (stakingInfo (accountInfo a')) = Some (printNumber n)) /\
    (forall acc, @None string = Some acc -> acc <> "" ->
       stakedAccountId (stakingInfo (accountInfo a')) = Some acc) /\
    declineStakingReward (stakingInfo (accountInfo a'))
    = bool_decide (Some (of_Z 3) = None /\ @None string = None).
Proof.
  split; [reflexivity|].
  apply (@stakeHbar_persists_staking_info _ (answering true) wallet stakeRequest
           receipt stakeRun.2).
  reflexivity.
Defined.

Lemma atomic_swap_dialogs_state_window_sample :
  (length (dialogs_shown swapRun.2) = 1%nat /\
   Forall (fun d =>
             dialogType d = "confirmation" /\
             exists panel,
               In (text ("Are you sure you want to execute the following swap? Note that the responder will also need to approve the swap by calling "
                         +:+ dquote +:+ "hts/completeSwap" +:+ dquote
                         +:+ " API within 30 minutes from now or the transaction will fail."))
                 panel /\
               In (panel, Ok (content d)) (panels_rendered swapRun.2))
     (dialogs_shown swapRun.2)) /\
  (length (dialogs_shown completeRun.2) = 1%nat /\
   Forall (fun d =>
             dialogType d = "confirmation" /\
             exists panel,
               In (text "Are you sure you want to execute the following swap? Note that all the parties involved in the swap must approve the swap within 30 minutes from now or the transaction will fail.")
                 panel /\
               In (panel, Ok (content d)) (panels_rendered completeRun.2))
     (dialogs_shown completeRun.2)).
Proof.
  split; (split; [vm_compute; reflexivity|]); apply List.Forall_forall; intros d Hd.
  - exact (proj1 (proj2 (@atomic_swap_dialogs_state_window _ (answering true) wallet))
             (swapRequest (Some 10)) d Hd).
  - exact (proj2 (proj2 (@atomic_swap_dialogs_state_window _ (answering true) wallet))
             {| scheduleId := "0.0.77" |} d Hd).
Defined.


Lemma updateTokenFeeSchedule_null_schedule_sample :
  customFees (feeScheduleRequest None) = None /\
  run (answering true) (updateTokenFeeSchedule wallet (feeScheduleRequest None)) []
  = (Thrown (invalidParams "null custom fee schedule given"),
     [EvConsoleError "null custom fee schedule given"]) /\
  ~ In (EvConsoleError "null custom fee schedule given")
      (run (answering true)
         (updateTokenFeeSchedule wallet (feeScheduleRequest (Some [customFee]))) []).2.
Proof.
  split; [reflexivity|]. split.
  - exact (proj1 (@updateTokenFeeSchedule_null_schedule _ (answering true) wallet
                    (feeScheduleRequest None)) eq_refl).
  - exact (proj1 (proj2 (@updateTokenFeeSchedule_null_schedule _ (answering true) wallet
                           (feeScheduleRequest (Some [customFee])))
                    [customFee] eq_refl)).
Defined.

End SampleRuns.

(** ** The further properties on the samples *)

Module FurtherRuns.

Import Sample SampleFaults.
#[local] Existing Instance collaborators.

Lemma token_number_is_first_occurrence_sample :
  exists j,
    (j <= 2)%nat /\ repeatedIds !! j = Some "0.0.123" /\
    (forall k, (k < j)%nat -> repeatedIds !! k <> Some "0.0.123") /\
    indexOf repeatedIds "0.0.123" = Z.of_nat j.
Proof.
  exact (@token_number_is_first_occurrence repeatedIds 2 "0.0.123" eq_refl).
Defined.

Lemma createTxDialog_nft_id_sample :
  (exists reply, token_lookups nftLeg.2 = [("0.0.555", Ok reply)]) /\
  match nftLeg.1 with
  | Returned r =>
      In (copyable "0.0.555") r.2 /\ In (text "NFT Serial Number: 7") r.2
  | Thrown _ => False
  end.
Proof.
  destruct (@createTxDialog_nft_id _ (answering true) [] "0.0.1001" nftTransfer
              "https://testnet.mirrornode.hedera.com" [] ∅ true
              "0.0.555" "7" "/9" nftLeg.1 nftLeg.2
              eq_refl eq_refl eq_refl (or_intror (ex_intro _ "9" eq_refl))
              eq_refl (surjective_pairing _)) as [_ H].
  destruct nftLeg.1 as [r|e] eqn:Ho; [|vm_compute in Ho; discriminate Ho].
  destruct (H r eq_refl) as (Hl & Hc & Hs). by split.
Defined.

Lemma serviceFeesToPay_token_entry_sample :
  serviceFeesToPayOf (of_Z 10) swaps !! feeKey lastTokenTransfer
  = Some (add zero (serviceFeeOf (of_Z 10) lastTokenTransfer)).
Proof.
  apply (@serviceFeesToPay_token_entry (of_Z 10) swaps
           [transfer "TOKEN" (Some "0.0.123") 100 "0.0.2002";
            transfer "HBAR" None 10 "0.0.9"]
           lastTokenTransfer
           [transfer "HBAR" None 20 "0.0.9"]).
  - reflexivity.
  - reflexivity.
  - apply Forall_cons_2; [discriminate|].
    apply Forall_cons_2; [discriminate|]. apply Forall_nil_2.
  - apply Forall_cons_2; [discriminate|]. apply Forall_nil_2.
Defined.

Lemma serviceFeesToPay_hbar_entry_sample :
  serviceFeesToPayOf (of_Z 10) swaps !! "HBAR"
  = hbarFees (of_Z 10) (transfersOf swaps) None.
Proof.
  apply (@serviceFeesToPay_hbar_entry (of_Z 10) swaps).
  repeat (apply Forall_cons_2; [discriminate|]). apply Forall_nil_2.
Defined.

Lemma state_saved_only_after_success_sample :
  length (states_saved stakeRun.2) = 1%nat /\
  Forall (fun x =>
            (exists p, StakeHbar stakeRequest = StakeHbar p) /\
            exists c cl r,
              commands_run stakeRun.2 = [(c, execute, cl, Ok r)] /\
              receipts_shown stakeRun.2 = [("testnet", r, Ok tt)])
    (states_saved stakeRun.2).
Proof.
  split; [vm_compute; reflexivity|]. apply List.Forall_forall. intros [st reply] Hin.
  exact (@state_saved_only_after_success _ (answering true) wallet
           (StakeHbar stakeRequest) stakeRun.1 stakeRun.2 st reply
           (surjective_pairing _) Hin).
Defined.

Lemma failure_after_rendering_is_rejection_sample :
  rejectedSwap
  = (Thrown (transactionRejected "Error while trying to initiate atomic swap"),
     rejectedSwap.2) /\
  length (panels_rendered rejectedSwap.2) = 1%nat /\
  Forall (fun r => r = Ok tt) (notification_replies rejectedSwap.2) /\
  transactionRejected "Error while trying to initiate atomic swap"
  = transactionRejected (error_message (InitiateSwap (swapRequest (Some 10)))).
Proof.
  assert (rejectedSwap
          = (Thrown (transactionRejected
                       "Error while trying to initiate atomic swap"),
             rejectedSwap.2)) as Hrun by reflexivity.
  assert (length (panels_rendered rejectedSwap.2) = 1%nat) as Hlen
    by (vm_compute; reflexivity).
  assert (Forall (fun r => r = Ok tt) (notification_replies rejectedSwap.2)) as Hn
    by (vm_compute; apply Forall_cons_2; [reflexivity|apply Forall_nil_2]).
  split; [exact Hrun|]. split; [exact Hlen|]. split; [exact Hn|].
  apply (@failure_after_rendering_is_rejection _ (answering false) wallet
           (InitiateSwap (swapRequest (Some 10)))
           (transactionRejected "Error while trying to initiate atomic swap")
           rejectedSwap.2 Hrun); [|exact Hn].
  intros H. rewrite H in Hlen. discriminate Hlen.
Defined.

Lemma dialog_shows_rendering_sample :
  length (dialogs_shown topicRun.2) = 1%nat /\
  Forall (fun d =>
            dialogType d = "confirmation" /\
            exists panel,
              renderings topicRun.2
              = [("https://dapp.example", "testnet",
                  "https://testnet.mirrornode.hedera.com", panel,
                  Ok (content d))])
    (dialogs_shown topicRun.2).
Proof.
  split; [vm_compute; reflexivity|]. apply List.Forall_forall. intros d Hd.
  exact (@dialog_shows_rendering _ (answering true) wallet
           (CreateTopic topicRequest) d Hd).
Defined.

Lemma client_built_for_current_account_sample :
  length (clients_requested topicRun.2) = 1%nat /\
  Forall (fun x =>
            exists a,
              currentAccountOf (state wallet) = Some a /\
              x = ("0.0.1001", "testnet", curve (keyStore a),
                   privateKey (keyStore a)))
    (clients_requested topicRun.2).
Proof.
  split; [vm_compute; reflexivity|]. apply List.Forall_forall. intros x Hx.
  exact (@client_built_for_current_account _ (answering true) wallet
           (CreateTopic topicRequest) x Hx).
Defined.

Lemma receipt_shown_is_command_answer_sample :
  length (receipts_shown completeRun.2) = 1%nat /\
  Forall (fun x =>
            x.1.1 = "testnet" /\
            exists c cl,
              commands_run completeRun.2
              = [(c, completeSwapOn "0.0.77", cl, Ok x.1.2)])
    (receipts_shown completeRun.2).
Proof.
  split; [vm_compute; reflexivity|]. apply List.Forall_forall.
  intros [[n r] reply] Hin.
  exact (@receipt_shown_is_command_answer _ (answering true) wallet
           (CompleteSwap {| scheduleId := "0.0.77" |}) n r reply Hin).
Defined.

Lemma command_is_as_requested_sample :
  length (commands_run swapRun.2) = 1%nat /\
  Forall (fun x =>
            x.1.1.2 = initiateSwapOn /\
            exists built,
              clients_built swapRun.2 = [Ok (Some built)] /\
              x.1.2 = getClient built /\
              requested_command wallet (InitiateSwap (swapRequest (Some 10)))
                built swapRun.2 x.1.1.1)
    (commands_run swapRun.2).
Proof.
  split; [vm_compute; reflexivity|]. apply List.Forall_forall.
  intros [[[c m] cl] r] Hin.
  exact (@command_is_as_requested _ (answering true) wallet
           (InitiateSwap (swapRequest (Some 10))) c m cl r Hin).
Defined.

Lemma notification_ends_the_run_sample :
  length (notifications rejectedSwap.2) = 1%nat /\
  Forall (fun x =>
            (exists e, x.1 = "Error occurred: Error while trying to initiate atomic swap - "
                             +:+ printError e) /\
            notifications rejectedSwap.2 = [x] /\
            rejectedSwap.1
            = Thrown (match x.2 with
                      | Ok _ => transactionRejected
                                  "Error while trying to initiate atomic swap"
                      | Err e' => e'
                      end))
    (notifications rejectedSwap.2).
Proof.
  split; [vm_compute; reflexivity|]. apply List.Forall_forall.
  intros [msg reply] Hin.
  exact (@notification_ends_the_run _ (answering false) wallet
           (InitiateSwap (swapRequest (Some 10))) rejectedSwap.1 rejectedSwap.2
           msg reply (surjective_pairing _) Hin).
Defined.

Lemma createTopic_outcome_sample :
  (exists r, topicRun.1 = Returned r) \/
  topicRun.1 = Thrown (transactionRejected "Error while trying to create a topic").
Proof.
  exact (@createTopic_outcome _ (answering true) wallet topicRequest account
           eq_refl).
Defined.

Lemma missing_account_state_throws_sample :
  exists msg,
    run (answering true) (facade emptyWallet (CreateTopic topicRequest)) []
    = (Thrown (TypeError msg), []).
Proof.
  apply (@missing_account_state_throws _ (answering true) emptyWallet
           (CreateTopic topicRequest)).
  - reflexivity.
  - intros p H. discriminate H.
Defined.

Lemma swap_client_failure_escapes_sample :
  length noClientRun.2 = 1%nat /\
  noClientRun.1 = Thrown (resourceUnavailable "hedera client returned null").
Proof.
  apply (@swap_client_failure_escapes _ (failing NoClient) wallet
           (CompleteSwap {| scheduleId := "0.0.77" |})
           noClientRun.1 noClientRun.2 (Ok None)).
  - right. eexists. reflexivity.
  - apply surjective_pairing.
  - reflexivity.
  - intros built H. discriminate H.
Defined.

Lemma updateTokenFeeSchedule_decimals_sample :
  length (commands_run feeScheduleRun.2) = 1%nat /\
  Forall (fun x =>
            exists info key,
              token_lookups feeScheduleRun.2 = [("0.0.123", Ok info)] /\
              x.1.1.1 = UpdateTokenFeeScheduleCommand "0.0.123" key
                          (mirrorDecimals info) [customFee])
    (commands_run feeScheduleRun.2).
Proof.
  split; [vm_compute; reflexivity|]. apply List.Forall_forall.
  intros [[[c m] cl] r] Hin.
  exact (@updateTokenFeeSchedule_decimals _ (answering true) wallet
           (feeScheduleRequest (Some [customFee])) c m cl r Hin).
Defined.

Lemma updateTokenFeeSchedule_lookup_failure_sample :
  feeScheduleDownRun.1 = Thrown mirrorDown /\
  feeScheduleDownRun.2
  = [EvGetTokenById "0.0.123" "https://testnet.mirrornode.hedera.com"
       (Err mirrorDown)].
Proof.
  apply (@updateTokenFeeSchedule_lookup_failure _ (failing MirrorDown) wallet
           (feeScheduleRequest (Some [customFee]))
           feeScheduleDownRun.1 feeScheduleDownRun.2 mirrorDown).
  - apply surjective_pairing.
  - vm_compute. left. reflexivity.
Defined.

Lemma stakeHbar_refuses_node_and_account_sample :
  exists line reply,
    (run (answering true) (stakeHbar wallet bothRequest) []).2
    = [EvConsoleError line;
       EvNotification
         ("Error occurred: Error while trying to stake Hbar - " +:+
          printError
            (methodNotSupported "Cannot stake to both a node and an account"))
         reply].
Proof.
  exact (@stakeHbar_refuses_node_and_account _ (answering true) wallet
           bothRequest account (of_Z 3) "0.0.5" eq_refl eq_refl eq_refl).
Defined.

Lemma stakeHbar_unknown_node_sample :
  exists line reply,
    unknownNodeRun.2
    = [EvGetNodeStakingInfo "https://testnet.mirrornode.hedera.com" (of_Z 3)
         (Ok []);
       EvConsoleError line;
       EvNotification
         ("Error occurred: Error while trying to stake Hbar - " +:+
          printError
            (methodNotSupported
               ("Node ID " +:+ printNumber (of_Z 3) +:+ " does not exist")))
         reply].
Proof.
  apply (@stakeHbar_unknown_node _ (failing UnknownNode) wallet stakeRequest
           unknownNodeRun.1 unknownNodeRun.2).
  - apply surjective_pairing.
  - vm_compute. left. reflexivity.
Defined.

Lemma stakeHbar_keeps_the_rest_sample :
  length (states_saved stakeRun.2) = 1%nat /\
  Forall (fun x =>
            currentAccount x.1 = currentAccount (state wallet) /\
            (forall addr net,
               (addr, net) <> ("0xabc", "testnet") ->
               accountState x.1 !! addr ≫= (.!! net)
               = accountState (state wallet) !! addr ≫= (.!! net)) /\
            exists a',
              currentAccountOf x.1 = Some a' /\
              keyStore a' = keyStore account /\
              (nodeId stakeRequest = None ->
                 stakedNodeId (stakingInfo (accountInfo a'))
                 = stakedNodeId (stakingInfo (accountInfo account))) /\
              (isEmpty (accountId stakeRequest) = true ->
                 stakedAccountId (stakingInfo (accountInfo a'))
                 = stakedAccountId (stakingInfo (accountInfo account))))
    (states_saved stakeRun.2).
Proof.
  split; [vm_compute; reflexivity|]. apply List.Forall_forall.
  intros [st reply] Hin.
  exact (@stakeHbar_keeps_the_rest _ (answering true) wallet stakeRequest
           account st reply eq_refl Hin).
Defined.

Lemma associateTokens_lookup_failure_sample :
  (exists infos,
     token_lookups associateDownRun.2
     = zip ["0.0.123"; "0.0.404"] (Ok <$> infos) ++ [("0.0.123", Err mirrorDown)] /\
     ["0.0.123"; "0.0.404"] !! length infos = Some "0.0.123") /\
  exists reply,
    key_events associateDownRun.2
    = [EvNotification
         ("Error occurred: Error while trying to associate tokens to the account - "
          +:+ printError mirrorDown) reply].
Proof.
  apply (@associateTokens_lookup_failure _ (failing MirrorDown) wallet
           associateRequest associateDownRun.1 associateDownRun.2
           "0.0.123" mirrorDown).
  - apply surjective_pairing.
  - vm_compute. left. reflexivity.
Defined.

Lemma createTxDialog_failures_sample :
  delegatedLeg.1
  = Thrown (methodNotSupported
              "Atomic Swaps cannot be done with delegated transfers at this time") /\
  (In (methodNotSupported
         "Atomic Swaps cannot be done with delegated transfers at this time")
      (lookup_failures delegatedLeg.2) \/
   (isEmpty (from delegatedTransfer) = false /\
    methodNotSupported
      "Atomic Swaps cannot be done with delegated transfers at this time"
    = methodNotSupported
        "Atomic Swaps cannot be done with delegated transfers at this time") \/
   (String.eqb (assetType delegatedTransfer) "HBAR" = false /\
    methodNotSupported
      "Atomic Swaps cannot be done with delegated transfers at this time"
    = invalidParams "decimals is not a finite number") \/
   (String.eqb (assetType delegatedTransfer) "NFT" = true /\
    assetId delegatedTransfer = None /\
    exists msg,
      methodNotSupported
        "Atomic Swaps cannot be done with delegated transfers at this time"
      = TypeError msg)).
Proof.
  split; [reflexivity|].
  apply (@createTxDialog_failures _ (answering true) [] "0.0.1001"
           delegatedTransfer "https://testnet.mirrornode.hedera.com" [] ∅ true
           _ delegatedLeg.2).
  reflexivity.
Defined.

Lemma createTxDialog_hbar_goes_through_sample :
  ltb (of_Z 1000) (amount largeTransfer) = true /\
  exists panel', largeLeg.1 = Returned (largeTransfer, panel').
Proof.
  split; [vm_compute; reflexivity|].
  apply (@createTxDialog_hbar_goes_through _ (answering true) [] "0.0.1001"
           largeTransfer "https://testnet.mirrornode.hedera.com" [] ∅ true).
  - reflexivity.
  - reflexivity.
  - vm_compute. reflexivity.
Defined.

Lemma initiateSwap_refuses_delegated_sample :
  panels_rendered (run (answering true) (initiateSwap wallet delegatedRequest) []).2 = [] /\
  dialogs_shown (run (answering true) (initiateSwap wallet delegatedRequest) []).2 = [] /\
  commands_run (run (answering true) (initiateSwap wallet delegatedRequest) []).2 = [].
Proof.
  apply (@initiateSwap_refuses_delegated _ (answering true) wallet delegatedRequest).
  apply Exists_cons_hd. reflexivity.
Defined.

Lemma initiateSwap_decimals_known_sample :
  length (commands_run swapRun.2) = 1%nat /\
  Forall (fun x =>
            match x.1.1.1 with
            | AtomicSwapCommand swaps' _ _ _ _ =>
                Forall decimals_known (transfersOf swaps')
            | _ => True
            end)
    (commands_run swapRun.2).
Proof.
  split; [vm_compute; reflexivity|]. apply List.Forall_forall.
  intros [[[c m] cl] r] Hin. destruct c as [| | | |swaps' memo maxFee fees addr];
    try exact I.
  exact (@initiateSwap_decimals_known _ (answering true) wallet
           (swapRequest (Some 10)) swaps' memo maxFee fees addr m cl r Hin).
Defined.

End FurtherRuns.
